(** * Wikibase bibliographic importer: model and properties

    A shallow embedding of [wikibase_data_processor.py] (the entity
    resolver [WikibaseHandler], the field transformers, the statement
    builder and the batch loop of [DataProcessor]) and of
    [search_person_by_name.py] (the query constructor).

    Python strings are modelled as [string] (sequences of 8-bit
    characters, so the model covers ASCII text); spreadsheet cells are a
    small tagged union of the Python values pandas hands to the code;
    exceptions are an explicit result type; the remote Wikibase is an
    abstract interface, and every call made to it is recorded in a log
    carried by the handler state.  The library functions the code calls
    and that may raise ([urlparse], the statement constructors of
    [wdi_core]) are interfaces as well, with a reference instance each
    to run the model on examples. *)

From Stdlib Require Import ZArith NArith Ascii String List Bool Lia.
From stdpp Require Import base decidable countable gmap strings list pretty.

Open Scope string_scope.
Open Scope list_scope.

(* Division and remainder by constants, for [lia]. *)
Ltac Zify.zify_post_hook ::= Z.to_euclidean_division_equations.

(** ** Python string primitives used by the source *)

Module PyStr.

(** The ASCII characters for which [str.isspace] holds: these are the
    separators of [str.split()] and the characters removed by
    [str.strip()]. *)
Definition isspace (c : ascii) : bool :=
  let n := N_of_ascii c in
  ((9 <=? n) && (n <=? 13) || (28 <=? n) && (n <=? 32))%N.

(** [s.lstrip()] *)
Fixpoint lstrip (s : string) : string :=
  match s with
  | String c s' => if isspace c then lstrip s' else s
  | EmptyString => EmptyString
  end.

(** [s.rstrip()] *)
Fixpoint rstrip (s : string) : string :=
  match s with
  | String c s' =>
      match rstrip s' with
      | EmptyString => if isspace c then EmptyString else String c EmptyString
      | t => String c t
      end
  | EmptyString => EmptyString
  end.

(** [s.strip()] *)
Definition strip (s : string) : string := rstrip (lstrip s).

(** [s.lstrip(c)] for a one-character argument. *)
Fixpoint lstrip_char (c : ascii) (s : string) : string :=
  match s with
  | String a s' => if Ascii.eqb a c then lstrip_char c s' else s
  | EmptyString => EmptyString
  end.

(** [s.split(sep)] for a one-character separator: empty pieces are
    kept, and the result is never the empty list. *)
Fixpoint split (sep : ascii) (s : string) : list string :=
  match s with
  | EmptyString => [EmptyString]
  | String c s' =>
      if Ascii.eqb c sep then EmptyString :: split sep s'
      else match split sep s' with
           | piece :: rest => String c piece :: rest
           | [] => [String c EmptyString]
           end
  end.

(** [s.split()] with no argument: runs of whitespace separate the
    tokens and empty tokens are dropped.  The auxiliary function
    returns the token under construction at the head of [s] together
    with the completed tokens after it. *)
Fixpoint split_ws_aux (s : string) : string * list string :=
  match s with
  | EmptyString => (EmptyString, [])
  | String c s' =>
      let '(cur, toks) := split_ws_aux s' in
      if isspace c
      then (EmptyString, match cur with EmptyString => toks | _ => cur :: toks end)
      else (String c cur, toks)
  end.

Definition split_ws (s : string) : list string :=
  let '(cur, toks) := split_ws_aux s in
  match cur with EmptyString => toks | _ => cur :: toks end.

(** [s.startswith(p)] *)
Fixpoint startswith (p s : string) : bool :=
  match p with
  | EmptyString => true
  | String a p' =>
      match s with
      | String b s' => Ascii.eqb a b && startswith p' s'
      | EmptyString => false
      end
  end.

(** [needle in s] *)
Fixpoint contains (needle s : string) : bool :=
  startswith needle s ||
  match s with
  | String _ s' => contains needle s'
  | EmptyString => false
  end.

(** [s.lower()] on ASCII letters. *)
Definition lower_char (c : ascii) : ascii :=
  let n := N_of_ascii c in
  if ((65 <=? n) && (n <=? 90))%N then ascii_of_N (n + 32) else c.

Fixpoint lower (s : string) : string :=
  match s with
  | String c s' => String (lower_char c) (lower s')
  | EmptyString => EmptyString
  end.

(** [sep.join(pieces)] *)
Fixpoint join (sep : string) (pieces : list string) : string :=
  match pieces with
  | [] => EmptyString
  | [p] => p
  | p :: rest => p ++ sep ++ join sep rest
  end.

End PyStr.

(** ** Exceptions and results *)

(** The Python exceptions the modelled code can raise. *)
Inductive exn : Type :=
  | ValueError
  | TypeError
  | AttributeError
  | NameError
  | AssertionError.

Inductive result (A : Type) : Type :=
  | Ok (a : A)
  | Raise (e : exn).
Arguments Ok {A} a.
Arguments Raise {A} e.


(** ** The fragment of [datetime] used by [_format_date] *)

Module Datetime.

Record datetime : Type := mk_datetime {
  year : N; month : N; day : N;
  hour : N; minute : N; second : N
}.

Definition is_leap (y : N) : bool :=
  ((y mod 4 =? 0) && (negb (y mod 100 =? 0) || (y mod 400 =? 0)))%N.

Definition days_in_month (y m : N) : N :=
  match m with
  | 1 | 3 | 5 | 7 | 8 | 10 | 12 => 31
  | 4 | 6 | 9 | 11 => 30
  | 2 => if is_leap y then 29 else 28
  | _ => 0
  end%N.

(** What the [date] constructor accepts: MINYEAR..MAXYEAR, a month,
    and a day of that month. *)
Definition valid_date (y m d : N) : bool :=
  ((1 <=? y) && (y <=? 9999) && (1 <=? m) && (m <=? 12) &&
   (1 <=? d) && (d <=? days_in_month y m))%N.

Definition valid_datetime (dt : datetime) : bool :=
  valid_date (year dt) (month dt) (day dt) &&
  ((hour dt <? 24) && (minute dt <? 60) && (second dt <? 60))%N.

Definition digit (n : N) : ascii := ascii_of_N (48 + n).

(** Zero-padded decimal fields, as [strftime] writes them. *)
Definition pad2 (n : N) : string :=
  String (digit (n / 10)) (String (digit (n mod 10)) EmptyString).

Definition pad4 (n : N) : string :=
  String (digit (n / 1000))
    (String (digit ((n / 100) mod 10)) (pad2 (n mod 100))).

(** [dt.strftime(fmt)] for the directives the source uses
    ([%d %m %Y %H %M %S]); any other character after [%] is copied.
    [%Y] is the year as the C library of CPython on Linux (glibc) writes
    it: in decimal, with no padding, so a year below 1000 has fewer than
    four digits. *)
Definition directive (c : ascii) (dt : datetime) : string :=
  match c with
  | "d" => pad2 (day dt)
  | "m" => pad2 (month dt)
  | "Y" => pretty (year dt)
  | "H" => pad2 (hour dt)
  | "M" => pad2 (minute dt)
  | "S" => pad2 (second dt)
  | _ => String c EmptyString
  end%char.

Fixpoint strftime (fmt : string) (dt : datetime) : string :=
  match fmt with
  | String "%" (String c rest) => directive c dt ++ strftime rest dt
  | String c rest => String c (strftime rest dt)
  | EmptyString => EmptyString
  end.

(** *** [datetime.strptime(s, "%d-%m-%Y")]

    [_strptime] compiles the format into the regular expression
    [(3[0-1]|[1-2]\d|0[1-9]|[1-9]| [1-9])-(1[0-2]|0[1-9]|[1-9])-(\d\d\d\d)],
    matches it at the start of the string, rejects the string when
    text remains after the match, and builds the date, which fails on
    an impossible calendar date.  Each directive is modelled by the
    list of its alternatives in the order the regular expression tries
    them. *)

(** A character that is a decimal digit between [lo] and [hi]. *)
Definition digit_in (lo hi : N) (c : ascii) : option N :=
  let n := N_of_ascii c in
  if ((48 + lo <=? n) && (n <=? 48 + hi))%N then Some (n - 48)%N else None.

Definition blank (c : ascii) : option N :=
  if Ascii.eqb c " " then Some 0%N else None.

Definition alt1 (p : ascii -> option N) (s : string) : list (N * string) :=
  match s with
  | String a r => match p a with Some x => [(x, r)] | None => [] end
  | EmptyString => []
  end.

Definition alt2 (p q : ascii -> option N) (s : string) : list (N * string) :=
  match s with
  | String a (String b r) =>
      match p a, q b with
      | Some x, Some y => [(10 * x + y, r)%N]
      | _, _ => []
      end
  | _ => []
  end.

(** [%d]: [3[0-1]|[1-2]\d|0[1-9]|[1-9]| [1-9]] *)
Definition match_d (s : string) : list (N * string) :=
  alt2 (digit_in 3 3) (digit_in 0 1) s ++
  alt2 (digit_in 1 2) (digit_in 0 9) s ++
  alt2 (digit_in 0 0) (digit_in 1 9) s ++
  alt1 (digit_in 1 9) s ++
  alt2 blank (digit_in 1 9) s.

(** [%m]: [1[0-2]|0[1-9]|[1-9]] *)
Definition match_m (s : string) : list (N * string) :=
  alt2 (digit_in 1 1) (digit_in 0 2) s ++
  alt2 (digit_in 0 0) (digit_in 1 9) s ++
  alt1 (digit_in 1 9) s.

(** [%Y]: [\d\d\d\d] *)
Definition match_Y (s : string) : list (N * string) :=
  match s with
  | String a (String b (String c (String d r))) =>
      match digit_in 0 9 a, digit_in 0 9 b, digit_in 0 9 c, digit_in 0 9 d with
      | Some x, Some y, Some z, Some w =>
          [(1000 * x + 100 * y + 10 * z + w, r)%N]
      | _, _, _, _ => []
      end
  | _ => []
  end.

(** A literal character of the format. *)
Definition lit (c : ascii) (s : string) : option string :=
  match s with
  | String a r => if Ascii.eqb a c then Some r else None
  | EmptyString => None
  end.

(** The first alternative, in order, for which the rest of the
    expression matches (backtracking). *)
Fixpoint first_match {A B} (k : A -> option B) (alts : list A) : option B :=
  match alts with
  | [] => None
  | a :: rest =>
      match k a with
      | Some b => Some b
      | None => first_match k rest
      end
  end.

(** The match of the whole expression: day, month, year and the text
    left after the match. *)
Definition regex_dmY (s : string) : option (N * N * N * string) :=
  first_match (fun '(d, s1) =>
    match lit "-" s1 with
    | None => None
    | Some s2 =>
      first_match (fun '(m, s3) =>
        match lit "-" s3 with
        | None => None
        | Some s4 =>
          first_match (fun '(y, s5) => Some (d, m, y, s5)) (match_Y s4)
        end) (match_m s2)
    end) (match_d s).

Definition strptime_dmY (s : string) : result datetime :=
  match regex_dmY s with
  | None => Raise ValueError                      (* does not match format *)
  | Some (d, m, y, rest) =>
      match rest with
      | String _ _ => Raise ValueError            (* unconverted data remains *)
      | EmptyString =>
          if valid_date y m d
          then Ok (mk_datetime y m d 0 0 0)
          else Raise ValueError                   (* day is out of range *)
      end
  end.

End Datetime.

(** ** Python values held by spreadsheet cells *)

Import Datetime.

(** A cell of a row as pandas hands it to the code: the missing value
    (NaN), an integer, a string or a datetime. *)
Inductive pyval : Type :=
  | VNaN
  | VInt (z : Z)
  | VStr (s : string)
  | VDatetime (d : datetime).

#[global] Instance datetime_eq_dec : EqDecision datetime.
Proof. solve_decision. Defined.

#[global] Instance pyval_eq_dec : EqDecision pyval.
Proof. solve_decision. Defined.

#[global] Instance datetime_countable : Countable datetime.
Proof.
  refine (inj_countable'
    (fun d => (year d, month d, day d, hour d, minute d, second d))
    (fun '(y, m, d, h, mi, s) => mk_datetime y m d h mi s) _).
  by intros [].
Defined.

#[global] Instance pyval_countable : Countable pyval.
Proof.
  refine (inj_countable'
    (fun v => match v with
              | VNaN => inl (inl tt)
              | VInt z => inl (inr z)
              | VStr s => inr (inl s)
              | VDatetime d => inr (inr d)
              end)
    (fun c => match c with
              | inl (inl _) => VNaN
              | inl (inr z) => VInt z
              | inr (inl s) => VStr s
              | inr (inr d) => VDatetime d
              end) _).
  by intros [].
Defined.

(** [pd.isnull(v)] *)
Definition isnull (v : pyval) : bool :=
  match v with VNaN => true | _ => false end.

(** [isinstance(v, int)] *)
Definition isinstance_int (v : pyval) : bool :=
  match v with VInt _ => true | _ => false end.

(** [str(dt)] of a datetime: ISO form with a space separator; the year
    is padded to four digits here. *)
Definition isoformat_space (d : datetime) : string :=
  pad4 (year d) +:+ "-" +:+ pad2 (month d) +:+ "-" +:+ pad2 (day d) +:+ " " +:+
  pad2 (hour d) +:+ ":" +:+ pad2 (minute d) +:+ ":" +:+ pad2 (second d).

(** [str(v)].  The source only applies [str] to cells that are not
    null. *)
Definition str (v : pyval) : string :=
  match v with
  | VNaN => "nan"
  | VInt z => pretty z
  | VStr s => s
  | VDatetime d => isoformat_space d
  end.

(** Truth value of a Python value in an [if]: NaN is a non-zero float,
    hence true; zero and the empty string are false. *)
Definition truthy (v : pyval) : bool :=
  match v with
  | VNaN => true
  | VInt z => negb (z =? 0)%Z
  | VStr s => negb (String.eqb s "")
  | VDatetime _ => true
  end.

(** Truth value of an entry of the properties dictionary, where [None]
    is Python's [None]. *)
Definition truthy_opt (p : option pyval) : bool :=
  match p with Some v => truthy v | None => false end.

(** ** Statements and the remote Wikibase *)

(** The statement classes of [wdi_core]: a value and a property number. *)
Inductive statement : Type :=
  | WDItemID (value : pyval) (prop_nr : string)
  | WDTime (value : pyval) (prop_nr : string)
  | WDString (value : pyval) (prop_nr : string)
  | WDExternalID (value : pyval) (prop_nr : string)
  | WDQuantity (value : pyval) (prop_nr : string)
  | WDUrl (value : pyval) (prop_nr : string).

#[global] Instance statement_eq_dec : EqDecision statement.
Proof. solve_decision. Defined.

Inductive value_kind : Type :=
  | Time | ItemRef | StringValue | ExternalId | Quantity | UrlValue.

Definition kind_of (st : statement) : value_kind :=
  match st with
  | WDItemID _ _ => ItemRef
  | WDTime _ _ => Time
  | WDString _ _ => StringValue
  | WDExternalID _ _ => ExternalId
  | WDQuantity _ _ => Quantity
  | WDUrl _ _ => UrlValue
  end.

Definition prop_of (st : statement) : string :=
  match st with
  | WDItemID _ p | WDTime _ p | WDString _ p
  | WDExternalID _ p | WDQuantity _ p | WDUrl _ p => p
  end.

Definition value_of (st : statement) : pyval :=
  match st with
  | WDItemID v _ | WDTime v _ | WDString v _
  | WDExternalID v _ | WDQuantity v _ | WDUrl v _ => v
  end.

(** The calls the code makes to the remote service through [wdi_core]. *)
Inductive api_call : Type :=
  | ApiSearch (title : pyval)                       (* get_wd_search_results *)
  | ApiCreate                                       (* WDItemEngine(data=[]) *)
  | ApiSetLabel (label : pyval) (lang : string)     (* set_label *)
  | ApiWrite (item_id : string) (data : list statement).  (* write *)

(** The remote service itself is a black box: a state, the ids a label
    search returns, the id a freshly written item receives, and the
    effect of writing statements to an item. *)
Class WikibaseAPI (Remote : Type) : Type := {
  get_wd_search_results : Remote -> pyval -> list string;
  write_new_item : Remote -> pyval -> Remote * string;
  write_item_data : Remote -> string -> list statement -> Remote
}.

(** The state of a [WikibaseHandler]: its cache, the remote service it
    talks to, and the log of the calls made so far. *)
Record handler (Remote : Type) : Type := mk_handler {
  cache : gmap pyval string;
  remote : Remote;
  calls : list api_call
}.
Arguments mk_handler {Remote} _ _ _.
Arguments cache {Remote} _.
Arguments remote {Remote} _.
Arguments calls {Remote} _.

(** Computations that read and update the handler and may raise. *)
Definition M (Remote A : Type) : Type :=
  handler Remote -> handler Remote * result A.

Definition ret {Remote A} (a : A) : M Remote A := fun h => (h, Ok a).

Definition raise {Remote A} (e : exn) : M Remote A := fun h => (h, Raise e).

Definition bind {Remote A B} (m : M Remote A) (k : A -> M Remote B) : M Remote B :=
  fun h =>
    match m h with
    | (h', Ok a) => k a h'
    | (h', Raise e) => (h', Raise e)
    end.

Notation "x <- m ;; k" := (bind m (fun x => k))
  (at level 100, m at next level, right associativity).

(** A list comprehension whose body has effects: elements are visited
    from left to right. *)
Fixpoint mapM {Remote A B} (f : A -> M Remote B) (l : list A) : M Remote (list B) :=
  match l with
  | [] => ret []
  | a :: rest =>
      b <- f a ;;
      bs <- mapM f rest ;;
      ret (b :: bs)
  end.

Module WikibaseHandler.
Section Handler.
Context {Remote : Type} `{WikibaseAPI Remote}.

Definition RESEARCH_ARTICLE : Z := 1.
Definition AUTHOR : Z := 2.

Definition log (c : list api_call) (h : handler Remote) : handler Remote :=
  mk_handler (cache h) (remote h) (calls h ++ c).

(** [WDItemEngine(wd_item_id=id, data=statements).write(login)] *)
Definition write_statements (item_id : string) (statements : list statement)
  (h : handler Remote) : handler Remote :=
  mk_handler (cache h)
    (write_item_data (remote h) item_id statements)
    (calls h ++ [ApiWrite item_id statements]).

Definition _add_research_article_statements (item_id : string)
  : handler Remote -> handler Remote :=
  write_statements item_id [WDItemID (VStr "Q2") "20"].

Definition _add_author_statements (item_id : string)
  : handler Remote -> handler Remote :=
  write_statements item_id [WDItemID (VStr "Q1") "20"].

Definition get_or_create_item (title : pyval) (item_type : Z) : M Remote string :=
  fun h =>
    match cache h !! title with
    | Some cached => (h, Ok cached)
    | None =>
        let item := get_wd_search_results (remote h) title in
        let h1 := log [ApiSearch title] h in
        match item with
        | found :: _ => (h1, Ok found)
        | [] =>
            let '(r, wd_item_id) := write_new_item (remote h1) title in
            let h2 := mk_handler (cache h1) r
                        (calls h1 ++ [ApiCreate; ApiSetLabel title "en";
                                      ApiWrite wd_item_id []]) in
            let h3 :=
              if (item_type =? RESEARCH_ARTICLE)%Z
              then _add_research_article_statements wd_item_id h2
              else if (item_type =? AUTHOR)%Z
              then _add_author_statements wd_item_id h2
              else h2 in
            (mk_handler (<[title := wd_item_id]> (cache h3)) (remote h3) (calls h3),
             Ok wd_item_id)
        end
    end.

End Handler.
End WikibaseHandler.

(** ** Rows, and the part of [urllib.parse] the source calls *)

(** One spreadsheet record, with the columns of [REQUIRED_FIELDS]. *)
Record row : Type := mk_row {
  Fecha_Publicacion : pyval;
  Categoria_Publicacion : pyval;
  Titulo : pyval;
  Autores : pyval;
  Fuente : pyval;
  Volumen : pyval;
  Numero : pyval;
  Pagina_Inicial : pyval;
  ISSN : pyval;
  DOI : pyval;
  Cuartil : pyval;
  Cuartil_criterio_IMFD : pyval;
  Red_Formal_en_la_que_Participa : pyval;
  Lineas_de_Investigacion : pyval;
  N_investigadores_asociados_del_centro : pyval;
  N_investigadores_del_centro_otra_categoria : pyval;
  N_estudiantes : pyval
}.

Definition cells (r : row) : list pyval :=
  [Fecha_Publicacion r; Categoria_Publicacion r; Titulo r; Autores r; Fuente r;
   Volumen r; Numero r; Pagina_Inicial r; ISSN r; DOI r; Cuartil r;
   Cuartil_criterio_IMFD r; Red_Formal_en_la_que_Participa r;
   Lineas_de_Investigacion r; N_investigadores_asociados_del_centro r;
   N_investigadores_del_centro_otra_categoria r; N_estudiantes r].

(** [row.isnull().all()] *)
Definition isnull_all (r : row) : bool := forallb isnull (cells r).

(** The result of [urlparse]; the library function is not part of the
    program and is taken as given.  It raises [ValueError] on some
    strings (an authority with an unbalanced bracket, for one). *)
Record ParseResult : Type := mk_ParseResult {
  scheme : string; netloc : string; path : string;
  params : string; query : string; fragment : string
}.

Class Urllib : Type := { urlparse : string -> result ParseResult }.

(** The constructors of the statement classes of [wdi_core] check their
    value and raise on one they do not accept ([WDUrl] on a text without
    a URL scheme, [WDString] on a value that is not a string, ...).  The
    library is not part of the program: what it rejects, and with which
    exception, is taken as given. *)
Class WdiDatatypes : Type := { rejects : statement -> option exn }.

(** [r] then [k], for computations that only may raise. *)
Definition and_then {A B} (r : result A) (k : A -> result B) : result B :=
  match r with
  | Ok a => k a
  | Raise e => Raise e
  end.

(** The properties dictionary built by [_gather_properties]; [None] is
    Python's [None]. *)
Record properties : Type := mk_properties {
  P2 : option pyval; P3 : option pyval; P5 : option pyval; P6 : option pyval;
  P7 : option pyval; P8 : option pyval; P9 : option pyval; P10 : option pyval;
  P11 : option pyval; P12 : option pyval; P13 : option pyval; P14 : option pyval;
  P16 : option pyval; P17 : option pyval; P18 : option pyval; P24 : option pyval
}.

Module DataProcessor.
Section Processor.
Context {Remote : Type} `{WikibaseAPI Remote} `{Urllib} `{WdiDatatypes}.

Import WikibaseHandler.

Definition lift {A} (r : result A) : M Remote A := fun h => (h, r).

Definition _format_date (date : pyval) : result string :=
  let date :=
    match date with
    | VDatetime d => VStr (strftime "%d-%m-%Y" d)
    | _ => date
    end in
  match date with
  | VStr s =>
      match strptime_dmY s with
      | Ok parsed => Ok (strftime "+%Y-%m-%dT%H:%M:%SZ" parsed)
      | Raise e => Raise e
      end
  | _ => Raise TypeError          (* strptime() argument 1 must be str *)
  end.

Definition _extract_doi (doi : pyval) : result (option string) :=
  match doi with
  | VStr doi =>
      if PyStr.contains "doi.org" doi then
        let doi := if negb (PyStr.startswith "http" doi)
                   then "https://" +:+ doi else doi in
        match urlparse doi with
        | Ok parsed => Ok (Some (PyStr.lstrip_char "/" (path parsed)))
        | Raise e => Raise e
        end
      else Ok None
  | _ => Raise TypeError          (* argument is not iterable *)
  end.

Definition _process_url (url : pyval) : result (option string) :=
  match url with
  | VStr url =>
      if negb (PyStr.contains "doi.org" url) then Ok (Some url) else Ok None
  | _ => Raise TypeError
  end.

(** [get_or_create_item(v) if not pd.isnull(v) else None] *)
Definition resolve_unless_null (v : pyval) : M Remote (option pyval) :=
  if negb (isnull v)
  then (item_id <- get_or_create_item v 0 ;; ret (Some (VStr item_id)))
  else ret None.

(** [str(v) if not pd.isnull(v) else None] *)
Definition str_unless_null (v : pyval) : option pyval :=
  if negb (isnull v) then Some (VStr (str v)) else None.

(** [v if not pd.isnull(v) else None] *)
Definition unless_null (v : pyval) : option pyval :=
  if negb (isnull v) then Some v else None.

Definition _gather_properties (r : row) (publication_date : string)
    (doi_identifier related_url : option string) : M Remote properties :=
  p3 <- resolve_unless_null (Categoria_Publicacion r) ;;
  p5 <- resolve_unless_null (Fuente r) ;;
  p14 <- resolve_unless_null (Red_Formal_en_la_que_Participa r) ;;
  ret {|
    P2 := Some (VStr publication_date);
    P3 := p3;
    P5 := p5;
    P6 := str_unless_null (Volumen r);
    P7 := if negb (isnull (Numero r)) && isinstance_int (Numero r)
          then Some (VStr (str (Numero r))) else None;
    P8 := Some (Titulo r);
    P9 := str_unless_null (Pagina_Inicial r);
    P10 := str_unless_null (ISSN r);
    P11 := VStr <$> doi_identifier;
    P12 := unless_null (Cuartil r);
    P13 := unless_null (Cuartil_criterio_IMFD r);
    P14 := p14;
    P16 := unless_null (N_investigadores_asociados_del_centro r);
    P17 := unless_null (N_investigadores_del_centro_otra_categoria r);
    P18 := unless_null (N_estudiantes r);
    P24 := VStr <$> related_url
  |}.

(** [v.split(sep)]: only strings have the method. *)
Definition py_split (sep : ascii) (v : pyval) : result (list string) :=
  match v with
  | VStr s => Ok (PyStr.split sep s)
  | _ => Raise AttributeError
  end.

(** [wdi_core.WDString(v, prop_nr=p)] and its siblings: the statement,
    unless the constructor raises. *)
Definition construct (st : statement) : result statement :=
  match rejects st with
  | Some e => Raise e
  | None => Ok st
  end.

(** [if properties[p]: item_statements.append(mk(properties[p], prop_nr=p))] *)
Definition append_if (p : option pyval) (mk : pyval -> statement)
    (item_statements : list statement) : result (list statement) :=
  match p with
  | Some v =>
      if truthy v
      then and_then (construct (mk v)) (fun st => Ok (item_statements ++ [st]))
      else Ok item_statements
  | None => Ok item_statements
  end.

(** The sixteen conditional appends that end [_create_statements]; the
    first constructor that raises ends them. *)
Definition append_properties (ps : properties)
    (item_statements : list statement) : result (list statement) :=
  let st := item_statements in
  and_then (append_if (P2 ps) (fun v => WDTime v "P2") st) (fun st =>
  and_then (append_if (P3 ps) (fun v => WDItemID v "P3") st) (fun st =>
  and_then (append_if (P5 ps) (fun v => WDItemID v "P5") st) (fun st =>
  and_then (append_if (P6 ps) (fun v => WDString v "P6") st) (fun st =>
  and_then (append_if (P7 ps) (fun v => WDString v "P7") st) (fun st =>
  and_then (append_if (P8 ps) (fun v => WDString v "P8") st) (fun st =>
  and_then (append_if (P9 ps) (fun v => WDString v "P9") st) (fun st =>
  and_then (append_if (P10 ps) (fun v => WDExternalID v "P10") st) (fun st =>
  and_then (append_if (P11 ps) (fun v => WDExternalID v "P11") st) (fun st =>
  and_then (append_if (P12 ps) (fun v => WDString v "P12") st) (fun st =>
  and_then (append_if (P13 ps) (fun v => WDString v "P13") st) (fun st =>
  and_then (append_if (P14 ps) (fun v => WDItemID v "P14") st) (fun st =>
  and_then (append_if (P16 ps) (fun v => WDQuantity v "P16") st) (fun st =>
  and_then (append_if (P17 ps) (fun v => WDQuantity v "P17") st) (fun st =>
  and_then (append_if (P18 ps) (fun v => WDQuantity v "P18") st) (fun st =>
  append_if (P24 ps) (fun v => WDUrl v "P24") st))))))))))))))).

(** One element of the two list comprehensions: the name is stripped
    and resolved, and [wdi_core.WDItemID] is built on the id returned.
    The ids a Wikibase issues are of the form this constructor accepts
    (a "Q" and digits), so the construction is taken not to raise
    here. *)
Definition author_statement (author : string) : M Remote statement :=
  item_id <- get_or_create_item (VStr (PyStr.strip author)) AUTHOR ;;
  ret (WDItemID (VStr item_id) "P4").

Definition research_line_statement (research_line : string) : M Remote statement :=
  item_id <- get_or_create_item (VStr (PyStr.strip research_line)) 0 ;;
  ret (WDItemID (VStr item_id) "P15").

Definition _create_statements (ps : properties) (r : row)
  : M Remote (list statement) :=
  let item_statements := [] in
  authors <- lift (py_split "," (Autores r)) ;;
  author_statements <- mapM author_statement authors ;;
  let item_statements := item_statements ++ author_statements in
  research_lines <- lift (py_split ";" (Lineas_de_Investigacion r)) ;;
  research_line_statements <- mapM research_line_statement research_lines ;;
  let item_statements := item_statements ++ research_line_statements in
  lift (append_properties ps item_statements).

Definition _process_row (r : row) : M Remote unit :=
  let title := Titulo r in
  item_id <- get_or_create_item title RESEARCH_ARTICLE ;;
  publication_date <- lift (_format_date (Fecha_Publicacion r)) ;;
  doi_identifier <-
    (if negb (isnull (DOI r)) then lift (_extract_doi (DOI r)) else ret None) ;;
  related_url <-
    (if negb (isnull (DOI r)) then lift (_process_url (DOI r)) else ret None) ;;
  ps <- _gather_properties r publication_date doi_identifier related_url ;;
  item_statements <- _create_statements ps r ;;
  fun h => (write_statements item_id item_statements h, Ok tt).

(** The loop of [process_data]: rows in order, leaving the loop at the
    first row whose cells are all null; an exception raised by a row
    ends the loop as well. *)
Fixpoint process_rows (data : list row) : M Remote unit :=
  match data with
  | [] => ret tt
  | r :: rest =>
      if isnull_all r then ret tt
      else (_ <- _process_row r ;; process_rows rest)
  end.

(** [process_data], given the answer typed at the confirmation prompt. *)
Definition process_data (data : list row) (response : string) : M Remote unit :=
  let response := PyStr.lower (PyStr.strip response) in
  if negb (String.eqb response "yes") then ret tt
  else process_rows data.

End Processor.
End DataProcessor.

(** ** [search_person_by_name.py] *)

Module SearchPerson.

Definition endpoint_url : string :=
  "https://query.wikibase.imfd.cl/proxy/wdqs/bigdata/namespace/wdq/sparql".

Definition nl : string := String (ascii_of_N 10) EmptyString.
Definition dq : string := String (ascii_of_N 34) EmptyString.

(** [s[0]] of a non-empty string, as a string. *)
Definition first_char (s : string) : string :=
  match s with
  | String c _ => String c EmptyString
  | EmptyString => EmptyString
  end.

(** The three patterns built from the first and the last token. *)
Definition patterns (first_name last_name : string) : list string :=
  [ last_name +:+ " " +:+ first_char first_name;
    first_char first_name +:+ ". " +:+ last_name;
    first_name +:+ " " +:+ last_name ].

(** The text of the query around the regular expression. *)
Definition query_text (regex_pattern : string) : string :=
  nl +:+
  "    SELECT ?person ?personLabel WHERE {" +:+ nl +:+
  "      ?person wdt:P20 wd:Q1;" +:+ nl +:+
  "             rdfs:label ?personLabel." +:+ nl +:+
  nl +:+
  "      # Aplica un filtro REGEX para encontrar coincidencias flexibles" +:+ nl +:+
  "      FILTER (REGEX(?personLabel, " +:+ dq +:+ regex_pattern +:+ dq +:+
    ", " +:+ dq +:+ "i" +:+ dq +:+ "))." +:+ nl +:+
  nl +:+
  "      # Esto asegurará que las etiquetas sean devueltas en el idioma preferido" +:+ nl +:+
  "      FILTER (LANG(?personLabel) = " +:+ dq +:+ "en" +:+ dq +:+ ")." +:+ nl +:+
  "    }" +:+ nl +:+
  "    ".

Definition construct_query (name : string) : result string :=
  let parts := PyStr.split_ws name in
  if (length parts <? 2)%nat then Raise ValueError
  else
    let first_name := hd EmptyString parts in
    let last_name := List.last parts EmptyString in
    let regex_pattern := PyStr.join "|" (patterns first_name last_name) in
    Ok (query_text regex_pattern).

(** Requests sent to the SPARQL endpoint. *)
Inductive net_call : Type :=
  | SparqlQuery (endpoint query : string).

Definition Net (A : Type) : Type := list net_call -> list net_call * result A.

(** [get_results] starts by formatting the user agent from
    [sys.version_info]; the module never imports [sys], so the
    evaluation of that name raises before the wrapper is built. *)
Definition get_results (endpoint query : string) : Net (list string) :=
  fun net => (net, Raise NameError).

Definition search_person_by_name (name : string) : Net (list string) :=
  fun net =>
    match construct_query name with
    | Raise e => (net, Raise e)
    | Ok query => get_results endpoint_url query net
    end.

End SearchPerson.

(** ** A small in-memory Wikibase, used to run the model on examples *)

Module MemoryWikibase.

(** Items as (id, label) pairs together with the statements written to
    them; a search returns the ids whose label is the title; new items
    are numbered from the size of the store. *)
Record store : Type := mk_store {
  items : list (string * pyval);
  written : list (string * list statement)
}.

Definition search (s : store) (title : pyval) : list string :=
  (filter (fun it => bool_decide (it.2 = title)) (items s)).*1.

Definition fresh_id (s : store) : string :=
  "Q" +:+ pretty (N.of_nat (length (items s)) + 1)%N.

Definition create (s : store) (label : pyval) : store * string :=
  (mk_store (items s ++ [(fresh_id s, label)]) (written s), fresh_id s).

Definition write (s : store) (item_id : string) (data : list statement) : store :=
  mk_store (items s) (written s ++ [(item_id, data)]).

Definition api : WikibaseAPI store := {|
  get_wd_search_results := search;
  write_new_item := create;
  write_item_data := write
|}.

Definition empty : store := mk_store [] [].

Definition fresh_handler : handler store := mk_handler ∅ empty [].

(** *** A reference [urlparse]

    The steps of [urllib.parse.urlparse] on text without control
    characters: the scheme before the first colon, the authority after
    a double slash (an unbalanced bracket in it raises [ValueError]),
    the fragment, the query, and the parameters of the last path
    segment.  Bracketed hosts are not checked further. *)

Definition is_alpha (c : ascii) : bool :=
  let n := N_of_ascii c in
  ((65 <=? n) && (n <=? 90) || (97 <=? n) && (n <=? 122))%N.

Definition is_scheme_char (c : ascii) : bool :=
  let n := N_of_ascii c in
  is_alpha c || ((48 <=? n) && (n <=? 57))%N ||
  Ascii.eqb c "+" || Ascii.eqb c "-" || Ascii.eqb c ".".

Fixpoint all_chars (p : ascii -> bool) (s : string) : bool :=
  match s with
  | String c s' => p c && all_chars p s'
  | EmptyString => true
  end.

Fixpoint has_char (c : ascii) (s : string) : bool :=
  match s with
  | String a s' => Ascii.eqb a c || has_char c s'
  | EmptyString => false
  end.

(** The text before the first character satisfying [p], and the text
    from that character on. *)
Fixpoint break_at (p : ascii -> bool) (s : string) : string * string :=
  match s with
  | String c s' =>
      if p c then (EmptyString, s)
      else let '(a, b) := break_at p s' in (String c a, b)
  | EmptyString => (EmptyString, EmptyString)
  end.

Definition tail (s : string) : string :=
  match s with String _ s' => s' | EmptyString => EmptyString end.

(** The text up to and including the last slash, and the segment after
    it. *)
Fixpoint split_last_slash (s : string) : string * string :=
  match s with
  | String c s' =>
      let '(a, b) := split_last_slash s' in
      match a with
      | EmptyString =>
          if Ascii.eqb c "/" then (String c EmptyString, b)
          else (EmptyString, String c b)
      | _ => (String c a, b)
      end
  | EmptyString => (EmptyString, EmptyString)
  end.

Definition uses_params : list string :=
  [""; "ftp"; "hdl"; "prospero"; "http"; "imap"; "https"; "shttp"; "rtsp";
   "rtspu"; "sip"; "sips"; "mms"; "sftp"; "tel"].

Definition split_scheme (url : string) : string * string :=
  let '(before, rest) := break_at (fun c => Ascii.eqb c ":") url in
  match before, rest with
  | String c _, String _ after =>
      if is_alpha c && all_chars is_scheme_char before
      then (PyStr.lower before, after)
      else (EmptyString, url)
  | _, _ => (EmptyString, url)
  end.

Definition reference_urlparse (url : string) : result ParseResult :=
  let '(scheme, url) := split_scheme url in
  let '(netloc, url) :=
    if PyStr.startswith "//" url
    then break_at (fun c => Ascii.eqb c "/" || Ascii.eqb c "?" || Ascii.eqb c "#")
           (tail (tail url))
    else (EmptyString, url) in
  if has_char "[" netloc && negb (has_char "]" netloc) ||
     has_char "]" netloc && negb (has_char "[" netloc)
  then Raise ValueError                               (* Invalid IPv6 URL *)
  else
    let '(url, rest) := break_at (fun c => Ascii.eqb c "#") url in
    let fragment := tail rest in
    let '(url, rest) := break_at (fun c => Ascii.eqb c "?") url in
    let query := tail rest in
    let '(url, params) :=
      if bool_decide (scheme ∈ uses_params) && has_char ";" url
      then
        let '(dirs, segment) := split_last_slash url in
        let '(name, rest) := break_at (fun c => Ascii.eqb c ";") segment in
        match rest with
        | String _ params => (dirs +:+ name, params)
        | EmptyString => (url, EmptyString)
        end
      else (url, EmptyString) in
    Ok (mk_ParseResult scheme netloc url params query fragment).

Definition urllib : Urllib := {| urlparse := reference_urlparse |}.

(** *** Reference checks of the statement constructors

    [WDUrl] wants a string that starts with one of its protocols
    ([ValueError] otherwise, [AttributeError] on a value with no
    [startswith]); [WDString] and [WDExternalID] assert that the value
    is a string.  The other constructors are taken to accept the values
    the code hands them. *)

Definition url_protocols : list string :=
  ["http://"; "https://"; "ftp://"; "irc://"; "mailto:"].

Definition reference_rejects (st : statement) : option exn :=
  match st with
  | WDUrl (VStr s) _ =>
      if existsb (fun p => PyStr.startswith p s) url_protocols
      then None else Some ValueError
  | WDUrl _ _ => Some AttributeError
  | WDString (VStr _) _ | WDExternalID (VStr _) _ => None
  | WDString _ _ | WDExternalID _ _ => Some AssertionError
  | _ => None
  end.

Definition datatypes : WdiDatatypes := {| rejects := reference_rejects |}.

End MemoryWikibase.

(** * Vocabulary of the properties *)

(** [needle] occurs in [s]. *)
Definition occurs_in (needle s : string) : Prop :=
  exists before after, s = before +:+ needle +:+ after.

(** The double quote, and the clause of the SPARQL query that filters
    the labels with a regular expression, case-insensitively. *)
Definition quote : string := String (ascii_of_N 34) EmptyString.

Definition regex_filter (regex_pattern : string) : string :=
  "FILTER (REGEX(?personLabel, " +:+ quote +:+ regex_pattern +:+ quote +:+
  ", " +:+ quote +:+ "i" +:+ quote +:+ ")).".

(** The string handed to [urlparse]: the scheme is prefixed when the raw
    value does not start with "http". *)
Definition with_scheme (raw : string) : string :=
  if PyStr.startswith "http" raw then raw else "https://" +:+ raw.

(** The ways [strptime] lets a day and a month be written: two digits,
    or, below ten, the digit alone (for a day also after a blank). *)
Definition day_forms (d : N) : list string :=
  pad2 d ::
  (if (d <? 10)%N
   then [String (digit d) EmptyString; String " " (String (digit d) EmptyString)]
   else []).

Definition month_forms (m : N) : list string :=
  pad2 m :: (if (m <? 10)%N then [String (digit m) EmptyString] else []).

(** [s] writes the date [y]-[m]-[d] in day-month-year form. *)
Definition day_month_year (s : string) (y m d : N) : Prop :=
  exists ds ms,
    In ds (day_forms d) /\ In ms (month_forms m) /\
    s = ds +:+ "-" +:+ ms +:+ "-" +:+ pad4 y.

(** The Wikibase time value for midnight UTC of a date. *)
Definition timestamp (y m d : N) : string :=
  "+" +:+ pad4 y +:+ "-" +:+ pad2 m +:+ "-" +:+ pad2 d +:+ "T00:00:00Z".

(** ** Sample data *)

Definition handler_with_cached_author : handler MemoryWikibase.store :=
  mk_handler {[ VStr "Jane Doe" := "Q7" ]} MemoryWikibase.empty [].

(** A store that already holds an item labelled "Nature", and a handler
    whose cache is empty. *)
Definition store_with_nature : MemoryWikibase.store :=
  MemoryWikibase.mk_store [("Q1", VStr "Nature")] [].

Definition handler_before_nature : handler MemoryWikibase.store :=
  mk_handler ∅ store_with_nature [].

(** ** Statements of a property, and the fields of a row *)

(** The statements of a list that are on property [p], in order. *)
Definition statements_on (p : string) (sts : list statement) : list statement :=
  filter (fun st => prop_of st = p) sts.

(** What one conditional append contributes. *)
Definition emit (o : option pyval) (mk : pyval -> statement) : list statement :=
  match o with
  | Some v => if truthy v then [mk v] else []
  | None => []
  end.

(** What the sixteen conditional appends contribute when none of the
    constructors raises, in source order. *)
Definition scalar_statements (ps : properties) : list statement :=
  emit (P2 ps) (fun v => WDTime v "P2")
  ++ emit (P3 ps) (fun v => WDItemID v "P3")
  ++ emit (P5 ps) (fun v => WDItemID v "P5")
  ++ emit (P6 ps) (fun v => WDString v "P6")
  ++ emit (P7 ps) (fun v => WDString v "P7")
  ++ emit (P8 ps) (fun v => WDString v "P8")
  ++ emit (P9 ps) (fun v => WDString v "P9")
  ++ emit (P10 ps) (fun v => WDExternalID v "P10")
  ++ emit (P11 ps) (fun v => WDExternalID v "P11")
  ++ emit (P12 ps) (fun v => WDString v "P12")
  ++ emit (P13 ps) (fun v => WDString v "P13")
  ++ emit (P14 ps) (fun v => WDItemID v "P14")
  ++ emit (P16 ps) (fun v => WDQuantity v "P16")
  ++ emit (P17 ps) (fun v => WDQuantity v "P17")
  ++ emit (P18 ps) (fun v => WDQuantity v "P18")
  ++ emit (P24 ps) (fun v => WDUrl v "P24").

(** The names resolved one after the other, each from the handler state
    the previous one left, with the ids returned. *)
Inductive resolved_in_order {Remote : Type} `{WikibaseAPI Remote} (item_type : Z)
  : list string -> handler Remote -> list string -> handler Remote -> Prop :=
  | resolved_nil (h : handler Remote) :
      resolved_in_order item_type [] h [] h
  | resolved_cons (name : string) (names : list string) (h h1 h2 : handler Remote)
      (item_id : string) (ids : list string) :
      WikibaseHandler.get_or_create_item (VStr name) item_type h = (h1, Ok item_id) ->
      resolved_in_order item_type names h1 ids h2 ->
      resolved_in_order item_type (name :: names) h (item_id :: ids) h2.

(** The scalar and reference fields of a row. *)
Inductive field : Type :=
  | PublicationDate | Category | Venue | Volume | Issue | Title | StartPage
  | Issn | DoiId | Quartile | QuartileCriterion | FormalNetwork
  | AssociatedResearchers | OtherResearchers | Students | RelatedUrl.

Definition field_prop (f : field) : string :=
  match f with
  | PublicationDate => "P2" | Category => "P3" | Venue => "P5"
  | Volume => "P6" | Issue => "P7" | Title => "P8" | StartPage => "P9"
  | Issn => "P10" | DoiId => "P11" | Quartile => "P12"
  | QuartileCriterion => "P13" | FormalNetwork => "P14"
  | AssociatedResearchers => "P16" | OtherResearchers => "P17"
  | Students => "P18" | RelatedUrl => "P24"
  end.

Definition field_kind (f : field) : value_kind :=
  match f with
  | PublicationDate => Time
  | Category | Venue | FormalNetwork => ItemRef
  | Volume | Issue | Title | StartPage | Quartile | QuartileCriterion => StringValue
  | Issn | DoiId => ExternalId
  | AssociatedResearchers | OtherResearchers | Students => Quantity
  | RelatedUrl => UrlValue
  end.

(** The cell a field is read from; the DOI column feeds both the DOI
    identifier and the related URL. *)
Definition field_source (f : field) (r : row) : pyval :=
  match f with
  | PublicationDate => Fecha_Publicacion r
  | Category => Categoria_Publicacion r
  | Venue => Fuente r
  | Volume => Volumen r
  | Issue => Numero r
  | Title => Titulo r
  | StartPage => Pagina_Inicial r
  | Issn => ISSN r
  | DoiId | RelatedUrl => DOI r
  | Quartile => Cuartil r
  | QuartileCriterion => Cuartil_criterio_IMFD r
  | FormalNetwork => Red_Formal_en_la_que_Participa r
  | AssociatedResearchers => N_investigadores_asociados_del_centro r
  | OtherResearchers => N_investigadores_del_centro_otra_categoria r
  | Students => N_estudiantes r
  end.

(** The statement of a field's value-kind on the field's property. *)
Definition field_statement (f : field) (v : pyval) : statement :=
  match field_kind f with
  | Time => WDTime v (field_prop f)
  | ItemRef => WDItemID v (field_prop f)
  | StringValue => WDString v (field_prop f)
  | ExternalId => WDExternalID v (field_prop f)
  | Quantity => WDQuantity v (field_prop f)
  | UrlValue => WDUrl v (field_prop f)
  end.

(** A source value is present when it is neither null nor empty. *)
Definition present (v : pyval) : bool :=
  match v with
  | VNaN => false
  | VStr s => negb (String.eqb s "")
  | _ => true
  end.

(** The property as first stated: one statement of the field's kind when
    the source value is present, none when it is absent. *)
Definition one_statement_iff_present (r : row) (sts : list statement) (f : field)
  : Prop :=
  (present (field_source f r) = true ->
     exists st, statements_on (field_prop f) sts = [st] /\
                kind_of st = field_kind f) /\
  (present (field_source f r) = false ->
     statements_on (field_prop f) sts = []).

(** The value of the statement written for a field that is not a
    reference, when there is one, for a row whose date is formatted to
    [publication_date]: the date; the text of a volume, start page or
    ISSN that is present; the decimal writing of an integer issue
    number; a title that is true (neither empty nor zero); a quartile,
    quartile criterion or count that is not null and is true; the path
    of the DOI link without its leading slashes, when it is not empty;
    the DOI cell itself when it is a non-empty string without
    "doi.org". *)
Definition emitted_value `{Urllib} (f : field) (r : row) (publication_date : string)
  : option pyval :=
  match f with
  | PublicationDate => Some (VStr publication_date)
  | Category | Venue | FormalNetwork => None
  | Volume | StartPage | Issn =>
      if present (field_source f r) then Some (VStr (str (field_source f r)))
      else None
  | Issue =>
      match Numero r with
      | VInt n => Some (VStr (pretty n))
      | _ => None
      end
  | Title => if truthy (Titulo r) then Some (Titulo r) else None
  | DoiId =>
      match DOI r with
      | VStr s =>
          if PyStr.contains "doi.org" s then
            match urlparse (with_scheme s) with
            | Ok parsed =>
                if String.eqb (PyStr.lstrip_char "/" (path parsed)) EmptyString
                then None
                else Some (VStr (PyStr.lstrip_char "/" (path parsed)))
            | Raise _ => None
            end
          else None
      | _ => None
      end
  | RelatedUrl =>
      match DOI r with
      | VStr s =>
          if PyStr.contains "doi.org" s || String.eqb s EmptyString then None
          else Some (VStr s)
      | _ => None
      end
  | Quartile | QuartileCriterion
  | AssociatedResearchers | OtherResearchers | Students =>
      if negb (isnull (field_source f r)) && truthy (field_source f r)
      then Some (field_source f r) else None
  end.

(** The handler state in which [_process_row], started from [h],
    resolves the source of a reference field: the category after the
    title, the venue after the category, the formal network after the
    venue. *)
Definition resolution_state {Remote : Type} `{WikibaseAPI Remote}
    (f : field) (r : row) (h : handler Remote) : handler Remote :=
  let h1 := (WikibaseHandler.get_or_create_item (Titulo r)
               WikibaseHandler.RESEARCH_ARTICLE h).1 in
  let h3 := (DataProcessor.resolve_unless_null (Categoria_Publicacion r) h1).1 in
  let h5 := (DataProcessor.resolve_unless_null (Fuente r) h3).1 in
  match f with
  | Category => h1
  | Venue => h3
  | FormalNetwork => h5
  | _ => h
  end.

(** What [_gather_properties] puts in the dictionary for a row. *)
Definition gathered_from (r : row) (publication_date : string)
    (doi_identifier related_url : option string) (ps : properties) : Prop :=
  P2 ps = Some (VStr publication_date) /\
  (isnull (Categoria_Publicacion r) = true -> P3 ps = None) /\
  (isnull (Categoria_Publicacion r) = false ->
     exists item_id, P3 ps = Some (VStr item_id)) /\
  (isnull (Fuente r) = true -> P5 ps = None) /\
  (isnull (Fuente r) = false -> exists item_id, P5 ps = Some (VStr item_id)) /\
  P6 ps = DataProcessor.str_unless_null (Volumen r) /\
  P7 ps = (if negb (isnull (Numero r)) && isinstance_int (Numero r)
           then Some (VStr (str (Numero r))) else None) /\
  P8 ps = Some (Titulo r) /\
  P9 ps = DataProcessor.str_unless_null (Pagina_Inicial r) /\
  P10 ps = DataProcessor.str_unless_null (ISSN r) /\
  P11 ps = VStr <$> doi_identifier /\
  P12 ps = DataProcessor.unless_null (Cuartil r) /\
  P13 ps = DataProcessor.unless_null (Cuartil_criterio_IMFD r) /\
  (isnull (Red_Formal_en_la_que_Participa r) = true -> P14 ps = None) /\
  (isnull (Red_Formal_en_la_que_Participa r) = false ->
     exists item_id, P14 ps = Some (VStr item_id)) /\
  P16 ps = DataProcessor.unless_null (N_investigadores_asociados_del_centro r) /\
  P17 ps = DataProcessor.unless_null (N_investigadores_del_centro_otra_categoria r) /\
  P18 ps = DataProcessor.unless_null (N_estudiantes r) /\
  P24 ps = VStr <$> related_url.

(** The DOI identifier and the related URL [_process_row] computes from
    the DOI cell. *)
Definition doi_fields `{Urllib} (r : row) (doi_identifier related_url : option string)
  : Prop :=
  match DOI r with
  | VNaN => doi_identifier = None /\ related_url = None
  | v => DataProcessor._extract_doi v = Ok doi_identifier /\
         DataProcessor._process_url v = Ok related_url
  end.

(** ** Sample rows *)

(** A complete row, with an integer issue number and a DOI link. *)
Definition sample_row : row := {|
  Fecha_Publicacion := VStr "15-03-2021";
  Categoria_Publicacion := VStr "Journal";
  Titulo := VStr "On Graphs";
  Autores := VStr "Jane Doe, John Smith";
  Fuente := VStr "Nature";
  Volumen := VInt 7;
  Numero := VInt 12;
  Pagina_Inicial := VInt 101;
  ISSN := VStr "1234-5678";
  DOI := VStr "https://doi.org/10.1000/182";
  Cuartil := VStr "Q1";
  Cuartil_criterio_IMFD := VNaN;
  Red_Formal_en_la_que_Participa := VNaN;
  Lineas_de_Investigacion := VStr "Graphs; Data";
  N_investigadores_asociados_del_centro := VInt 2;
  N_investigadores_del_centro_otra_categoria := VNaN;
  N_estudiantes := VInt 1
|}.

Definition with_issue (v : pyval) (r : row) : row :=
  mk_row (Fecha_Publicacion r) (Categoria_Publicacion r) (Titulo r) (Autores r)
    (Fuente r) (Volumen r) v (Pagina_Inicial r) (ISSN r) (DOI r) (Cuartil r)
    (Cuartil_criterio_IMFD r) (Red_Formal_en_la_que_Participa r)
    (Lineas_de_Investigacion r) (N_investigadores_asociados_del_centro r)
    (N_investigadores_del_centro_otra_categoria r) (N_estudiantes r).

Definition with_authors_and_lines (a l : pyval) (r : row) : row :=
  mk_row (Fecha_Publicacion r) (Categoria_Publicacion r) (Titulo r) a
    (Fuente r) (Volumen r) (Numero r) (Pagina_Inicial r) (ISSN r) (DOI r)
    (Cuartil r) (Cuartil_criterio_IMFD r) (Red_Formal_en_la_que_Participa r)
    l (N_investigadores_asociados_del_centro r)
    (N_investigadores_del_centro_otra_categoria r) (N_estudiantes r).

(** The same row with the issue number typed as text. *)
Definition sample_row_text_issue : row := with_issue (VStr "12") sample_row.

(** A row whose cells are all null. *)
Definition empty_row : row :=
  mk_row VNaN VNaN VNaN VNaN VNaN VNaN VNaN VNaN VNaN VNaN VNaN VNaN VNaN VNaN
    VNaN VNaN VNaN.

(** The statements the last remote call wrote, when it is a write. *)
Definition last_written {Remote : Type} (h : handler Remote)
  : option (string * list statement) :=
  match last (calls h) with
  | Some (ApiWrite item_id data) => Some (item_id, data)
  | _ => None
  end.

(** The entry of the properties dictionary a field is built from. *)
Definition field_entry (f : field) (ps : properties) : option pyval :=
  match f with
  | PublicationDate => P2 ps | Category => P3 ps | Venue => P5 ps
  | Volume => P6 ps | Issue => P7 ps | Title => P8 ps | StartPage => P9 ps
  | Issn => P10 ps | DoiId => P11 ps | Quartile => P12 ps
  | QuartileCriterion => P13 ps | FormalNetwork => P14 ps
  | AssociatedResearchers => P16 ps | OtherResearchers => P17 ps
  | Students => P18 ps | RelatedUrl => P24 ps
  end.

Definition is_reference (f : field) : bool :=
  match f with Category | Venue | FormalNetwork => true | _ => false end.

(** The sample row without its authors. *)
Definition row_without_authors : row :=
  with_authors_and_lines VNaN (VStr "Graphs; Data") sample_row.

(** A properties dictionary with every entry [None]. *)
Definition no_properties : properties :=
  mk_properties None None None None None None None None
    None None None None None None None None.


(** ** Vocabulary of the further properties *)

(** The calls that attach the baseline statement of a kind to a new
    item: "instance of" Q2 for a research article, Q1 for an author,
    nothing for any other kind. *)
Definition baseline_calls (item_type : Z) (item_id : string) : list api_call :=
  if (item_type =? WikibaseHandler.RESEARCH_ARTICLE)%Z
  then [ApiWrite item_id [WDItemID (VStr "Q2") "20"]]
  else if (item_type =? WikibaseHandler.AUTHOR)%Z
  then [ApiWrite item_id [WDItemID (VStr "Q1") "20"]]
  else [].

(** A call that attaches no statement: anything but a write with data. *)
Definition carries_no_statement (c : api_call) : Prop :=
  match c with
  | ApiWrite _ data => data = []
  | _ => True
  end.

(** The number of occurrences of a character in a string. *)
Fixpoint occurrences (c : ascii) (s : string) : nat :=
  match s with
  | EmptyString => 0
  | String a s' => (if Ascii.eqb a c then 1 else 0) + occurrences c s'
  end.

(** The property numbers of the conditional appends, in source order. *)
Definition scalar_props : list string :=
  ["P2"; "P3"; "P5"; "P6"; "P7"; "P8"; "P9"; "P10"; "P11"; "P12"; "P13";
   "P14"; "P16"; "P17"; "P18"; "P24"].

(** A string made of whitespace only. *)
Fixpoint whitespace_only (s : string) : bool :=
  match s with
  | EmptyString => true
  | String c s' => PyStr.isspace c && whitespace_only s'
  end.

(** No row of the list is a terminal (all-null) row. *)
Definition no_terminal_row (data : list row) : bool :=
  forallb (fun r => negb (isnull_all r)) data.

(** A computation that never changes or removes a cache entry. *)
Definition keeps_cache {Remote A : Type} (m : M Remote A) : Prop :=
  forall h h' r, m h = (h', r) ->
  forall k v, cache h !! k = Some v -> cache h' !! k = Some v.

(** A computation that only appends to the log of remote calls. *)
Definition extends_log {Remote A : Type} (m : M Remote A) : Prop :=
  forall h h' r, m h = (h', r) -> exists more, calls h' = calls h ++ more.

(** The sample row with a date in the wrong shape, with a numeric DOI
    cell, and with its research lines missing. *)
Definition with_date (v : pyval) (r : row) : row :=
  mk_row v (Categoria_Publicacion r) (Titulo r) (Autores r)
    (Fuente r) (Volumen r) (Numero r) (Pagina_Inicial r) (ISSN r) (DOI r)
    (Cuartil r) (Cuartil_criterio_IMFD r) (Red_Formal_en_la_que_Participa r)
    (Lineas_de_Investigacion r) (N_investigadores_asociados_del_centro r)
    (N_investigadores_del_centro_otra_categoria r) (N_estudiantes r).

Definition with_doi (v : pyval) (r : row) : row :=
  mk_row (Fecha_Publicacion r) (Categoria_Publicacion r) (Titulo r) (Autores r)
    (Fuente r) (Volumen r) (Numero r) (Pagina_Inicial r) (ISSN r) v
    (Cuartil r) (Cuartil_criterio_IMFD r) (Red_Formal_en_la_que_Participa r)
    (Lineas_de_Investigacion r) (N_investigadores_asociados_del_centro r)
    (N_investigadores_del_centro_otra_categoria r) (N_estudiantes r).

Definition with_students (v : pyval) (r : row) : row :=
  mk_row (Fecha_Publicacion r) (Categoria_Publicacion r) (Titulo r) (Autores r)
    (Fuente r) (Volumen r) (Numero r) (Pagina_Inicial r) (ISSN r) (DOI r)
    (Cuartil r) (Cuartil_criterio_IMFD r) (Red_Formal_en_la_que_Participa r)
    (Lineas_de_Investigacion r) (N_investigadores_asociados_del_centro r)
    (N_investigadores_del_centro_otra_categoria r) v.

Definition row_with_bad_date : row := with_date (VStr "2021/03/15") sample_row.

Definition row_with_numeric_doi : row := with_doi (VInt 182) sample_row.

Definition row_without_lines : row :=
  with_authors_and_lines (VStr "Jane Doe, John Smith") VNaN sample_row.

Definition row_with_no_students : row := with_students (VInt 0) sample_row.

(** The cell [v] holds the date [y]-[m]-[d]: as a datetime, or written
    in day-month-year form. *)
Definition holds_date (v : pyval) (y m d : N) : Prop :=
  match v with
  | VStr s => day_month_year s y m d
  | VDatetime dt =>
      valid_datetime dt = true /\ year dt = y /\ month dt = m /\ day dt = d
  | _ => False
  end.

(** [n] copies of a character. *)
Fixpoint replicate_char (n : nat) (c : ascii) : string :=
  match n with
  | O => EmptyString
  | S n' => String c (replicate_char n' c)
  end.

(** A string with no whitespace character. *)
Fixpoint no_space (s : string) : bool :=
  match s with
  | EmptyString => true
  | String c s' => negb (PyStr.isspace c) && no_space s'
  end.

(** A word: not empty, and free of whitespace. *)
Definition is_word (s : string) : bool :=
  negb (String.eqb s "") && no_space s.

(** A gap between words: whitespace, and not empty. *)
Definition is_gap (s : string) : bool :=
  negb (String.eqb s "") && whitespace_only s.

(** Words each followed by a gap, written one after the other. *)
Fixpoint spaced (words : list (string * string)) : string :=
  match words with
  | [] => EmptyString
  | (word, gap) :: rest => word +:+ gap +:+ spaced rest
  end.

(** * Properties *)

(** ** The models of the library functions on sample inputs *)

Example split_authors_sample :
  PyStr.split "," "Jane Doe, John Smith" = ["Jane Doe"; " John Smith"].
Proof. reflexivity. Qed.

Example strip_sample : PyStr.strip "  John Smith " = "John Smith".
Proof. reflexivity. Qed.

Example split_ws_sample : PyStr.split_ws "  Ada   M. Lovelace " = ["Ada"; "M."; "Lovelace"].
Proof. reflexivity. Qed.

Example contains_sample :
  PyStr.contains "doi.org" "https://doi.org/10.1000/182" = true /\
  PyStr.contains "doi.org" "https://example.org/paper" = false.
Proof. split; reflexivity. Qed.

Example strftime_sample :
  Datetime.strftime "+%Y-%m-%dT%H:%M:%SZ" (Datetime.mk_datetime 2021 3 15 0 0 0)
  = "+2021-03-15T00:00:00Z".
Proof. reflexivity. Qed.

Example strptime_samples :
  Datetime.strptime_dmY "15-03-2021" = Ok (Datetime.mk_datetime 2021 3 15 0 0 0) /\
  Datetime.strptime_dmY "5-3-2021" = Ok (Datetime.mk_datetime 2021 3 5 0 0 0) /\
  Datetime.strptime_dmY "2021/03/15" = Raise ValueError /\
  Datetime.strptime_dmY "31-02-2021" = Raise ValueError /\
  Datetime.strptime_dmY "15-03-20211" = Raise ValueError /\
  Datetime.strptime_dmY "15-13-2021" = Raise ValueError.
Proof. repeat split; reflexivity. Qed.

(** ** Concatenation of strings *)

Section StringAppend.

Lemma append_cons (c : ascii) (a b : string) :
  String c a +:+ b = String c (a +:+ b).
Proof. reflexivity. Qed.

Lemma append_nil (b : string) : "" +:+ b = b.
Proof. reflexivity. Qed.

Lemma append_empty_r (a : string) : a +:+ "" = a.
Proof. induction a as [| x a IH]; [done |]. by rewrite append_cons, IH. Qed.

Lemma append_assoc (a b c : string) : (a +:+ b) +:+ c = a +:+ b +:+ c.
Proof.
  induction a as [| x a IH]; [done |]. by rewrite !append_cons, IH.
Qed.

End StringAppend.

(** ** The entity resolver *)

Section ResolverProperties.
Context {Remote : Type} `{WikibaseAPI Remote}.

Import WikibaseHandler.

Lemma get_or_create_item_hit (title : pyval) (item_type : Z)
    (h : handler Remote) (cached : string) :
  cache h !! title = Some cached ->
  get_or_create_item title item_type h = (h, Ok cached).
Proof. intros Hc. unfold get_or_create_item. by rewrite Hc. Qed.

Lemma get_or_create_item_found (title : pyval) (item_type : Z)
    (h : handler Remote) (found : string) (others : list string) :
  cache h !! title = None ->
  get_wd_search_results (remote h) title = found :: others ->
  get_or_create_item title item_type h = (log [ApiSearch title] h, Ok found).
Proof. intros Hc Hs. unfold get_or_create_item. by rewrite Hc, Hs. Qed.

(** The resolver never raises in this model: the remote interface is
    total. *)
Lemma get_or_create_item_returns (title : pyval) (item_type : Z)
    (h : handler Remote) :
  exists h' item_id, get_or_create_item title item_type h = (h', Ok item_id).
Proof.
  unfold get_or_create_item.
  destruct (cache h !! title); [eauto |].
  destruct (get_wd_search_results (remote h) title); [| eauto].
  destruct (write_new_item _ _). eauto.
Qed.

(** The log only grows. *)
Lemma get_or_create_item_calls (title : pyval) (item_type : Z)
    (h h' : handler Remote) (r : result string) :
  get_or_create_item title item_type h = (h', r) ->
  exists more, calls h' = calls h ++ more.
Proof.
  unfold get_or_create_item.
  destruct (cache h !! title).
  { intros [= <- _]. exists []. by rewrite app_nil_r. }
  destruct (get_wd_search_results (remote h) title).
  2:{ intros [= <- _]. simpl. eauto. }
  destruct (write_new_item _ _) as [r' new_id].
  intros [= <- _]. simpl.
  repeat case_match; simpl; rewrite <- ?app_assoc; eauto.
Qed.

(** C6: for a name that is a key of the cache, the resolver returns
    the cached id, and the handler is left as it was: the log of remote
    calls has no new entry (no search, create, label-set or write), and
    the remote store and the cache are unchanged. *)
Theorem resolve_cached_no_remote_call (name : string) (item_type : Z)
    (h : handler Remote) (cached : string) :
  cache h !! VStr name = Some cached ->
  let '(h', r) := get_or_create_item (VStr name) item_type h in
  r = Ok cached /\ calls h' = calls h /\ remote h' = remote h /\
  cache h' = cache h.
Proof.
  intros Hc. by rewrite (get_or_create_item_hit _ _ _ _ Hc).
Qed.

End ResolverProperties.

Section ResolverExamples.
#[local] Existing Instance MemoryWikibase.api.
Import WikibaseHandler MemoryWikibase.

Lemma resolve_cached_no_remote_call_witness :
  cache handler_with_cached_author !! VStr "Jane Doe" = Some "Q7" /\
  let '(h', r) := get_or_create_item (VStr "Jane Doe") AUTHOR
                    handler_with_cached_author in
  r = Ok "Q7" /\ calls h' = calls handler_with_cached_author /\
  remote h' = remote handler_with_cached_author /\
  cache h' = cache handler_with_cached_author.
Proof.
  split; [reflexivity |].
  apply (resolve_cached_no_remote_call "Jane Doe" AUTHOR
           handler_with_cached_author "Q7").
  reflexivity.
Defined.

(** C1: on a cache miss for which the label search finds an item, the
    resolver returns the first id found and creates nothing (the only
    remote call is the search), but the cache is not updated: the name
    is still absent from it afterwards. *)
Theorem resolve_found_is_not_cached :
  cache handler_before_nature !! VStr "Nature" = None /\
  get_wd_search_results (remote handler_before_nature) (VStr "Nature") = ["Q1"] /\
  let '(h', r) := get_or_create_item (VStr "Nature") 0 handler_before_nature in
  r = Ok "Q1" /\
  calls h' = [ApiSearch (VStr "Nature")] /\
  remote h' = store_with_nature /\
  cache h' !! VStr "Nature" = None.
Proof. repeat split. Qed.

End ResolverExamples.

(** ** The field transformers: DOI identifier and related URL *)

Section SubstringTest.

Lemma startswith_iff (p s : string) :
  PyStr.startswith p s = true <-> exists after, s = p +:+ after.
Proof.
  revert s. induction p as [| c p IH]; intros s; simpl.
  - split; [intros _; by exists s | done].
  - destruct s as [| a s].
    + split; [done | intros [after Heq]; discriminate].
    + rewrite andb_true_iff, Ascii.eqb_eq, IH. split.
      * intros [-> [after ->]]. by exists after.
      * intros [after Heq]. injection Heq as -> ->. eauto.
Qed.

Lemma contains_iff (needle s : string) :
  PyStr.contains needle s = true <-> occurs_in needle s.
Proof.
  unfold occurs_in. induction s as [| c s IH]; simpl.
  - rewrite orb_false_r, startswith_iff. split.
    + intros [after Heq]. by exists "", after.
    + intros ([| b before] & after & Heq); [by exists after |].
      discriminate.
  - rewrite orb_true_iff, startswith_iff, IH. split.
    + intros [[after Heq] | (before & after & Heq)].
      * by exists "", after.
      * exists (String c before), after. by rewrite Heq.
    + intros ([| b before] & after & Heq).
      * left. by exists after.
      * right. injection Heq as -> Heq. by exists before, after.
Qed.

Lemma contains_false_iff (needle s : string) :
  PyStr.contains needle s = false <-> ~ occurs_in needle s.
Proof.
  rewrite <- contains_iff. by destruct (PyStr.contains needle s).
Qed.

End SubstringTest.

Section DoiProperties.
Context `{Urllib}.

Import DataProcessor.

Lemma extract_doi_of_doi_link (raw : string) :
  occurs_in "doi.org" raw ->
  _extract_doi (VStr raw)
  = and_then (urlparse (with_scheme raw))
      (fun parsed => Ok (Some (PyStr.lstrip_char "/" (path parsed)))).
Proof.
  intros Hin%contains_iff. unfold _extract_doi, with_scheme, and_then.
  rewrite Hin. by destruct (PyStr.startswith "http" raw).
Qed.

(** C3, as the code has it: for a raw string containing "doi.org",
    [_process_url] returns [None] and [_extract_doi] hands the string,
    with "https://" prefixed when it does not start with "http", to
    [urlparse]: when [urlparse] returns, [_extract_doi] returns a value,
    the path of the parsed URL without its leading slashes; when
    [urlparse] raises, [_extract_doi] raises the same error.  For a raw
    string not containing "doi.org", [_process_url] returns the input
    unchanged and [_extract_doi] returns [None].  The two are never both
    present. *)
Theorem doi_identifier_and_url_exclusive (raw : string) :
  (occurs_in "doi.org" raw ->
     _process_url (VStr raw) = Ok None /\
     (forall parsed,
        urlparse (with_scheme raw) = Ok parsed ->
        _extract_doi (VStr raw)
        = Ok (Some (PyStr.lstrip_char "/" (path parsed)))) /\
     (forall e,
        urlparse (with_scheme raw) = Raise e ->
        _extract_doi (VStr raw) = Raise e)) /\
  (~ occurs_in "doi.org" raw ->
     _process_url (VStr raw) = Ok (Some raw) /\
     _extract_doi (VStr raw) = Ok None) /\
  ~ (exists identifier url,
       _extract_doi (VStr raw) = Ok (Some identifier) /\
       _process_url (VStr raw) = Ok (Some url)).
Proof.
  split; [| split].
  - intros Hin. rewrite (extract_doi_of_doi_link raw Hin).
    apply contains_iff in Hin. unfold _process_url. rewrite Hin.
    split; [done |]. split.
    + by intros parsed ->.
    + by intros e ->.
  - intros Hout%contains_false_iff. unfold _process_url, _extract_doi.
    by rewrite Hout.
  - intros (identifier & url & Hd & Hu). unfold _process_url, _extract_doi in *.
    destruct (PyStr.contains "doi.org" raw); simpl in *; congruence.
Qed.

End DoiProperties.

Section DoiExamples.
#[local] Existing Instance MemoryWikibase.urllib.
Import DataProcessor.

Lemma doi_link_occurs : occurs_in "doi.org" "doi.org/10.1000/182".
Proof. by exists "", "/10.1000/182". Defined.

Lemma doi_identifier_and_url_exclusive_witness :
  _extract_doi (VStr "doi.org/10.1000/182") = Ok (Some "10.1000/182") /\
  _process_url (VStr "doi.org/10.1000/182") = Ok None /\
  _process_url (VStr "https://example.org/paper") = Ok (Some "https://example.org/paper") /\
  _extract_doi (VStr "https://example.org/paper") = Ok None.
Proof.
  pose proof (proj1 (doi_identifier_and_url_exclusive "doi.org/10.1000/182")
                doi_link_occurs) as (Hu & Hd & _).
  split; [| split; [exact Hu |]].
  - apply (Hd (mk_ParseResult "https" "doi.org" "/10.1000/182" "" "" "")).
    vm_compute. reflexivity.
  - apply (proj1 (proj2 (doi_identifier_and_url_exclusive "https://example.org/paper"))).
    apply contains_false_iff. reflexivity.
Defined.

(** A string containing "doi.org" for which [_extract_doi] returns no
    value: its authority opens a bracket that is never closed, which
    [urlparse] refuses with [ValueError] ("Invalid IPv6 URL"), and the
    error leaves [_extract_doi]. *)
Lemma extract_doi_raises_on_open_bracket :
  occurs_in "doi.org" "https://[doi.org/10.1000/182" /\
  urlparse (with_scheme "https://[doi.org/10.1000/182") = Raise ValueError /\
  _extract_doi (VStr "https://[doi.org/10.1000/182") = Raise ValueError /\
  ~ (exists identifier,
       _extract_doi (VStr "https://[doi.org/10.1000/182") = Ok (Some identifier)).
Proof.
  split; [by exists "https://[", "/10.1000/182" |].
  split; [vm_compute; reflexivity |].
  split; [vm_compute; reflexivity |].
  intros (identifier & Hd). vm_compute in Hd. discriminate Hd.
Defined.

End DoiExamples.

(** ** The field transformers: dates *)

Section DateProperties.
Import DataProcessor.
Open Scope N_scope.

Lemma N_of_digit (n : N) : n < 10 -> N_of_ascii (digit n) = 48 + n.
Proof. intros Hn. unfold digit. apply N_ascii_embedding. lia. Qed.

Lemma digit_in_digit (lo hi n : N) :
  lo <= n -> n <= hi -> hi < 10 -> digit_in lo hi (digit n) = Some n.
Proof.
  intros Hlo Hhi Hlt. unfold digit_in. rewrite N_of_digit by lia.
  replace (48 + n - 48) with n by lia.
  destruct (48 + lo <=? 48 + n) eqn:E1; [| apply N.leb_gt in E1; lia].
  destruct (48 + n <=? 48 + hi) eqn:E2; [| apply N.leb_gt in E2; lia].
  done.
Qed.



(** Enumeration of a small range, for case analyses on digits, days
    and months. *)
Lemma N_range_cases (n bound : N) :
  n < bound -> In n (map N.of_nat (seq 0 (N.to_nat bound))).
Proof.
  intros Hn. apply in_map_iff. exists (N.to_nat n). split; [lia |].
  apply in_seq. lia.
Qed.

Ltac enumerate n bound :=
  let Hin := fresh "Hin" in
  assert (Hin : In n (map N.of_nat (seq 0 (N.to_nat bound))))
    by (apply N_range_cases; lia);
  vm_compute in Hin;
  repeat (destruct Hin as [<- | Hin]; [| try lia]); try done; try lia.












Lemma match_Y_pad4 (y : N) (r : string) :
  y < 10000 -> match_Y (pad4 y +:+ r) = [(y, r)].
Proof.
  intros Hy. cbv beta iota delta [String.append pad4 pad2 match_Y].
  rewrite !digit_in_digit by lia.
  do 2 f_equal. lia.
Qed.

(** The text after a day form starts with the separator, so the day
    alternatives that stop earlier or later cannot continue; the same
    holds for the month. *)
Lemma day_step {B} (g : N -> string -> option B) (d : N) (ds rest : string) :
  1 <= d <= 31 -> In ds (day_forms d) ->
  first_match (fun '(d, s1) =>
      match lit "-" s1 with None => None | Some s2 => g d s2 end)
    (match_d (ds +:+ String "-" rest))
  = g d rest.
Proof.
  intros Hd Hin. enumerate d 32.
  all: vm_compute in Hin; repeat (destruct Hin as [<- | Hin]; [| try done]).
  all: vm_compute; by destruct (g _ rest).
Qed.

Lemma month_step {B} (g : N -> string -> option B) (m : N) (ms rest : string) :
  1 <= m <= 12 -> In ms (month_forms m) ->
  first_match (fun '(m, s3) =>
      match lit "-" s3 with None => None | Some s4 => g m s4 end)
    (match_m (ms +:+ String "-" rest))
  = g m rest.
Proof.
  intros Hm Hin. enumerate m 13.
  all: vm_compute in Hin; repeat (destruct Hin as [<- | Hin]; [| try done]).
  all: vm_compute; by destruct (g _ rest).
Qed.

Lemma valid_date_bounds (y m d : N) :
  valid_date y m d = true ->
  1 <= y <= 9999 /\ 1 <= m <= 12 /\ 1 <= d <= 31.
Proof.
  unfold valid_date. rewrite !andb_true_iff, !N.leb_le.
  intros (((((Hy1 & Hy2) & Hm1) & Hm2) & Hd1) & Hd2).
  repeat split; try done.
  enumerate m 13; unfold days_in_month in Hd2;
    try destruct (is_leap y); lia.
Qed.

Lemma regex_dmY_forms (s : string) (y m d : N) :
  1 <= d <= 31 -> 1 <= m <= 12 -> y < 10000 ->
  day_month_year s y m d -> regex_dmY s = Some (d, m, y, EmptyString).
Proof.
  intros Hd Hm Hy (ds & ms & Hds & Hms & ->). unfold regex_dmY.
  change (ds +:+ "-" +:+ ms +:+ "-" +:+ pad4 y)
    with (ds +:+ String "-" (ms +:+ String "-" (pad4 y +:+ ""))).
  rewrite (day_step
    (fun d s2 => first_match (fun '(m, s3) =>
       match lit "-" s3 with
       | None => None
       | Some s4 => first_match (fun '(y, s5) => Some (d, m, y, s5)) (match_Y s4)
       end) (match_m s2)) d ds _ Hd Hds).
  rewrite (month_step
    (fun m s4 => first_match (fun '(y, s5) => Some (d, m, y, s5)) (match_Y s4))
    m ms _ Hm Hms).
  by rewrite match_Y_pad4.
Qed.

Lemma strptime_dmY_forms (s : string) (y m d : N) :
  valid_date y m d = true -> day_month_year s y m d ->
  strptime_dmY s = Ok (mk_datetime y m d 0 0 0).
Proof.
  intros Hv Hs. pose proof (valid_date_bounds _ _ _ Hv) as (Hy & Hm & Hd).
  unfold strptime_dmY. rewrite (regex_dmY_forms s y m d) by (done || lia).
  by rewrite Hv.
Qed.




(** From 1000 on, the decimal writing of a year has four digits. *)
Lemma pretty_digit (n : N) : n < 10 -> pretty_N_char n = digit n.
Proof. intros Hn. enumerate n 10. Qed.

Lemma pretty_pad4 (y : N) : 1000 <= y -> y < 10000 -> pretty y = pad4 y.
Proof.
  intros Hlo Hhi. unfold pretty, pretty_N.
  rewrite (decide_False (P := y = 0)) by lia.
  rewrite (pretty_N_go_step y) by lia.
  rewrite (pretty_N_go_step (y / 10)) by lia.
  rewrite (pretty_N_go_step (y / 10 / 10)) by lia.
  rewrite (pretty_N_go_step (y / 10 / 10 / 10)) by lia.
  replace (y / 10 / 10 / 10 / 10) with 0 by lia.
  rewrite pretty_N_go_0, !pretty_digit by lia.
  unfold pad4, pad2.
  replace (y / 10 / 10 / 10 mod 10) with (y / 1000) by lia.
  replace (y / 10 / 10 mod 10) with (y / 100 mod 10) by lia.
  replace (y / 10 mod 10) with (y mod 100 / 10) by lia.
  replace (y mod 100 mod 10) with (y mod 10) by lia.
  reflexivity.
Qed.

Lemma strftime_dmY_eq (dt : datetime) :
  strftime "%d-%m-%Y" dt
  = pad2 (day dt) +:+ "-" +:+ pad2 (month dt) +:+ "-" +:+ pretty (year dt) +:+ "".
Proof. reflexivity. Qed.

Lemma strftime_dmY_form (dt : datetime) :
  1000 <= year dt -> year dt < 10000 ->
  day_month_year (strftime "%d-%m-%Y" dt) (year dt) (month dt) (day dt).
Proof.
  intros Hlo Hhi. exists (pad2 (day dt)), (pad2 (month dt)).
  split; [by left |]. split; [by left |].
  by rewrite strftime_dmY_eq, pretty_pad4, append_empty_r.
Qed.

Lemma strftime_timestamp (y m d : N) :
  1000 <= y -> y < 10000 ->
  strftime "+%Y-%m-%dT%H:%M:%SZ" (mk_datetime y m d 0 0 0) = timestamp y m d.
Proof.
  intros Hlo Hhi.
  transitivity ("+" +:+ pretty y +:+ "-" +:+ pad2 m +:+ "-" +:+ pad2 d
                +:+ "T00:00:00Z"); [reflexivity |].
  by rewrite pretty_pad4.
Qed.

Lemma format_date_of_form (s : string) (y m d : N) :
  valid_date y m d = true -> 1000 <= y -> day_month_year s y m d ->
  _format_date (VStr s) = Ok (timestamp y m d).
Proof.
  intros Hv Hy Hs. unfold _format_date.
  rewrite (strptime_dmY_forms s y m d Hv Hs), strftime_timestamp; [done | done |].
  apply valid_date_bounds in Hv. lia.
Qed.

Lemma format_date_of_datetime (dt : datetime) :
  valid_date (year dt) (month dt) (day dt) = true -> 1000 <= year dt ->
  _format_date (VDatetime dt)
  = Ok (timestamp (year dt) (month dt) (day dt)).
Proof.
  intros Hv Hy.
  change (_format_date (VDatetime dt))
    with (_format_date (VStr (strftime "%d-%m-%Y" dt))).
  apply format_date_of_form; [done | done |].
  apply strftime_dmY_form; [done |]. apply valid_date_bounds in Hv. lia.
Qed.


End DateProperties.

Section DateExamples.
Import DataProcessor.



End DateExamples.

(** ** The person search *)

Section SearchPersonProperties.
Import SearchPerson.

(** Tokens of [str.split()] are never empty, so taking the first
    character of the first token cannot fail. *)
Lemma split_ws_aux_nonempty (s : string) :
  Forall (fun t => t <> EmptyString) (PyStr.split_ws_aux s).2.
Proof.
  induction s as [| c s IH]; simpl; [constructor |].
  destruct (PyStr.split_ws_aux s) as [cur toks]. simpl in IH.
  destruct (PyStr.isspace c); simpl; [| done].
  destruct cur; [done |]. by constructor.
Qed.

Lemma split_ws_nonempty (s : string) :
  Forall (fun t => t <> EmptyString) (PyStr.split_ws s).
Proof.
  unfold PyStr.split_ws. pose proof (split_ws_aux_nonempty s) as Hs.
  destruct (PyStr.split_ws_aux s) as [cur toks]. simpl in Hs.
  destruct cur; [done |]. by constructor.
Qed.

Lemma construct_query_too_short (name : string) :
  (length (PyStr.split_ws name) < 2)%nat ->
  construct_query name = Raise ValueError.
Proof.
  intros Hlen. unfold construct_query.
  by destruct (Nat.ltb_spec (length (PyStr.split_ws name)) 2); [| lia].
Qed.

(** The text of the query holds the filter clause for its regular
    expression. *)
Lemma query_text_filter (regex_pattern : string) :
  occurs_in (regex_filter regex_pattern) (query_text regex_pattern).
Proof.
  exists (nl +:+
    "    SELECT ?person ?personLabel WHERE {" +:+ nl +:+
    "      ?person wdt:P20 wd:Q1;" +:+ nl +:+
    "             rdfs:label ?personLabel." +:+ nl +:+
    nl +:+
    "      # Aplica un filtro REGEX para encontrar coincidencias flexibles" +:+ nl +:+
    "      "),
    (nl +:+
     nl +:+
     "      # Esto asegurará que las etiquetas sean devueltas en el idioma preferido" +:+ nl +:+
     "      FILTER (LANG(?personLabel) = " +:+ dq +:+ "en" +:+ dq +:+ ")." +:+ nl +:+
     "    }" +:+ nl +:+
     "    ").
  unfold query_text, regex_filter. rewrite !append_assoc. reflexivity.
Qed.

(** C9: a name with fewer than two whitespace-separated tokens raises
    [ValueError], and the search then stops with no request sent; a name
    with at least two tokens gives the query whose regular expression is
    the alternation "Last F|F. Last|First Last", where First and Last
    are the first and the last token and F is the first character of
    First: the query holds the clause
    FILTER (REGEX(?personLabel, "Last F|F. Last|First Last", "i")). *)
Theorem person_query_validation_and_patterns (name : string) :
  ((length (PyStr.split_ws name) < 2)%nat ->
     construct_query name = Raise ValueError /\
     forall net, search_person_by_name name net = (net, Raise ValueError)) /\
  ((2 <= length (PyStr.split_ws name))%nat ->
     exists first_name last_name initial rest query,
       head (PyStr.split_ws name) = Some first_name /\
       last (PyStr.split_ws name) = Some last_name /\
       first_name = String initial rest /\
       construct_query name = Ok query /\
       query
       = query_text
           ((last_name +:+ " " +:+ String initial "") +:+ "|" +:+
            (String initial "" +:+ ". " +:+ last_name) +:+ "|" +:+
            (first_name +:+ " " +:+ last_name)) /\
       occurs_in
         (regex_filter
            ((last_name +:+ " " +:+ String initial "") +:+ "|" +:+
             (String initial "" +:+ ". " +:+ last_name) +:+ "|" +:+
             (first_name +:+ " " +:+ last_name)))
         query).
Proof.
  split.
  - intros Hlen. pose proof (construct_query_too_short name Hlen) as Hq.
    split; [done |]. intros net. unfold search_person_by_name. by rewrite Hq.
  - intros Hlen. unfold construct_query.
    pose proof (split_ws_nonempty name) as Hne.
    destruct (Nat.ltb_spec (length (PyStr.split_ws name)) 2); [lia |].
    destruct (PyStr.split_ws name) as [| first_name parts] eqn:E;
      [simpl in Hlen; lia |].
    apply Forall_cons in Hne as [Hfirst _].
    destruct first_name as [| initial rest]; [done |].
    eexists (String initial rest), (List.last (String initial rest :: parts) ""),
      initial, rest, _.
    split; [done |]. split; [| split; [done | split; [reflexivity |]]].
    + clear. generalize (String initial rest). induction parts as [| p parts IH];
        intros t; [done |].
      rewrite last_cons_cons. apply IH.
    + split; [reflexivity | apply query_text_filter].
Qed.

Lemma person_query_validation_and_patterns_witness :
  construct_query "Lovelace" = Raise ValueError /\
  search_person_by_name "Lovelace" [] = ([], Raise ValueError) /\
  exists query,
    construct_query "Ada King Lovelace" = Ok query /\
    occurs_in (regex_filter "Lovelace A|A. Lovelace|Ada Lovelace") query.
Proof.
  pose proof (person_query_validation_and_patterns "Lovelace") as [Hshort _].
  destruct Hshort as [Hq Hs]; [vm_compute; lia |].
  split; [exact Hq |]. split; [apply Hs |].
  pose proof (person_query_validation_and_patterns "Ada King Lovelace") as [_ Hlong].
  destruct Hlong as (f & l & i & r & query & Hf & Hl & Hi & Hq' & _ & Hin);
    [vm_compute; lia |].
  vm_compute in Hf, Hl. injection Hf as <-. injection Hl as <-.
  injection Hi as <- <-. exists query. split; [exact Hq' | exact Hin].
Defined.

End SearchPersonProperties.

(** ** The statement builder, the row processor and the batch loop *)

Section ProcessorProperties.
Context {Remote : Type} `{WikibaseAPI Remote} `{Urllib} `{WdiDatatypes}.

Import WikibaseHandler DataProcessor.

Lemma bind_ok {A B} (m : M Remote A) (k : A -> M Remote B)
    (h h' : handler Remote) (a : A) :
  m h = (h', Ok a) -> (x <- m ;; k x) h = k a h'.
Proof. intros Hm. unfold bind. by rewrite Hm. Qed.

Lemma bind_raise {A B} (m : M Remote A) (k : A -> M Remote B)
    (h h' : handler Remote) (e : exn) :
  m h = (h', Raise e) -> (x <- m ;; k x) h = (h', Raise e).
Proof. intros Hm. unfold bind. by rewrite Hm. Qed.

(** A sequence that returns: its first part returned, and the rest ran
    from the state the first part left. *)
Lemma bind_inv {A B} (m : M Remote A) (k : A -> M Remote B)
    (h h' : handler Remote) (b : B) :
  (x <- m ;; k x) h = (h', Ok b) ->
  exists h1 a, m h = (h1, Ok a) /\ k a h1 = (h', Ok b).
Proof. unfold bind. destruct (m h) as [h1 [a | e]]; [eauto | done]. Qed.

Lemma lift_inv {A} (x : result A) (h h' : handler Remote) (a : A) :
  lift x h = (h', Ok a) -> h' = h /\ x = Ok a.
Proof. by intros [= <- ->]. Qed.

Lemma and_then_inv {A B} (r : result A) (k : A -> result B) (b : B) :
  and_then r k = Ok b -> exists a, r = Ok a /\ k a = Ok b.
Proof. destruct r as [a | e]; [eauto | done]. Qed.

(** The comprehension over authors (or research lines) always
    completes, since the resolver does. *)
Lemma mapM_returns {A B} (f : A -> M Remote B) (l : list A) :
  (forall a h, exists h' b, f a h = (h', Ok b)) ->
  forall h, exists h' bs, mapM f l h = (h', Ok bs) /\ length bs = length l.
Proof.
  intros Hf. induction l as [| a l IH]; intros h; simpl.
  - by exists h, [].
  - destruct (Hf a h) as (h1 & b & Hb).
    destruct (IH h1) as (h2 & bs & Hbs & Hlen).
    exists h2, (b :: bs). rewrite (bind_ok _ _ _ _ _ Hb).
    rewrite (bind_ok _ _ _ _ _ Hbs). simpl. by rewrite Hlen.
Qed.

Lemma author_statement_returns (author : string) (h : handler Remote) :
  exists h' st, author_statement author h = (h', Ok st).
Proof.
  unfold author_statement.
  destruct (get_or_create_item_returns (VStr (PyStr.strip author)) AUTHOR h)
    as (h' & item_id & Hr).
  rewrite (bind_ok _ _ _ _ _ Hr). by eexists _, _.
Qed.

Lemma research_line_statement_returns (line : string) (h : handler Remote) :
  exists h' st, research_line_statement line h = (h', Ok st).
Proof.
  unfold research_line_statement.
  destruct (get_or_create_item_returns (VStr (PyStr.strip line)) 0 h)
    as (h' & item_id & Hr).
  rewrite (bind_ok _ _ _ _ _ Hr). by eexists _, _.
Qed.

Lemma resolve_unless_null_returns (v : pyval) (h : handler Remote) :
  exists h' p, resolve_unless_null v h = (h', Ok p) /\
    (isnull v = true -> p = None) /\
    (isnull v = false -> exists item_id, p = Some (VStr item_id)).
Proof.
  unfold resolve_unless_null. destruct (isnull v); simpl.
  - exists h, None. by repeat split.
  - destruct (get_or_create_item_returns v 0 h) as (h' & item_id & Hr).
    rewrite (bind_ok _ _ _ _ _ Hr). exists h', (Some (VStr item_id)).
    repeat split; [done |]. eauto.
Qed.

(** [_gather_properties] always completes; the entries that do not go
    through the resolver are functions of the row. *)
Lemma gather_properties_returns (r : row) (publication_date : string)
    (doi_identifier related_url : option string) (h : handler Remote) :
  exists h' ps,
    _gather_properties r publication_date doi_identifier related_url h
    = (h', Ok ps) /\
    gathered_from r publication_date doi_identifier related_url ps.
Proof.
  unfold _gather_properties.
  destruct (resolve_unless_null_returns (Categoria_Publicacion r) h)
    as (h1 & p3 & Hr3 & Hn3 & Hs3).
  destruct (resolve_unless_null_returns (Fuente r) h1)
    as (h2 & p5 & Hr5 & Hn5 & Hs5).
  destruct (resolve_unless_null_returns (Red_Formal_en_la_que_Participa r) h2)
    as (h3 & p14 & Hr14 & Hn14 & Hs14).
  rewrite (bind_ok _ _ _ _ _ Hr3), (bind_ok _ _ _ _ _ Hr5),
    (bind_ok _ _ _ _ _ Hr14).
  eexists _, _. split; [reflexivity |]. unfold gathered_from. simpl.
  by repeat split.
Qed.

(** *** The batch loop *)

Lemma process_rows_terminal (t : row) (rest : list row) (h : handler Remote) :
  isnull_all t = true -> process_rows (t :: rest) h = (h, Ok tt).
Proof. intros Ht. simpl. by rewrite Ht. Qed.

Lemma process_rows_step (r : row) (rest : list row) (h : handler Remote) :
  isnull_all r = false ->
  process_rows (r :: rest) h = (_ <- _process_row r ;; process_rows rest) h.
Proof. intros Hr. simpl. by rewrite Hr. Qed.

Lemma process_rows_stops (before after : list row) (t : row) (h : handler Remote) :
  isnull_all t = true ->
  process_rows (before ++ t :: after) h = process_rows before h.
Proof.
  intros Ht. revert h. induction before as [| r before IH]; intros h.
  - by apply process_rows_terminal.
  - simpl. destruct (isnull_all r); [done |].
    unfold bind. destruct (_process_row r h) as [h' [[] | e]]; [apply IH | done].
Qed.

(** C8: rows are processed in source order, and the loop ends at the
    first row whose every cell is null: the batch behaves as if the rows
    ended just before it (that row and the rows after it are not
    processed), and when the terminal row is reached the handler, that
    is the cache, the remote store and the log of calls, is left as it
    is. *)
Theorem batch_stops_at_first_empty_row (before after : list row) (t : row)
    (response : string) (h : handler Remote) :
  isnull_all t = true ->
  process_rows (before ++ t :: after) h = process_rows before h /\
  process_data (before ++ t :: after) response h = process_data before response h /\
  process_rows (t :: after) h = (h, Ok tt) /\
  process_data (t :: after) response h = (h, Ok tt) /\
  (forall r rest,
     isnull_all r = false ->
     process_rows (r :: rest) h = (_ <- _process_row r ;; process_rows rest) h).
Proof.
  intros Ht. split; [by apply process_rows_stops |].
  split; [| split; [by apply process_rows_terminal | split]].
  - unfold process_data. case_match; [done |]. by apply process_rows_stops.
  - unfold process_data. case_match; [done |]. by apply process_rows_terminal.
  - intros r rest Hr. by apply process_rows_step.
Qed.

(** *** Authors and research lines *)

Lemma create_statements_needs_strings (ps : properties) (r : row)
    (h : handler Remote) :
  Autores r = VNaN \/ Lineas_de_Investigacion r = VNaN ->
  exists h', _create_statements ps r h = (h', Raise AttributeError).
Proof.
  intros Hnull. unfold _create_statements.
  destruct (Autores r) as [| z | authors | d] eqn:Ha;
    try (exists h; reflexivity).
  destruct Hnull as [? | Hl]; [done |].
  destruct (mapM_returns author_statement (PyStr.split "," authors)
              author_statement_returns h) as (h1 & sts & Hsts & _).
  exists h1. unfold lift at 1. rewrite (bind_ok _ _ h h _ eq_refl).
  rewrite (bind_ok _ _ _ _ _ Hsts). by rewrite Hl.
Qed.

Lemma format_date_lift (v : pyval) (h : handler Remote) :
  (exists e, lift (_format_date v) h = (h, Raise e)) \/
  (exists s, lift (_format_date v) h = (h, Ok s)).
Proof. unfold lift. destruct (_format_date v); eauto. Qed.

(** C10: when the authors cell or the research-lines cell is null, the
    statement builder raises (a float has no [split]) instead of
    returning a list, so processing the row fails, and so does the batch
    at that row; a null cell is not read as an empty list. *)
Theorem authors_and_research_lines_required (r : row) (h : handler Remote) :
  Autores r = VNaN \/ Lineas_de_Investigacion r = VNaN ->
  (forall ps, exists h', _create_statements ps r h = (h', Raise AttributeError)) /\
  (exists h' e, _process_row r h = (h', Raise e)) /\
  (forall rest, isnull_all r = false ->
     exists h' e, process_rows (r :: rest) h = (h', Raise e)).
Proof.
  intros Hnull.
  assert (Hrow : exists h' e, _process_row r h = (h', Raise e)).
  { unfold _process_row.
    destruct (get_or_create_item_returns (Titulo r) RESEARCH_ARTICLE h)
      as (h1 & item_id & Hr).
    rewrite (bind_ok _ _ _ _ _ Hr).
    destruct (_format_date (Fecha_Publicacion r)) as [pd | e] eqn:Hd.
    2:{ exists h1, e. by apply bind_raise. }
    rewrite (bind_ok _ _ h1 h1 pd) by done.
    set (doi := if negb (isnull (DOI r)) then lift (_extract_doi (DOI r)) else ret None).
    destruct (doi h1) as [h2 [d | e]] eqn:Hdoi.
    2:{ exists h2, e. by apply bind_raise. }
    rewrite (bind_ok _ _ _ _ _ Hdoi).
    set (url := if negb (isnull (DOI r)) then lift (_process_url (DOI r)) else ret None).
    destruct (url h2) as [h3 [u | e]] eqn:Hurl.
    2:{ exists h3, e. by apply bind_raise. }
    rewrite (bind_ok _ _ _ _ _ Hurl).
    destruct (gather_properties_returns r pd d u h3) as (h4 & ps & Hg & _).
    rewrite (bind_ok _ _ _ _ _ Hg).
    destruct (create_statements_needs_strings ps r h4 Hnull) as (h5 & Hc).
    exists h5, AttributeError. by apply bind_raise. }
  split; [intros ps; by apply create_statements_needs_strings |].
  split; [done |].
  intros rest Hr. destruct Hrow as (h' & e & Hrow). exists h', e.
  rewrite process_rows_step by done. by apply bind_raise.
Qed.

Lemma resolved_in_order_length (item_type : Z) (names ids : list string)
    (h h' : handler Remote) :
  resolved_in_order item_type names h ids h' -> length ids = length names.
Proof. induction 1; simpl; congruence. Qed.

Lemma mapM_author_statement_resolved (names : list string) (h : handler Remote) :
  exists ids h',
    resolved_in_order AUTHOR (map PyStr.strip names) h ids h' /\
    mapM author_statement names h
    = (h', Ok (map (fun item_id => WDItemID (VStr item_id) "P4") ids)).
Proof.
  revert h. induction names as [| name names IH]; intros h.
  - exists [], h. split; [constructor | done].
  - destruct (get_or_create_item_returns (VStr (PyStr.strip name)) AUTHOR h)
      as (h1 & item_id & Hr).
    destruct (IH h1) as (ids & h2 & Hres & Hmap).
    exists (item_id :: ids), h2. split; [by econstructor |].
    simpl. unfold author_statement at 1.
    rewrite (bind_ok _ _ _ _ _ (bind_ok _ _ _ _ _ Hr)).
    by rewrite (bind_ok _ _ _ _ _ Hmap).
Qed.

Lemma mapM_research_line_statement_resolved (names : list string)
    (h : handler Remote) :
  exists ids h',
    resolved_in_order 0 (map PyStr.strip names) h ids h' /\
    mapM research_line_statement names h
    = (h', Ok (map (fun item_id => WDItemID (VStr item_id) "P15") ids)).
Proof.
  revert h. induction names as [| name names IH]; intros h.
  - exists [], h. split; [constructor | done].
  - destruct (get_or_create_item_returns (VStr (PyStr.strip name)) 0 h)
      as (h1 & item_id & Hr).
    destruct (IH h1) as (ids & h2 & Hres & Hmap).
    exists (item_id :: ids), h2. split; [by econstructor |].
    simpl. unfold research_line_statement at 1.
    rewrite (bind_ok _ _ _ _ _ (bind_ok _ _ _ _ _ Hr)).
    by rewrite (bind_ok _ _ _ _ _ Hmap).
Qed.

Lemma item_statements_props (p : string) (ids : list string) :
  Forall (fun st => prop_of st = p)
    (map (fun item_id => WDItemID (VStr item_id) p) ids).
Proof. induction ids; by constructor. Qed.

Lemma item_statements_kinds (p : string) (ids : list string) :
  Forall (fun st => prop_of st = p /\ kind_of st = ItemRef)
    (map (fun item_id => WDItemID (VStr item_id) p) ids).
Proof. induction ids; by constructor. Qed.

(** *** The conditional appends *)

(** One conditional append either adds what [emit] says or raises in
    the constructor. *)
Lemma append_if_inv (o : option pyval) (mk : pyval -> statement)
    (l l' : list statement) :
  append_if o mk l = Ok l' -> l' = l ++ emit o mk.
Proof.
  unfold append_if, emit, construct.
  destruct o as [v |]; [destruct (truthy v); [destruct (rejects (mk v)) |] |];
    simpl; intros [= <-]; by rewrite ?app_nil_r.
Qed.


(** The sixteen appends, when they return, as one concatenation. *)
Lemma append_properties_inv (ps : properties) (l sts : list statement) :
  append_properties ps l = Ok sts -> sts = l ++ scalar_statements ps.
Proof.
  unfold append_properties. cbv zeta. intros Hrun.
  repeat (apply and_then_inv in Hrun as (? & ->%append_if_inv & Hrun)).
  apply append_if_inv in Hrun as ->.
  unfold scalar_statements. by rewrite <- !app_assoc.
Qed.


Lemma emit_props (o : option pyval) (mk : pyval -> statement) (p : string) :
  (forall v, prop_of (mk v) = p) ->
  Forall (fun st => prop_of st = p) (emit o mk).
Proof.
  intros Hp. unfold emit. destruct o as [v |]; [destruct (truthy v) |];
    by repeat constructor.
Qed.

Lemma statements_on_app (p : string) (l1 l2 : list statement) :
  statements_on p (l1 ++ l2) = statements_on p l1 ++ statements_on p l2.
Proof. apply filter_app. Qed.

Lemma statements_on_other (p q : string) (l : list statement) :
  q <> p -> Forall (fun st => prop_of st = q) l -> statements_on p l = [].
Proof.
  intros Hne Hall. unfold statements_on.
  induction Hall as [| st l Hst _ IH]; [done |].
  rewrite filter_cons_False by congruence. done.
Qed.

Lemma statements_on_same (p : string) (l : list statement) :
  Forall (fun st => prop_of st = p) l -> statements_on p l = l.
Proof.
  intros Hall. unfold statements_on.
  induction Hall as [| st l Hst _ IH]; [done |].
  rewrite filter_cons_True by done. by rewrite IH.
Qed.

Lemma statements_on_emit (p q : string) (o : option pyval)
    (mk : pyval -> statement) :
  (forall v, prop_of (mk v) = q) ->
  statements_on p (emit o mk) = if decide (q = p) then emit o mk else [].
Proof.
  intros Hq. case_decide as Hd.
  - subst. apply statements_on_same. by apply emit_props.
  - by apply (statements_on_other p q); [| apply emit_props].
Qed.

(** The statements on one property among the sixteen appends. *)
Lemma statements_on_scalar_statements (p : string) (ps : properties) :
  statements_on p (scalar_statements ps)
  = (if decide ("P2" = p) then emit (P2 ps) (fun v => WDTime v "P2") else [])
      ++ (if decide ("P3" = p) then emit (P3 ps) (fun v => WDItemID v "P3") else [])
      ++ (if decide ("P5" = p) then emit (P5 ps) (fun v => WDItemID v "P5") else [])
      ++ (if decide ("P6" = p) then emit (P6 ps) (fun v => WDString v "P6") else [])
      ++ (if decide ("P7" = p) then emit (P7 ps) (fun v => WDString v "P7") else [])
      ++ (if decide ("P8" = p) then emit (P8 ps) (fun v => WDString v "P8") else [])
      ++ (if decide ("P9" = p) then emit (P9 ps) (fun v => WDString v "P9") else [])
      ++ (if decide ("P10" = p) then emit (P10 ps) (fun v => WDExternalID v "P10") else [])
      ++ (if decide ("P11" = p) then emit (P11 ps) (fun v => WDExternalID v "P11") else [])
      ++ (if decide ("P12" = p) then emit (P12 ps) (fun v => WDString v "P12") else [])
      ++ (if decide ("P13" = p) then emit (P13 ps) (fun v => WDString v "P13") else [])
      ++ (if decide ("P14" = p) then emit (P14 ps) (fun v => WDItemID v "P14") else [])
      ++ (if decide ("P16" = p) then emit (P16 ps) (fun v => WDQuantity v "P16") else [])
      ++ (if decide ("P17" = p) then emit (P17 ps) (fun v => WDQuantity v "P17") else [])
      ++ (if decide ("P18" = p) then emit (P18 ps) (fun v => WDQuantity v "P18") else [])
      ++ (if decide ("P24" = p) then emit (P24 ps) (fun v => WDUrl v "P24") else []).
Proof.
  unfold scalar_statements. rewrite !statements_on_app.
  repeat (apply (f_equal2 app); [by apply statements_on_emit |]).
  by apply statements_on_emit.
Qed.

(** Decides the comparisons between property numbers. *)
Ltac decide_props :=
  repeat match goal with
    | |- context [decide (?a = ?b)] =>
        first [ rewrite (decide_False (P := a = b)) by discriminate
              | rewrite (decide_True (P := a = b)) by reflexivity ]
    end.

Lemma statements_on_scalars_other (p : string) (ps : properties) :
  p = "P4" \/ p = "P15" -> statements_on p (scalar_statements ps) = [].
Proof.
  intros [-> | ->]; rewrite statements_on_scalar_statements; by decide_props.
Qed.

(** *** The shape of the statement list *)

(** The builder on a row whose authors and research lines are strings:
    the authors are resolved, then the research lines, and the result is
    that of the sixteen appends. *)
Lemma create_statements_shape (ps : properties) (r : row) (h : handler Remote)
    (authors lines : string) :
  Autores r = VStr authors ->
  Lineas_de_Investigacion r = VStr lines ->
  exists ids h1 lids h2,
    resolved_in_order AUTHOR (map PyStr.strip (PyStr.split "," authors)) h ids h1 /\
    mapM author_statement (PyStr.split "," authors) h
    = (h1, Ok (map (fun item_id => WDItemID (VStr item_id) "P4") ids)) /\
    resolved_in_order 0 (map PyStr.strip (PyStr.split ";" lines)) h1 lids h2 /\
    _create_statements ps r h
    = (h2, append_properties ps
             (map (fun item_id => WDItemID (VStr item_id) "P4") ids ++
              map (fun item_id => WDItemID (VStr item_id) "P15") lids)).
Proof.
  intros Ha Hl.
  destruct (mapM_author_statement_resolved (PyStr.split "," authors) h)
    as (ids & h1 & Hres & Hauth).
  destruct (mapM_research_line_statement_resolved (PyStr.split ";" lines) h1)
    as (lids & h2 & Hlres & Hlines).
  exists ids, h1, lids, h2. repeat split; try done.
  unfold _create_statements. rewrite Ha, Hl.
  unfold lift at 1. rewrite (bind_ok _ _ h h _ eq_refl).
  rewrite (bind_ok _ _ _ _ _ Hauth).
  unfold lift at 1. rewrite (bind_ok _ _ h1 h1 _ eq_refl).
  by rewrite (bind_ok _ _ _ _ _ Hlines).
Qed.

(** When the authors are a string and the research lines are not, the
    builder raises once the authors have been resolved. *)
Lemma create_statements_lines_not_text (ps : properties) (r : row)
    (h : handler Remote) (authors : string) :
  Autores r = VStr authors ->
  (forall s, Lineas_de_Investigacion r <> VStr s) ->
  _create_statements ps r h
  = ((mapM author_statement (PyStr.split "," authors) h).1, Raise AttributeError).
Proof.
  intros Ha Hl. unfold _create_statements. rewrite Ha.
  destruct (mapM_returns author_statement (PyStr.split "," authors)
              author_statement_returns h) as (h1 & sts & Hsts & _).
  unfold lift at 1. rewrite (bind_ok _ _ h h _ eq_refl).
  rewrite (bind_ok _ _ _ _ _ Hsts), Hsts.
  destruct (Lineas_de_Investigacion r) as [| z | s | d]; try done.
  by destruct (Hl s).
Qed.

(** A builder that returns had strings to split, and returns the author
    statements, the research-line statements and the scalar statements,
    in this order. *)
Lemma create_statements_inv (ps : properties) (r : row) (h h2 : handler Remote)
    (sts : list statement) :
  _create_statements ps r h = (h2, Ok sts) ->
  exists authors lines ids h1 lids,
    Autores r = VStr authors /\
    Lineas_de_Investigacion r = VStr lines /\
    resolved_in_order AUTHOR (map PyStr.strip (PyStr.split "," authors)) h ids h1 /\
    mapM author_statement (PyStr.split "," authors) h
    = (h1, Ok (map (fun item_id => WDItemID (VStr item_id) "P4") ids)) /\
    resolved_in_order 0 (map PyStr.strip (PyStr.split ";" lines)) h1 lids h2 /\
    append_properties ps
      (map (fun item_id => WDItemID (VStr item_id) "P4") ids ++
       map (fun item_id => WDItemID (VStr item_id) "P15") lids) = Ok sts /\
    sts = (map (fun item_id => WDItemID (VStr item_id) "P4") ids ++
           map (fun item_id => WDItemID (VStr item_id) "P15") lids)
          ++ scalar_statements ps.
Proof.
  intros Hrun.
  destruct (Autores r) as [| z | authors | d] eqn:Ha;
    try (unfold _create_statements, bind, lift in Hrun; rewrite Ha in Hrun;
         discriminate Hrun).
  destruct (Lineas_de_Investigacion r) as [| z | lines | d] eqn:Hl;
    try (rewrite (create_statements_lines_not_text ps r h authors Ha) in Hrun;
         [discriminate Hrun | intros s; rewrite Hl; discriminate]).
  destruct (create_statements_shape ps r h authors lines Ha Hl)
    as (ids & h1 & lids & h2' & Hares & Hauth & Hlres & Hshape).
  rewrite Hshape in Hrun. injection Hrun as <- Happ.
  exists authors, lines, ids, h1, lids. repeat split; try done.
  by apply append_properties_inv.
Qed.

(** *** The row processor, when it returns *)

(** The steps of [_process_row] on a row processed to the end. *)
Lemma process_row_inv (r : row) (h h' : handler Remote) :
  _process_row r h = (h', Ok tt) ->
  exists h1 item_id pd doi url hg ps h2 sts,
    get_or_create_item (Titulo r) RESEARCH_ARTICLE h = (h1, Ok item_id) /\
    _format_date (Fecha_Publicacion r) = Ok pd /\
    doi_fields r doi url /\
    _gather_properties r pd doi url h1 = (hg, Ok ps) /\
    _create_statements ps r hg = (h2, Ok sts) /\
    h' = write_statements item_id sts h2.
Proof.
  unfold _process_row. intros Hrun.
  apply bind_inv in Hrun as (h1 & item_id & Hres & Hrun).
  apply bind_inv in Hrun as (h1a & pd & [-> Hd]%lift_inv & Hrun).
  apply bind_inv in Hrun as (h1b & doi & Hdoi & Hrun).
  apply bind_inv in Hrun as (h1c & url & Hurl & Hrun).
  apply bind_inv in Hrun as (hg & ps & Hg & Hrun).
  apply bind_inv in Hrun as (h2 & sts & Hc & Hrun).
  injection Hrun as <-.
  assert (h1b = h1 /\ h1c = h1 /\ doi_fields r doi url) as (-> & -> & Hdf).
  { clear -Hdoi Hurl. revert Hdoi Hurl. unfold doi_fields.
    destruct (DOI r) as [| z | s | d]; simpl.
    - by intros [= <- <-] [= <- <-].
    - by intros [-> Hdoi]%lift_inv [-> Hurl]%lift_inv.
    - by intros [-> Hdoi]%lift_inv [-> Hurl]%lift_inv.
    - by intros [-> Hdoi]%lift_inv [-> Hurl]%lift_inv. }
  by exists h1, item_id, pd, doi, url, hg, ps, h2, sts.
Qed.

(** What a row processed to the end wrote: the last remote call writes,
    to the item of the title, the author statements, the research-line
    statements and the scalar statements of the gathered properties. *)
Lemma process_row_written (r : row) (h h' : handler Remote) :
  _process_row r h = (h', Ok tt) ->
  exists item_id before pd doi url ps auth lsts,
    calls h' = before ++ [ApiWrite item_id ((auth ++ lsts) ++ scalar_statements ps)] /\
    _format_date (Fecha_Publicacion r) = Ok pd /\
    gathered_from r pd doi url ps /\
    doi_fields r doi url /\
    Forall (fun st => prop_of st = "P4") auth /\
    Forall (fun st => prop_of st = "P15") lsts.
Proof.
  intros (h1 & item_id & pd & doi & url & hg & ps & h2 & sts
          & _ & Hd & Hdf & Hg & Hc & ->)%process_row_inv.
  destruct (gather_properties_returns r pd doi url h1) as (hg' & ps' & Hg' & Hps).
  rewrite Hg in Hg'. injection Hg' as <- <-.
  apply create_statements_inv in Hc
    as (authors & lines & ids & h1' & lids & _ & _ & _ & _ & _ & _ & ->).
  eexists item_id, (calls h2), pd, doi, url, ps, _, _.
  split; [reflexivity |]. split; [done |]. split; [done |]. split; [done |].
  split; apply item_statements_props.
Qed.

(** C5: the authors cell is split on commas, each piece is stripped and
    resolved as an author, in the order of the split; when the builder
    returns, the statement list starts with one item statement on "P4"
    per author, in that order, and no other statement is on "P4".
    "Jane Doe, John Smith" gives the names "Jane Doe" and "John Smith";
    a semicolon does not separate authors. *)
Theorem authors_split_on_commas_in_order (ps : properties) (r : row)
    (h : handler Remote) (authors lines : string) :
  Autores r = VStr authors ->
  Lineas_de_Investigacion r = VStr lines ->
  (exists ids h1,
     resolved_in_order AUTHOR (map PyStr.strip (PyStr.split "," authors)) h ids h1 /\
     length ids = length (PyStr.split "," authors) /\
     (exists h2 res, _create_statements ps r h = (h2, res) /\
        exists more, calls h2 = calls h1 ++ more) /\
     (forall h2 sts,
        _create_statements ps r h = (h2, Ok sts) ->
        exists others,
          sts = map (fun item_id => WDItemID (VStr item_id) "P4") ids ++ others /\
          statements_on "P4" others = [])) /\
  map PyStr.strip (PyStr.split "," "Jane Doe, John Smith")
  = ["Jane Doe"; "John Smith"] /\
  map PyStr.strip (PyStr.split "," "Smith, John; Doe, Jane")
  = ["Smith"; "John; Doe"; "Jane"].
Proof.
  intros Ha Hl. split; [| by split].
  destruct (create_statements_shape ps r h authors lines Ha Hl)
    as (ids & h1 & lids & h2 & Hares & _ & Hlres & Hshape).
  exists ids, h1. split; [done |]. split.
  { rewrite (resolved_in_order_length _ _ _ _ _ Hares). apply length_map. }
  split.
  - eexists h2, _. split; [exact Hshape |].
    clear -Hlres. induction Hlres as [h | name names h ha hb item_id ids Hr _ IH].
    + exists []. by rewrite app_nil_r.
    + destruct (get_or_create_item_calls _ _ _ _ _ Hr) as (m1 & Hm1).
      destruct IH as (m2 & Hm2). exists (m1 ++ m2).
      by rewrite Hm2, Hm1, <- app_assoc.
  - intros h2' sts Hrun. rewrite Hshape in Hrun. injection Hrun as _ Happ.
    apply append_properties_inv in Happ as ->.
    exists (map (fun item_id => WDItemID (VStr item_id) "P15") lids
            ++ scalar_statements ps).
    split; [by rewrite <- app_assoc |].
    rewrite statements_on_app, statements_on_scalars_other by auto.
    rewrite (statements_on_other "P4" "P15"); [done | done |].
    apply item_statements_props.
Qed.

(** *** The scalar and reference fields *)

Lemma pretty_N_go_nonempty (x : N) (s : string) :
  s <> "" -> pretty_N_go x s <> "".
Proof.
  revert s. induction (N.lt_wf_0 x) as [x _ IH]; intros s Hs.
  assert (x = 0 \/ 0 < x)%N as [-> | Hpos] by lia.
  - by rewrite pretty_N_go_0.
  - rewrite pretty_N_go_step by done. apply IH; [by apply N.div_lt | done].
Qed.

Lemma pretty_N_nonempty (x : N) : pretty x <> "".
Proof.
  unfold pretty, pretty_N. case_decide; [done |].
  rewrite pretty_N_go_step by lia. by apply pretty_N_go_nonempty.
Qed.

Lemma pretty_Z_nonempty (z : Z) : pretty z <> "".
Proof.
  destruct z as [| p | p]; [done | apply pretty_N_nonempty |].
  unfold pretty, pretty_Z. done.
Qed.

Lemma truthy_str_int (z : Z) : truthy (VStr (str (VInt z))) = true.
Proof.
  simpl. apply negb_true_iff, String.eqb_neq, pretty_Z_nonempty.
Qed.

Lemma truthy_str_present (v : pyval) :
  present v = true -> truthy (VStr (str v)) = true.
Proof.
  destruct v as [| z | s | d]; [done | intros _; apply truthy_str_int | done |].
  intros _. reflexivity.
Qed.

Lemma format_date_nonempty (v : pyval) (pd : string) :
  _format_date v = Ok pd -> truthy (VStr pd) = true.
Proof.
  unfold _format_date.
  destruct v as [| z | s | d]; try done.
  - destruct (strptime_dmY s); [| done]. by intros [= <-].
  - destruct (strptime_dmY _); [| done]. by intros [= <-].
Qed.

Lemma emit_length (o : option pyval) (mk : pyval -> statement) :
  (length (emit o mk) <= 1)%nat.
Proof. unfold emit. destruct o as [v |]; [destruct (truthy v) |]; simpl; lia. Qed.

Lemma emit_kinds (o : option pyval) (mk : pyval -> statement) (k : value_kind) :
  (forall v, kind_of (mk v) = k) ->
  Forall (fun st => kind_of st = k) (emit o mk).
Proof.
  intros Hk. unfold emit. destruct o as [v |]; [destruct (truthy v) |];
    by repeat constructor.
Qed.

Lemma field_statement_kind (f : field) (v : pyval) :
  kind_of (field_statement f v) = field_kind f.
Proof. by destruct f. Qed.

(** The statements on a field's property are what the conditional append
    of that field contributes. *)
Lemma statements_on_field (f : field) (ps : properties)
    (auth lines : list statement) :
  Forall (fun st => prop_of st = "P4") auth ->
  Forall (fun st => prop_of st = "P15") lines ->
  statements_on (field_prop f) ((auth ++ lines) ++ scalar_statements ps)
  = emit (field_entry f ps) (field_statement f).
Proof.
  intros Hauth Hlines.
  rewrite !statements_on_app, statements_on_scalar_statements.
  rewrite (statements_on_other _ "P4" auth) by (by destruct f).
  rewrite (statements_on_other _ "P15" lines) by (by destruct f).
  destruct f; simpl field_prop; decide_props; simpl; by rewrite ?app_nil_r.
Qed.

Lemma emit_issue (r : row) (pd : string) (doi url : option string)
    (ps : properties) :
  gathered_from r pd doi url ps ->
  emit (P7 ps) (fun v => WDString v "P7")
  = match Numero r with
    | VInt n => [WDString (VStr (pretty n)) "P7"]
    | _ => []
    end.
Proof.
  intros (_ & _ & _ & _ & _ & _ & H7 & _). rewrite H7.
  destruct (Numero r) as [| n | s | d]; try done.
  unfold emit. simpl negb. simpl andb. cbv iota. by rewrite truthy_str_int.
Qed.

(** C7: the issue number yields a statement exactly when its cell is an
    integer: for a row processed to the end, the statement list written
    for the row has one statement on "P7", a string statement carrying
    the decimal writing of the integer, when the cell is an integer; for
    any other cell, a numeric-looking string included, there is no
    statement on "P7". *)
Theorem issue_emitted_only_for_integers (r : row) (h h' : handler Remote) :
  _process_row r h = (h', Ok tt) ->
  exists item_id before sts,
    calls h' = before ++ [ApiWrite item_id sts] /\
    statements_on "P7" sts
    = match Numero r with
      | VInt n => [WDString (VStr (pretty n)) "P7"]
      | _ => []
      end.
Proof.
  intros (item_id & before & pd & doi & url & ps & auth & lsts
          & Hcalls & _ & Hg & _ & Hauth & Hlines)%process_row_written.
  exists item_id, before, ((auth ++ lsts) ++ scalar_statements ps).
  split; [done |].
  rewrite (statements_on_field Issue) by done.
  by apply (emit_issue r pd doi url).
Qed.

Lemma emit_some_truthy (v : pyval) (mk : pyval -> statement) :
  truthy v = true -> emit (Some v) mk = [mk v].
Proof. intros Ht. unfold emit. by rewrite Ht. Qed.

Lemma emit_some_falsy (v : pyval) (mk : pyval -> statement) :
  truthy v = false -> emit (Some v) mk = [].
Proof. intros Ht. unfold emit. by rewrite Ht. Qed.

Lemma emit_str_unless_null (v : pyval) (mk : pyval -> statement) :
  (present v = true -> emit (str_unless_null v) mk = [mk (VStr (str v))]) /\
  (present v = false -> emit (str_unless_null v) mk = []).
Proof.
  split; intros Hp.
  - unfold str_unless_null. destruct v; try done;
      simpl negb; cbv iota; by rewrite emit_some_truthy by by apply truthy_str_present.
  - destruct v as [| | s |]; try done. simpl in Hp.
    apply negb_false_iff, String.eqb_eq in Hp as ->. done.
Qed.

Lemma emit_unless_null (v : pyval) (mk : pyval -> statement) :
  (negb (isnull v) && truthy v = true -> emit (unless_null v) mk = [mk v]) /\
  (present v = false -> emit (unless_null v) mk = []).
Proof.
  split; intros Hp.
  - destruct v; try done; simpl in Hp; unfold unless_null; simpl negb; cbv iota;
      by rewrite emit_some_truthy.
  - destruct v as [| | s |]; try done. simpl in Hp.
    apply negb_false_iff, String.eqb_eq in Hp as ->. done.
Qed.

End ProcessorProperties.

(** ** The processor on the sample rows *)

Section ProcessorExamples.
#[local] Existing Instance MemoryWikibase.api.
#[local] Existing Instance MemoryWikibase.urllib.
#[local] Existing Instance MemoryWikibase.datatypes.
Import WikibaseHandler DataProcessor MemoryWikibase.

Lemma batch_stops_at_first_empty_row_witness :
  isnull_all empty_row = true /\
  process_rows ([sample_row] ++ empty_row :: [sample_row_text_issue]) fresh_handler
  = process_rows [sample_row] fresh_handler /\
  process_rows (empty_row :: [sample_row]) fresh_handler = (fresh_handler, Ok tt).
Proof.
  split; [reflexivity |].
  pose proof (batch_stops_at_first_empty_row [sample_row] [sample_row_text_issue]
                empty_row "yes" fresh_handler eq_refl) as (Hstop & _).
  pose proof (batch_stops_at_first_empty_row [] [sample_row]
                empty_row "yes" fresh_handler eq_refl) as (_ & _ & Hterm & _).
  split; [exact Hstop | exact Hterm].
Defined.

Lemma authors_and_research_lines_required_witness :
  Autores row_without_authors = VNaN /\
  (exists h' e, _process_row row_without_authors fresh_handler = (h', Raise e)) /\
  (exists h' e,
     process_rows [row_without_authors; sample_row] fresh_handler = (h', Raise e)).
Proof.
  split; [reflexivity |].
  pose proof (authors_and_research_lines_required row_without_authors
                fresh_handler (or_introl eq_refl)) as (_ & Hrow & Hbatch).
  split; [exact Hrow | exact (Hbatch [sample_row] eq_refl)].
Defined.

Lemma authors_split_on_commas_in_order_witness :
  exists ids h1 h2 others,
    resolved_in_order AUTHOR ["Jane Doe"; "John Smith"] fresh_handler ids h1 /\
    length ids = 2%nat /\
    _create_statements no_properties sample_row fresh_handler
    = (h2, Ok (map (fun item_id => WDItemID (VStr item_id) "P4") ids ++ others)) /\
    statements_on "P4" others = [].
Proof.
  destruct (proj1 (authors_split_on_commas_in_order no_properties sample_row
                     fresh_handler "Jane Doe, John Smith" "Graphs; Data"
                     eq_refl eq_refl))
    as (ids & h1 & Hres & Hlen & _ & Hsts).
  destruct (Hsts (_create_statements no_properties sample_row fresh_handler).1
              [WDItemID (VStr "Q1") "P4"; WDItemID (VStr "Q2") "P4";
               WDItemID (VStr "Q3") "P15"; WDItemID (VStr "Q4") "P15"])
    as (others & Heq & Hothers); [vm_compute; reflexivity |].
  exists ids, h1, (_create_statements no_properties sample_row fresh_handler).1,
    others.
  split; [exact Hres |]. split; [exact Hlen |]. split; [| exact Hothers].
  rewrite <- Heq. vm_compute. reflexivity.
Defined.

Lemma issue_emitted_only_for_integers_witness :
  (exists h' item_id before sts,
     _process_row sample_row fresh_handler = (h', Ok tt) /\
     calls h' = before ++ [ApiWrite item_id sts] /\
     statements_on "P7" sts = [WDString (VStr "12") "P7"]) /\
  (exists h' item_id before sts,
     _process_row sample_row_text_issue fresh_handler = (h', Ok tt) /\
     calls h' = before ++ [ApiWrite item_id sts] /\
     statements_on "P7" sts = []).
Proof.
  split.
  - destruct (issue_emitted_only_for_integers sample_row fresh_handler
                (_process_row sample_row fresh_handler).1)
      as (item_id & before & sts & Hcalls & Hsts); [vm_compute; reflexivity |].
    exists (_process_row sample_row fresh_handler).1, item_id, before, sts.
    split; [vm_compute; reflexivity |]. split; [exact Hcalls | exact Hsts].
  - destruct (issue_emitted_only_for_integers sample_row_text_issue fresh_handler
                (_process_row sample_row_text_issue fresh_handler).1)
      as (item_id & before & sts & Hcalls & Hsts); [vm_compute; reflexivity |].
    exists (_process_row sample_row_text_issue fresh_handler).1, item_id, before, sts.
    split; [vm_compute; reflexivity |]. split; [exact Hcalls | exact Hsts].
Defined.

(** C2: a count of zero is a present source value, yet it yields no
    statement.  The sample row with 0 students is processed to the end,
    and the statement list written for it has no statement on "P18":
    the test [if properties['P18']:] reads the integer 0 as false.  The
    property as stated fails for the students field of this row. *)
Theorem present_zero_count_yields_no_statement :
  N_estudiantes row_with_no_students = VInt 0 /\
  present (field_source Students row_with_no_students) = true /\
  exists h' item_id sts,
    _process_row row_with_no_students fresh_handler = (h', Ok tt) /\
    last_written h' = Some (item_id, sts) /\
    statements_on (field_prop Students) sts = [] /\
    ~ one_statement_iff_present row_with_no_students sts Students.
Proof.
  split; [reflexivity |]. split; [reflexivity |].
  eexists _, _, _. split; [vm_compute; reflexivity |].
  split; [vm_compute; reflexivity |].
  split; [reflexivity |].
  intros [Hone _]. destruct (Hone eq_refl) as (st & Hst & _).
  vm_compute in Hst. discriminate Hst.
Qed.

End ProcessorExamples.

(** * Further properties *)

(** ** The resolver: creation, memoisation and the cache *)

Section ResolverCreation.
Context {Remote : Type} `{WikibaseAPI Remote}.

Import WikibaseHandler.

(** X1: when the name is neither in the cache nor found by the label
    search, the resolver creates one item: it searches, builds a draft,
    labels it with the name in English, writes it, attaches the baseline
    statement of the kind (research article: Q2, author: Q1, any other
    kind: none), stores the new id in the cache under the name and
    returns it. *)
Theorem resolve_creates_when_not_found (title : pyval) (item_type : Z)
    (h : handler Remote) :
  cache h !! title = None ->
  get_wd_search_results (remote h) title = [] ->
  exists h',
    get_or_create_item title item_type h
    = (h', Ok (write_new_item (remote h) title).2) /\
    cache h' = <[title := (write_new_item (remote h) title).2]> (cache h) /\
    calls h'
    = calls h ++
      [ApiSearch title; ApiCreate; ApiSetLabel title "en";
       ApiWrite (write_new_item (remote h) title).2 []] ++
      baseline_calls item_type (write_new_item (remote h) title).2 /\
    remote h'
    = fold_left
        (fun r c => match c with
                    | ApiWrite item_id data => write_item_data r item_id data
                    | _ => r
                    end)
        (baseline_calls item_type (write_new_item (remote h) title).2)
        (write_new_item (remote h) title).1.
Proof.
  intros Hc Hs. unfold get_or_create_item. rewrite Hc, Hs. simpl.
  destruct (write_new_item (remote h) title) as [r new_id]. simpl.
  unfold baseline_calls.
  destruct (item_type =? RESEARCH_ARTICLE)%Z; [| destruct (item_type =? AUTHOR)%Z];
    eexists; (split; [reflexivity |]); simpl; rewrite <- ?app_assoc; by repeat split.
Qed.

(** X2: once a name has been created, resolving it again, as any kind,
    returns the same id from the cache and makes no remote call. *)
Theorem resolve_again_after_creation (title : pyval) (kind1 kind2 : Z)
    (h : handler Remote) :
  cache h !! title = None ->
  get_wd_search_results (remote h) title = [] ->
  exists h1 item_id,
    get_or_create_item title kind1 h = (h1, Ok item_id) /\
    get_or_create_item title kind2 h1 = (h1, Ok item_id).
Proof.
  intros Hc Hs. unfold get_or_create_item at 1. rewrite Hc, Hs.
  destruct (write_new_item _ title) as [r new_id].
  eexists _, new_id. split; [reflexivity |].
  apply get_or_create_item_hit. simpl. apply lookup_insert_eq.
Qed.

(** X3: when the label search finds items, whatever the kind asked for,
    the only remote call is the search: nothing is created, labelled or
    written (a found item gets no baseline statement), and the remote
    store and the cache are as before. *)
Theorem resolve_found_only_searches (title : pyval) (item_type : Z)
    (h : handler Remote) (found : string) (others : list string) :
  cache h !! title = None ->
  get_wd_search_results (remote h) title = found :: others ->
  exists h',
    get_or_create_item title item_type h = (h', Ok found) /\
    calls h' = calls h ++ [ApiSearch title] /\
    remote h' = remote h /\
    cache h' = cache h.
Proof.
  intros Hc Hs. rewrite (get_or_create_item_found _ _ _ _ _ Hc Hs).
  by eexists.
Qed.

Lemma get_or_create_item_cache_other (title : pyval) (item_type : Z)
    (h h' : handler Remote) (r : result string) (k : pyval) :
  get_or_create_item title item_type h = (h', r) ->
  k <> title -> cache h' !! k = cache h !! k.
Proof.
  unfold get_or_create_item.
  destruct (cache h !! title); [by intros [= <- _] |].
  destruct (get_wd_search_results (remote h) title); [| by intros [= <- _]].
  destruct (write_new_item _ _) as [r' new_id].
  intros [= <- _] Hk. simpl.
  rewrite lookup_insert_ne by done.
  by repeat case_match.
Qed.

Lemma get_or_create_item_cache_kept (title : pyval) (item_type : Z)
    (h h' : handler Remote) (r : result string) (k : pyval) (v : string) :
  get_or_create_item title item_type h = (h', r) ->
  cache h !! k = Some v -> cache h' !! k = Some v.
Proof.
  intros Hrun Hk. destruct (decide (k = title)) as [-> | Hne].
  - rewrite (get_or_create_item_hit _ _ _ _ Hk) in Hrun. by injection Hrun as <- _.
  - by rewrite (get_or_create_item_cache_other _ _ _ _ _ _ Hrun Hne).
Qed.

(** X4: a call to the resolver leaves every cache entry but that of its
    own name untouched, and never changes or removes an entry that is
    already there; the id it returns is the one cached under the name
    afterwards, whenever the name is cached at all. *)
Theorem resolve_cache_frame (title : pyval) (item_type : Z)
    (h h' : handler Remote) (item_id : string) :
  get_or_create_item title item_type h = (h', Ok item_id) ->
  (forall k, k <> title -> cache h' !! k = cache h !! k) /\
  (forall k v, cache h !! k = Some v -> cache h' !! k = Some v) /\
  (forall v, cache h' !! title = Some v -> v = item_id).
Proof.
  intros Hrun. split; [| split].
  - intros k Hk. by apply (get_or_create_item_cache_other _ _ _ _ _ _ Hrun).
  - intros k v. by apply (get_or_create_item_cache_kept _ _ _ _ _ _ _ Hrun).
  - revert Hrun. unfold get_or_create_item.
    destruct (cache h !! title) as [cached |] eqn:Hc.
    { intros [= <- <-] v. congruence. }
    destruct (get_wd_search_results (remote h) title).
    2:{ intros [= <- _] v. simpl. congruence. }
    destruct (write_new_item _ _) as [r' new_id].
    intros [= <- <-] v. simpl. rewrite lookup_insert_eq. congruence.
Qed.

End ResolverCreation.

(** ** The cache across a row and across the batch *)

Section CacheInvariant.
Context {Remote : Type} `{WikibaseAPI Remote} `{Urllib} `{WdiDatatypes}.

Import WikibaseHandler DataProcessor.

Lemma keeps_cache_ret {A} (a : A) : keeps_cache (ret (Remote := Remote) a).
Proof. by intros h h' r [= <- _]. Qed.

Lemma keeps_cache_lift {A} (x : result A) : keeps_cache (lift (Remote := Remote) x).
Proof. by intros h h' r [= <- _]. Qed.

Lemma keeps_cache_bind {A B} (m : M Remote A) (k : A -> M Remote B) :
  keeps_cache m -> (forall a, keeps_cache (k a)) -> keeps_cache (bind m k).
Proof.
  intros Hm Hk h h' r. unfold bind.
  destruct (m h) as [h1 [a | e]] eqn:E.
  - intros Hrun key v Hv. eapply Hk; [done |]. by eapply Hm.
  - intros [= <- _] key v Hv. by eapply Hm.
Qed.

Lemma keeps_cache_mapM {A B} (f : A -> M Remote B) (l : list A) :
  (forall a, keeps_cache (f a)) -> keeps_cache (mapM f l).
Proof.
  intros Hf. induction l as [| a l IH]; simpl; [apply keeps_cache_ret |].
  apply keeps_cache_bind; [done |]. intros b.
  apply keeps_cache_bind; [done |]. intros bs. apply keeps_cache_ret.
Qed.

Lemma keeps_cache_resolver (title : pyval) (item_type : Z) :
  keeps_cache (get_or_create_item title item_type).
Proof.
  intros h h' r Hrun k v. by apply (get_or_create_item_cache_kept _ _ _ _ _ _ _ Hrun).
Qed.

Lemma keeps_cache_process_row (r : row) : keeps_cache (_process_row r).
Proof.
  unfold _process_row.
  apply keeps_cache_bind; [apply keeps_cache_resolver | intros item_id].
  apply keeps_cache_bind; [apply keeps_cache_lift | intros pd].
  apply keeps_cache_bind.
  { destruct (negb _); [apply keeps_cache_lift | apply keeps_cache_ret]. }
  intros doi. apply keeps_cache_bind.
  { destruct (negb _); [apply keeps_cache_lift | apply keeps_cache_ret]. }
  intros url. apply keeps_cache_bind.
  { unfold _gather_properties, resolve_unless_null.
    repeat (apply keeps_cache_bind;
            [destruct (negb _);
             [apply keeps_cache_bind; [apply keeps_cache_resolver |];
              intros ?; apply keeps_cache_ret
             | apply keeps_cache_ret]
            | intros ?]).
    apply keeps_cache_ret. }
  intros ps. apply keeps_cache_bind.
  { unfold _create_statements.
    apply keeps_cache_bind; [apply keeps_cache_lift | intros authors].
    apply keeps_cache_bind.
    { apply keeps_cache_mapM. intros a. unfold author_statement.
      apply keeps_cache_bind; [apply keeps_cache_resolver |].
      intros ?. apply keeps_cache_ret. }
    intros auth. apply keeps_cache_bind; [apply keeps_cache_lift | intros ls].
    apply keeps_cache_bind.
    { apply keeps_cache_mapM. intros a. unfold research_line_statement.
      apply keeps_cache_bind; [apply keeps_cache_resolver |].
      intros ?. apply keeps_cache_ret. }
    intros lsts. apply keeps_cache_lift. }
  intros sts h h' res [= <- _] k v Hv. done.
Qed.

Lemma keeps_cache_process_rows (data : list row) : keeps_cache (process_rows data).
Proof.
  induction data as [| r data IH]; simpl; [apply keeps_cache_ret |].
  destruct (isnull_all r); [apply keeps_cache_ret |].
  apply keeps_cache_bind; [apply keeps_cache_process_row | done].
Qed.

(** X5: the cache is never evicted: whatever the batch does, and
    whether it ends normally, at a terminal row or on an error, every
    entry the cache had before is still there with the same id
    afterwards. *)
Theorem batch_never_evicts_cache (data : list row) (response : string)
    (h h' : handler Remote) (res : result unit) :
  process_data data response h = (h', res) ->
  forall name item_id,
    cache h !! name = Some item_id -> cache h' !! name = Some item_id.
Proof.
  unfold process_data. destruct (negb _); [by intros [= <- _] |].
  apply keeps_cache_process_rows.
Qed.

End CacheInvariant.

Section CacheInvariantExamples.
#[local] Existing Instance MemoryWikibase.api.
#[local] Existing Instance MemoryWikibase.urllib.
#[local] Existing Instance MemoryWikibase.datatypes.
Import WikibaseHandler DataProcessor MemoryWikibase.

Lemma batch_never_evicts_cache_witness :
  cache (process_data [sample_row; row_without_authors] "yes"
           handler_with_cached_author).1 !! VStr "Jane Doe" = Some "Q7".
Proof.
  apply (batch_never_evicts_cache [sample_row; row_without_authors] "yes"
           handler_with_cached_author _ _ (surjective_pairing _)).
  reflexivity.
Defined.

End CacheInvariantExamples.

(** ** The statement builder: research lines, counts and order *)

Section BuilderShape.
Context {Remote : Type} `{WikibaseAPI Remote} `{Urllib} `{WdiDatatypes}.

Import WikibaseHandler DataProcessor.

(** The builder that returns, on a row whose cells are the strings
    [authors] and [lines]. *)
Lemma create_statements_returned (ps : properties) (r : row)
    (h h2 : handler Remote) (sts : list statement) (authors lines : string) :
  Autores r = VStr authors ->
  Lineas_de_Investigacion r = VStr lines ->
  _create_statements ps r h = (h2, Ok sts) ->
  exists ids h1 lids,
    resolved_in_order AUTHOR (map PyStr.strip (PyStr.split "," authors)) h ids h1 /\
    mapM author_statement (PyStr.split "," authors) h
    = (h1, Ok (map (fun item_id => WDItemID (VStr item_id) "P4") ids)) /\
    resolved_in_order 0 (map PyStr.strip (PyStr.split ";" lines)) h1 lids h2 /\
    sts = map (fun item_id => WDItemID (VStr item_id) "P4") ids
          ++ map (fun item_id => WDItemID (VStr item_id) "P15") lids
          ++ scalar_statements ps.
Proof.
  intros Ha Hl Hrun.
  destruct (create_statements_shape ps r h authors lines Ha Hl)
    as (ids & h1 & lids & h2' & Hares & Hauth & Hlres & Hshape).
  rewrite Hshape in Hrun. injection Hrun as <- Happ.
  apply append_properties_inv in Happ as ->.
  exists ids, h1, lids. by rewrite <- app_assoc.
Qed.

(** X6: the research-lines cell is split on semicolons, each piece is
    stripped and resolved with no kind, in the order of the split and
    after all the authors; when the builder returns, the statement list
    has one item statement on "P15" per research line, in that order,
    right after the author statements, and no other statement on
    "P15". *)
Theorem research_lines_split_on_semicolons (ps : properties) (r : row)
    (h h2 : handler Remote) (sts : list statement) (authors lines : string) :
  Autores r = VStr authors ->
  Lineas_de_Investigacion r = VStr lines ->
  _create_statements ps r h = (h2, Ok sts) ->
  exists auth h1 ids scalars,
    mapM author_statement (PyStr.split "," authors) h = (h1, Ok auth) /\
    resolved_in_order 0 (map PyStr.strip (PyStr.split ";" lines)) h1 ids h2 /\
    length ids = length (PyStr.split ";" lines) /\
    sts = auth ++ map (fun item_id => WDItemID (VStr item_id) "P15") ids
               ++ scalars /\
    statements_on "P15" auth = [] /\
    statements_on "P15" scalars = [].
Proof.
  intros Ha Hl Hrun.
  destruct (create_statements_returned ps r h h2 sts authors lines Ha Hl Hrun)
    as (aids & h1 & ids & _ & Hauth & Hres & ->).
  eexists _, h1, ids, (scalar_statements ps).
  split; [exact Hauth |]. split; [exact Hres |]. split.
  { rewrite (resolved_in_order_length _ _ _ _ _ Hres). apply length_map. }
  split; [reflexivity | split].
  - apply (statements_on_other "P15" "P4"); [done | apply item_statements_props].
  - apply statements_on_scalars_other. by right.
Qed.

Lemma split_length (sep : ascii) (s : string) :
  length (PyStr.split sep s) = S (occurrences sep s).
Proof.
  induction s as [| c s IH]; simpl; [done |].
  destruct (Ascii.eqb c sep); simpl; [by rewrite IH |].
  destruct (PyStr.split sep s); simpl in *; lia.
Qed.

(** X7: when the builder returns, the number of author statements is
    one more than the number of commas in the authors cell, and the
    number of research-line statements one more than the number of
    semicolons: neither list is ever empty, and an empty piece (an empty
    cell, a trailing separator) is resolved like any name. *)
Theorem author_and_line_statement_counts (ps : properties) (r : row)
    (h h2 : handler Remote) (sts : list statement) (authors lines : string) :
  Autores r = VStr authors ->
  Lineas_de_Investigacion r = VStr lines ->
  _create_statements ps r h = (h2, Ok sts) ->
  length (statements_on "P4" sts) = S (occurrences "," authors) /\
  length (statements_on "P15" sts) = S (occurrences ";" lines).
Proof.
  intros Ha Hl Hrun.
  destruct (create_statements_returned ps r h h2 sts authors lines Ha Hl Hrun)
    as (aids & h1 & ids & Hares & _ & Hres & ->).
  rewrite !statements_on_app.
  rewrite !statements_on_scalars_other by auto.
  rewrite (statements_on_same "P4"), (statements_on_other "P4" "P15"),
    (statements_on_other "P15" "P4"), (statements_on_same "P15");
    try done; try apply item_statements_props.
  rewrite !app_nil_r. simpl. rewrite !length_map.
  rewrite (resolved_in_order_length _ _ _ _ _ Hares),
    (resolved_in_order_length _ _ _ _ _ Hres), !length_map.
  by rewrite !split_length.
Qed.

Lemma emit_prop_sublist (o : option pyval) (mk : pyval -> statement) (p : string) :
  (forall v, prop_of (mk v) = p) -> sublist (prop_of <$> emit o mk) [p].
Proof.
  intros Hp. unfold emit. destruct o as [v |]; [destruct (truthy v) |]; simpl.
  - by rewrite Hp.
  - apply sublist_nil_l.
  - apply sublist_nil_l.
Qed.

(** X8: when the builder returns, the statement list is laid out in a
    fixed order: the author statements (all on "P4"), then the
    research-line statements (all on "P15"), then the scalar and
    reference statements, whose property numbers follow the order P2,
    P3, P5, P6, P7, P8, P9, P10, P11, P12, P13, P14, P16, P17, P18, P24,
    each at most once. *)
Theorem statements_in_fixed_order (ps : properties) (r : row)
    (h h2 : handler Remote) (sts : list statement) :
  _create_statements ps r h = (h2, Ok sts) ->
  exists auth lsts scalars,
    sts = auth ++ lsts ++ scalars /\
    Forall (fun st => prop_of st = "P4" /\ kind_of st = ItemRef) auth /\
    Forall (fun st => prop_of st = "P15" /\ kind_of st = ItemRef) lsts /\
    sublist (prop_of <$> scalars) scalar_props.
Proof.
  intros (authors & lines & aids & h1 & ids & _ & _ & _ & _ & _ & _ & ->)
    %create_statements_inv.
  eexists _, _, (scalar_statements ps).
  split; [by rewrite <- app_assoc |].
  split; [apply item_statements_kinds |].
  split; [apply item_statements_kinds |].
  unfold scalar_statements. rewrite !fmap_app.
  unfold scalar_props.
  repeat (apply (sublist_app _ [_]); [by apply emit_prop_sublist |]).
  by apply emit_prop_sublist.
Qed.

End BuilderShape.

Section BuilderShapeExamples.
#[local] Existing Instance MemoryWikibase.api.
#[local] Existing Instance MemoryWikibase.urllib.
#[local] Existing Instance MemoryWikibase.datatypes.
Import WikibaseHandler DataProcessor MemoryWikibase.

(** The statement list of the sample row, built from an empty
    dictionary of properties on a fresh handler. *)
Lemma sample_row_author_and_line_statements :
  _create_statements no_properties sample_row fresh_handler
  = ((_create_statements no_properties sample_row fresh_handler).1,
     Ok [WDItemID (VStr "Q1") "P4"; WDItemID (VStr "Q2") "P4";
         WDItemID (VStr "Q3") "P15"; WDItemID (VStr "Q4") "P15"]).
Proof. vm_compute. reflexivity. Defined.

Lemma research_lines_split_on_semicolons_witness :
  exists auth h1 ids scalars,
    mapM author_statement ["Jane Doe"; " John Smith"] fresh_handler = (h1, Ok auth) /\
    resolved_in_order 0 ["Graphs"; "Data"] h1 ids
      (_create_statements no_properties sample_row fresh_handler).1 /\
    length ids = 2%nat /\
    [WDItemID (VStr "Q1") "P4"; WDItemID (VStr "Q2") "P4";
     WDItemID (VStr "Q3") "P15"; WDItemID (VStr "Q4") "P15"]
    = auth ++ map (fun item_id => WDItemID (VStr item_id) "P15") ids ++ scalars /\
    statements_on "P15" auth = [] /\
    statements_on "P15" scalars = [].
Proof.
  exact (research_lines_split_on_semicolons no_properties sample_row
           fresh_handler _ _ "Jane Doe, John Smith" "Graphs; Data" eq_refl eq_refl
           sample_row_author_and_line_statements).
Defined.

(** The sample row with a trailing comma after the authors and an empty
    research-lines cell. *)
Lemma author_and_line_statement_counts_witness :
  exists h' sts,
    _create_statements no_properties
      (with_authors_and_lines (VStr "Jane Doe,") (VStr "") sample_row)
      fresh_handler = (h', Ok sts) /\
    length (statements_on "P4" sts) = 2%nat /\
    length (statements_on "P15" sts) = 1%nat.
Proof.
  eexists _, _. split; [vm_compute; reflexivity |].
  apply (author_and_line_statement_counts no_properties
           (with_authors_and_lines (VStr "Jane Doe,") (VStr "") sample_row)
           fresh_handler
           (_create_statements no_properties
              (with_authors_and_lines (VStr "Jane Doe,") (VStr "") sample_row)
              fresh_handler).1 _ "Jane Doe," "");
    [reflexivity | reflexivity | vm_compute; reflexivity].
Defined.

Lemma statements_in_fixed_order_witness :
  exists auth lsts scalars,
    [WDItemID (VStr "Q1") "P4"; WDItemID (VStr "Q2") "P4";
     WDItemID (VStr "Q3") "P15"; WDItemID (VStr "Q4") "P15"]
    = auth ++ lsts ++ scalars /\
    Forall (fun st => prop_of st = "P4" /\ kind_of st = ItemRef) auth /\
    Forall (fun st => prop_of st = "P15" /\ kind_of st = ItemRef) lsts /\
    sublist (prop_of <$> scalars) scalar_props.
Proof.
  exact (statements_in_fixed_order no_properties sample_row fresh_handler _ _
           sample_row_author_and_line_statements).
Defined.

End BuilderShapeExamples.

(** ** The log and the cache through the builder *)

Section LogAndCache.
Context {Remote : Type} `{WikibaseAPI Remote} `{Urllib} `{WdiDatatypes}.

Import WikibaseHandler DataProcessor.

Lemma extends_log_ret {A} (a : A) : extends_log (ret (Remote := Remote) a).
Proof. intros h h' r [= <- _]. exists []. by rewrite app_nil_r. Qed.

Lemma extends_log_lift {A} (x : result A) : extends_log (lift (Remote := Remote) x).
Proof. intros h h' r [= <- _]. exists []. by rewrite app_nil_r. Qed.

Lemma extends_log_bind {A B} (m : M Remote A) (k : A -> M Remote B) :
  extends_log m -> (forall a, extends_log (k a)) -> extends_log (bind m k).
Proof.
  intros Hm Hk h h' r. unfold bind.
  destruct (m h) as [h1 [a | e]] eqn:E.
  - intros Hrun. destruct (Hm _ _ _ E) as (m1 & Hm1).
    destruct (Hk _ _ _ _ Hrun) as (m2 & Hm2).
    exists (m1 ++ m2). by rewrite Hm2, Hm1, <- app_assoc.
  - intros [= <- _]. by apply (Hm _ _ _ E).
Qed.

Lemma extends_log_mapM {A B} (f : A -> M Remote B) (l : list A) :
  (forall a, extends_log (f a)) -> extends_log (mapM f l).
Proof.
  intros Hf. induction l as [| a l IH]; simpl; [apply extends_log_ret |].
  apply extends_log_bind; [done |]. intros b.
  apply extends_log_bind; [done |]. intros bs. apply extends_log_ret.
Qed.

Lemma extends_log_resolver (title : pyval) (item_type : Z) :
  extends_log (get_or_create_item title item_type).
Proof. intros h h' r. apply get_or_create_item_calls. Qed.

Lemma extends_log_create_statements (ps : properties) (r : row) :
  extends_log (_create_statements ps r).
Proof.
  unfold _create_statements.
  apply extends_log_bind; [apply extends_log_lift | intros ?].
  apply extends_log_bind.
  { apply extends_log_mapM. intros nm. unfold author_statement.
    apply extends_log_bind; [apply extends_log_resolver |].
    intros ?. apply extends_log_ret. }
  intros ?. apply extends_log_bind; [apply extends_log_lift | intros ?].
  apply extends_log_bind.
  { apply extends_log_mapM. intros nm. unfold research_line_statement.
    apply extends_log_bind; [apply extends_log_resolver |].
    intros ?. apply extends_log_ret. }
  intros ?. apply extends_log_lift.
Qed.

Lemma extends_log_gather_properties (r : row) (pd : string)
    (doi url : option string) :
  extends_log (_gather_properties r pd doi url).
Proof.
  unfold _gather_properties, resolve_unless_null.
  repeat (apply extends_log_bind;
          [destruct (negb _);
           [apply extends_log_bind; [apply extends_log_resolver |];
            intros ?; apply extends_log_ret
           | apply extends_log_ret]
          | intros ?]).
  apply extends_log_ret.
Qed.

Lemma keeps_cache_gather_properties (r : row) (pd : string)
    (doi url : option string) :
  keeps_cache (_gather_properties r pd doi url).
Proof.
  unfold _gather_properties, resolve_unless_null.
  repeat (apply keeps_cache_bind;
          [destruct (negb _);
           [apply keeps_cache_bind; [apply keeps_cache_resolver |];
            intros ?; apply keeps_cache_ret
           | apply keeps_cache_ret]
          | intros ?]).
  apply keeps_cache_ret.
Qed.

Lemma keeps_cache_create_statements (ps : properties) (r : row) :
  keeps_cache (_create_statements ps r).
Proof.
  unfold _create_statements.
  apply keeps_cache_bind; [apply keeps_cache_lift | intros ?].
  apply keeps_cache_bind.
  { apply keeps_cache_mapM. intros nm. unfold author_statement.
    apply keeps_cache_bind; [apply keeps_cache_resolver |].
    intros ?. apply keeps_cache_ret. }
  intros ?. apply keeps_cache_bind; [apply keeps_cache_lift | intros ?].
  apply keeps_cache_bind.
  { apply keeps_cache_mapM. intros nm. unfold research_line_statement.
    apply keeps_cache_bind; [apply keeps_cache_resolver |].
    intros ?. apply keeps_cache_ret. }
  intros ?. apply keeps_cache_lift.
Qed.

End LogAndCache.

(** ** The row processor: remote calls, failures and the final write *)

Section RowProcessor.
Context {Remote : Type} `{WikibaseAPI Remote} `{Urllib} `{WdiDatatypes}.

Import WikibaseHandler DataProcessor.

Lemma resolve_without_kind_calls (title : pyval) (h h' : handler Remote)
    (r : result string) :
  get_or_create_item title 0 h = (h', r) ->
  exists more, calls h' = calls h ++ more /\ Forall carries_no_statement more.
Proof.
  unfold get_or_create_item.
  destruct (cache h !! title).
  { intros [= <- _]. exists []. by rewrite app_nil_r. }
  destruct (get_wd_search_results (remote h) title).
  2:{ intros [= <- _]. eexists. split; [reflexivity |]. by repeat constructor. }
  destruct (write_new_item _ _) as [r' new_id]. intros [= <- _]. simpl.
  eexists. rewrite <- app_assoc. split; [reflexivity |]. by repeat constructor.
Qed.

Lemma resolve_unless_null_calls (v : pyval) (h h' : handler Remote)
    (r : result (option pyval)) :
  resolve_unless_null v h = (h', r) ->
  (isnull v = true -> h' = h) /\
  exists more, calls h' = calls h ++ more /\ Forall carries_no_statement more.
Proof.
  unfold resolve_unless_null. destruct (isnull v); simpl.
  - intros [= <- _]. split; [done |]. exists []. by rewrite app_nil_r.
  - unfold bind. destruct (get_or_create_item v 0 h) as [h1 [a | e]] eqn:E;
      intros [= <- _]; (split; [done |]);
      by apply (resolve_without_kind_calls v h h1 _ E).
Qed.

(** X9: gathering the properties resolves the category, the venue and
    the formal network with no kind, so whatever it adds to the log
    attaches no statement: an item created for one of them gets no
    "instance of" statement.  When the three cells are null the handler
    is left as it is: no remote call is made. *)
Theorem gather_attaches_no_statement (r : row) (publication_date : string)
    (doi_identifier related_url : option string) (h : handler Remote) :
  exists h' ps more,
    _gather_properties r publication_date doi_identifier related_url h
    = (h', Ok ps) /\
    calls h' = calls h ++ more /\
    Forall carries_no_statement more /\
    (isnull (Categoria_Publicacion r) = true ->
     isnull (Fuente r) = true ->
     isnull (Red_Formal_en_la_que_Participa r) = true ->
     h' = h).
Proof.
  unfold _gather_properties.
  destruct (resolve_unless_null_returns (Categoria_Publicacion r) h)
    as (h1 & p3 & Hr3 & _).
  destruct (resolve_unless_null_returns (Fuente r) h1) as (h2 & p5 & Hr5 & _).
  destruct (resolve_unless_null_returns (Red_Formal_en_la_que_Participa r) h2)
    as (h3 & p14 & Hr14 & _).
  rewrite (bind_ok _ _ _ _ _ Hr3), (bind_ok _ _ _ _ _ Hr5),
    (bind_ok _ _ _ _ _ Hr14).
  destruct (resolve_unless_null_calls _ _ _ _ Hr3) as (Hn1 & m1 & Hc1 & Hf1).
  destruct (resolve_unless_null_calls _ _ _ _ Hr5) as (Hn2 & m2 & Hc2 & Hf2).
  destruct (resolve_unless_null_calls _ _ _ _ Hr14) as (Hn3 & m3 & Hc3 & Hf3).
  eexists h3, _, (m1 ++ m2 ++ m3). split; [reflexivity |].
  split; [by rewrite Hc3, Hc2, Hc1, <- !app_assoc |].
  split; [by rewrite !Forall_app |].
  intros N1 N2 N3. by rewrite (Hn3 N3), (Hn2 N2), (Hn1 N1).
Qed.

(** X10: a date that does not parse fails the row after the item of the
    title has been resolved: the error is the one of the date, and the
    handler is the one the resolution of the title left, so an article
    item created for the row stays in the remote store and in the cache
    (nothing is rolled back), and no statement is written to it. *)
Theorem bad_date_fails_after_title_resolution (r : row) (h : handler Remote)
    (e : exn) :
  _format_date (Fecha_Publicacion r) = Raise e ->
  _process_row r h
  = ((get_or_create_item (Titulo r) RESEARCH_ARTICLE h).1, Raise e).
Proof.
  intros Hd. unfold _process_row.
  destruct (get_or_create_item_returns (Titulo r) RESEARCH_ARTICLE h)
    as (h1 & item_id & Hr).
  rewrite (bind_ok _ _ _ _ _ Hr), Hr, Hd. reflexivity.
Qed.

(** X11: a DOI cell that is neither null nor a string (a number, a
    datetime) fails the row with [TypeError], once the title has been
    resolved and the date formatted: the membership test needs a
    string. *)
Theorem non_text_doi_raises_type_error (r : row) (h : handler Remote)
    (pd : string) :
  _format_date (Fecha_Publicacion r) = Ok pd ->
  (forall s, DOI r <> VStr s) ->
  DOI r <> VNaN ->
  _process_row r h
  = ((get_or_create_item (Titulo r) RESEARCH_ARTICLE h).1, Raise TypeError).
Proof.
  intros Hd Hns Hnn. unfold _process_row.
  destruct (get_or_create_item_returns (Titulo r) RESEARCH_ARTICLE h)
    as (h1 & item_id & Hr).
  rewrite (bind_ok _ _ _ _ _ Hr), Hr, Hd.
  rewrite (bind_ok _ _ h1 h1 pd) by done.
  destruct (DOI r) as [| z | s | d]; try done.
  by destruct (Hns s).
Qed.

(** X12: when the authors are a string but the research lines are not,
    the builder fails only after every author has been resolved: the
    handler carries the searches, creations and cache entries made for
    the authors. *)
Theorem authors_resolved_before_lines_fail (ps : properties) (r : row)
    (h : handler Remote) (authors : string) :
  Autores r = VStr authors ->
  (forall s, Lineas_de_Investigacion r <> VStr s) ->
  _create_statements ps r h
  = ((mapM author_statement (PyStr.split "," authors) h).1, Raise AttributeError).
Proof.
  intros Ha Hl. by apply create_statements_lines_not_text.
Qed.

(** X13: a row that is processed to the end writes its statements to
    the item resolved from its title as a research article, in a single
    write that is the last remote call.  The statements written are
    those the builder returned for the properties gathered from the row,
    the date and the DOI fields being those of the field transformers;
    the write changes the remote store and leaves the cache to what the
    resolutions made it. *)
Theorem row_statements_written_to_title_item (r : row) (h h' : handler Remote) :
  _process_row r h = (h', Ok tt) ->
  exists h1 item_id pd doi url hg ps h2 sts,
    get_or_create_item (Titulo r) RESEARCH_ARTICLE h = (h1, Ok item_id) /\
    _format_date (Fecha_Publicacion r) = Ok pd /\
    doi_fields r doi url /\
    _gather_properties r pd doi url h1 = (hg, Ok ps) /\
    _create_statements ps r hg = (h2, Ok sts) /\
    h' = mk_handler (cache h2) (write_item_data (remote h2) item_id sts)
           (calls h2 ++ [ApiWrite item_id sts]) /\
    (exists more, calls h2 = calls h1 ++ more) /\
    (forall k v, cache h1 !! k = Some v -> cache h2 !! k = Some v).
Proof.
  intros (h1 & item_id & pd & doi & url & hg & ps & h2 & sts
          & Hres & Hd & Hdf & Hg & Hc & ->)%process_row_inv.
  exists h1, item_id, pd, doi, url, hg, ps, h2, sts.
  split; [done |]. split; [done |]. split; [done |]. split; [done |].
  split; [done |]. split; [reflexivity |]. split.
  - destruct (extends_log_gather_properties r pd doi url _ _ _ Hg) as (m1 & Hm1).
    destruct (extends_log_create_statements ps r _ _ _ Hc) as (m2 & Hm2).
    exists (m1 ++ m2). by rewrite Hm2, Hm1, <- app_assoc.
  - intros k v Hv.
    eapply (keeps_cache_create_statements ps r); [exact Hc |].
    by eapply (keeps_cache_gather_properties r pd doi url).
Qed.

End RowProcessor.

Section ResolverCreationExamples.
#[local] Existing Instance MemoryWikibase.api.
Import WikibaseHandler MemoryWikibase.

Lemma resolve_creates_when_not_found_witness :
  exists h',
    get_or_create_item (VStr "Jane Doe") AUTHOR fresh_handler = (h', Ok "Q1") /\
    cache h' = <[VStr "Jane Doe" := "Q1"]> ∅ /\
    calls h'
    = [ApiSearch (VStr "Jane Doe"); ApiCreate; ApiSetLabel (VStr "Jane Doe") "en";
       ApiWrite "Q1" []; ApiWrite "Q1" [WDItemID (VStr "Q1") "20"]].
Proof.
  destruct (resolve_creates_when_not_found (VStr "Jane Doe") AUTHOR fresh_handler)
    as (h' & Hrun & Hcache & Hcalls & _); [reflexivity | reflexivity |].
  exists h'. split; [exact Hrun |]. split; [exact Hcache | exact Hcalls].
Defined.

Lemma resolve_again_after_creation_witness :
  exists h1 item_id,
    get_or_create_item (VStr "Jane Doe") AUTHOR fresh_handler = (h1, Ok item_id) /\
    get_or_create_item (VStr "Jane Doe") 0 h1 = (h1, Ok item_id).
Proof.
  apply (resolve_again_after_creation (VStr "Jane Doe") AUTHOR 0 fresh_handler);
    reflexivity.
Defined.

Lemma resolve_found_only_searches_witness :
  exists h',
    get_or_create_item (VStr "Nature") AUTHOR handler_before_nature = (h', Ok "Q1") /\
    calls h' = calls handler_before_nature ++ [ApiSearch (VStr "Nature")] /\
    remote h' = remote handler_before_nature /\
    cache h' = cache handler_before_nature.
Proof.
  apply (resolve_found_only_searches (VStr "Nature") AUTHOR handler_before_nature
           "Q1" []); reflexivity.
Defined.

Lemma resolve_cache_frame_witness :
  cache (get_or_create_item (VStr "John Smith") AUTHOR
           handler_with_cached_author).1 !! VStr "Jane Doe" = Some "Q7".
Proof.
  destruct (resolve_cache_frame (VStr "John Smith") AUTHOR
              handler_with_cached_author
              (get_or_create_item (VStr "John Smith") AUTHOR
                 handler_with_cached_author).1 "Q1")
    as (_ & Hkept & _); [reflexivity |].
  apply Hkept. reflexivity.
Defined.

End ResolverCreationExamples.

Section RowProcessorExamples.
#[local] Existing Instance MemoryWikibase.api.
#[local] Existing Instance MemoryWikibase.urllib.
#[local] Existing Instance MemoryWikibase.datatypes.
Import WikibaseHandler DataProcessor MemoryWikibase.

Lemma gather_attaches_no_statement_witness :
  exists h' ps more,
    _gather_properties sample_row "+2021-03-15T00:00:00Z" (Some "10.1000/182") None
      fresh_handler = (h', Ok ps) /\
    calls h' = more /\
    Forall carries_no_statement more.
Proof.
  destruct (gather_attaches_no_statement sample_row "+2021-03-15T00:00:00Z"
              (Some "10.1000/182") None fresh_handler)
    as (h' & ps & more & Hrun & Hcalls & Hall & _).
  by exists h', ps, more.
Defined.

Lemma bad_date_fails_after_title_resolution_witness :
  exists h',
    _process_row row_with_bad_date fresh_handler = (h', Raise ValueError) /\
    cache h' !! VStr "On Graphs" = Some "Q1" /\
    calls h'
    = [ApiSearch (VStr "On Graphs"); ApiCreate; ApiSetLabel (VStr "On Graphs") "en";
       ApiWrite "Q1" []; ApiWrite "Q1" [WDItemID (VStr "Q2") "20"]].
Proof.
  eexists. split; [| split].
  - exact (bad_date_fails_after_title_resolution row_with_bad_date fresh_handler
             ValueError eq_refl).
  - reflexivity.
  - reflexivity.
Defined.

Lemma numeric_doi_is_not_text (s : string) : DOI row_with_numeric_doi <> VStr s.
Proof. discriminate. Defined.

Lemma non_text_doi_raises_type_error_witness :
  (_process_row row_with_numeric_doi fresh_handler).2 = Raise TypeError.
Proof.
  rewrite (non_text_doi_raises_type_error row_with_numeric_doi fresh_handler
             "+2021-03-15T00:00:00Z" eq_refl numeric_doi_is_not_text).
  - reflexivity.
  - discriminate.
Defined.

Lemma missing_lines_are_not_text (s : string) :
  Lineas_de_Investigacion row_without_lines <> VStr s.
Proof. discriminate. Defined.

Lemma authors_resolved_before_lines_fail_witness :
  exists h',
    _create_statements no_properties row_without_lines fresh_handler
    = (h', Raise AttributeError) /\
    cache h' !! VStr "Jane Doe" = Some "Q1" /\
    cache h' !! VStr "John Smith" = Some "Q2".
Proof.
  eexists. split; [| split].
  - exact (authors_resolved_before_lines_fail no_properties row_without_lines
             fresh_handler "Jane Doe, John Smith" eq_refl missing_lines_are_not_text).
  - reflexivity.
  - reflexivity.
Defined.

Lemma row_statements_written_to_title_item_witness :
  exists h1 item_id hg ps h2 sts,
    get_or_create_item (VStr "On Graphs") RESEARCH_ARTICLE fresh_handler
    = (h1, Ok item_id) /\
    _gather_properties sample_row "+2021-03-15T00:00:00Z" (Some "10.1000/182")
      None h1 = (hg, Ok ps) /\
    _create_statements ps sample_row hg = (h2, Ok sts) /\
    _process_row sample_row fresh_handler
    = (mk_handler (cache h2) (write_item_data (remote h2) item_id sts)
         (calls h2 ++ [ApiWrite item_id sts]), Ok tt).
Proof.
  destruct (row_statements_written_to_title_item sample_row fresh_handler
              (_process_row sample_row fresh_handler).1)
    as (h1 & item_id & pd & doi & url & hg & ps & h2 & sts
        & Hres & Hd & Hdf & Hg & Hc & Hh' & _); [vm_compute; reflexivity |].
  injection Hd as <-. destruct Hdf as [Hdoi Hurl].
  injection Hdoi as <-. injection Hurl as <-.
  exists h1, item_id, hg, ps, h2, sts.
  split; [exact Hres |]. split; [exact Hg |]. split; [exact Hc |].
  rewrite <- Hh'. vm_compute. reflexivity.
Defined.

End RowProcessorExamples.

(** ** The batch: composition and failure *)

Section BatchProperties.
Context {Remote : Type} `{WikibaseAPI Remote} `{Urllib} `{WdiDatatypes}.

Import WikibaseHandler DataProcessor.

Lemma process_rows_app_ok (before after : list row) (h h1 : handler Remote) :
  no_terminal_row before = true ->
  process_rows before h = (h1, Ok tt) ->
  process_rows (before ++ after) h = process_rows after h1.
Proof.
  revert h. induction before as [| r before IH]; intros h; simpl.
  - by intros _ [= <-].
  - intros [Hr Hb]%andb_true_iff. apply negb_true_iff in Hr. rewrite Hr.
    unfold bind. destruct (_process_row r h) as [h' [[] | e]]; [| done].
    by apply IH.
Qed.

Lemma process_rows_app_raise (before after : list row) (h h1 : handler Remote)
    (e : exn) :
  process_rows before h = (h1, Raise e) ->
  process_rows (before ++ after) h = (h1, Raise e).
Proof.
  revert h. induction before as [| r before IH]; intros h; simpl; [done |].
  destruct (isnull_all r); [done |].
  unfold bind. destruct (_process_row r h) as [h' [[] | e']]; [| done].
  by apply IH.
Qed.

(** X14: the batch composes: when the first rows hold no terminal row
    and are processed without error, processing them followed by more
    rows is processing the other rows from the handler the first ones
    left; and when the first rows raise, the batch raises the same error
    from the same handler whatever follows. *)
Theorem batch_composes (before after : list row) (h h1 : handler Remote) :
  (no_terminal_row before = true ->
   process_rows before h = (h1, Ok tt) ->
   process_rows (before ++ after) h = process_rows after h1) /\
  (forall e,
     process_rows before h = (h1, Raise e) ->
     process_rows (before ++ after) h = (h1, Raise e)).
Proof.
  split; [apply process_rows_app_ok |].
  intros e. apply process_rows_app_raise.
Qed.

(** X15: a row that raises aborts the batch: the rows after it are not
    processed, the error is the one of the row, and what the rows before
    it and the failing row itself did to the handler stays (nothing is
    rolled back, nothing is retried). *)
Theorem batch_aborts_at_failing_row (before after : list row) (r : row)
    (h h1 h2 : handler Remote) (e : exn) :
  no_terminal_row before = true ->
  process_rows before h = (h1, Ok tt) ->
  isnull_all r = false ->
  _process_row r h1 = (h2, Raise e) ->
  process_rows (before ++ r :: after) h = (h2, Raise e).
Proof.
  intros Hb Hrun Hr Hrow.
  rewrite (process_rows_app_ok _ _ _ _ Hb Hrun).
  rewrite process_rows_step by done. by apply bind_raise.
Qed.

(** X16: a count that is zero is dropped: for a row processed to the
    end whose number of students (or of either kind of researchers) is
    the integer 0, the statement list has no statement on the property
    of that count, exactly as if the cell were null. *)
Theorem zero_count_is_not_emitted (r : row) (h h' : handler Remote) (f : field) :
  _process_row r h = (h', Ok tt) ->
  field_kind f = Quantity ->
  field_source f r = VInt 0 ->
  exists item_id before sts,
    calls h' = before ++ [ApiWrite item_id sts] /\
    statements_on (field_prop f) sts = [].
Proof.
  intros (item_id & before & pd & doi & url & ps & auth & lsts
          & Hcalls & _ & Hg & _ & Hauth & Hlines)%process_row_written Hk Hz.
  exists item_id, before, ((auth ++ lsts) ++ scalar_statements ps).
  split; [done |].
  rewrite (statements_on_field f) by done.
  destruct Hg as (_ & _ & _ & _ & _ & _ & _ & _ & _ & _ & _ & _ & _ & _ & _
                  & H16 & H17 & H18 & _).
  destruct f; try discriminate Hk; simpl in Hz; simpl field_entry;
    rewrite ?H16, ?H17, ?H18, Hz; reflexivity.
Qed.

(** X17: volume, start page and ISSN are written as text: for a row
    processed to the end, an integer cell gives one statement carrying
    the decimal writing of the integer, and a non-empty string cell one
    statement carrying the string unchanged. *)
Theorem text_fields_written_as_strings (r : row) (h h' : handler Remote)
    (f : field) :
  _process_row r h = (h', Ok tt) ->
  f = Volume \/ f = StartPage \/ f = Issn ->
  exists item_id before sts,
    calls h' = before ++ [ApiWrite item_id sts] /\
    (forall z, field_source f r = VInt z ->
       statements_on (field_prop f) sts = [field_statement f (VStr (pretty z))]) /\
    (forall s, field_source f r = VStr s -> s <> "" ->
       statements_on (field_prop f) sts = [field_statement f (VStr s)]).
Proof.
  intros (item_id & before & pd & doi & url & ps & auth & lsts
          & Hcalls & _ & Hg & _ & Hauth & Hlines)%process_row_written Hf.
  exists item_id, before, ((auth ++ lsts) ++ scalar_statements ps).
  split; [done |].
  rewrite (statements_on_field f) by done.
  destruct Hg as (_ & _ & _ & _ & _ & H6 & _ & _ & H9 & H10 & _).
  destruct Hf as [-> | [-> | ->]]; simpl field_entry; simpl field_source;
    rewrite ?H6, ?H9, ?H10; split.
  all: try (intros z ->;
            apply (proj1 (emit_str_unless_null (VInt z) _)); reflexivity).
  all: intros s -> Hs;
    apply (proj1 (emit_str_unless_null (VStr s) _)); simpl;
    by apply negb_true_iff, String.eqb_neq.
Qed.

End BatchProperties.

Section BatchExamples.
#[local] Existing Instance MemoryWikibase.api.
#[local] Existing Instance MemoryWikibase.urllib.
#[local] Existing Instance MemoryWikibase.datatypes.
Import WikibaseHandler DataProcessor MemoryWikibase.

Lemma batch_composes_witness :
  process_rows ([sample_row] ++ [sample_row_text_issue]) fresh_handler
  = process_rows [sample_row_text_issue] (process_rows [sample_row] fresh_handler).1.
Proof.
  apply (proj1 (batch_composes [sample_row] [sample_row_text_issue] fresh_handler
                  (process_rows [sample_row] fresh_handler).1));
    vm_compute; reflexivity.
Defined.

Lemma batch_aborts_at_failing_row_witness :
  (process_rows ([sample_row] ++ row_with_bad_date :: [sample_row_text_issue])
     fresh_handler).2 = Raise ValueError.
Proof.
  rewrite (batch_aborts_at_failing_row [sample_row] [sample_row_text_issue]
             row_with_bad_date fresh_handler
             (process_rows [sample_row] fresh_handler).1
             (_process_row row_with_bad_date
                (process_rows [sample_row] fresh_handler).1).1
             ValueError);
    vm_compute; reflexivity.
Defined.

Lemma zero_count_is_not_emitted_witness :
  exists h' item_id before sts,
    _process_row row_with_no_students fresh_handler = (h', Ok tt) /\
    calls h' = before ++ [ApiWrite item_id sts] /\
    statements_on "P18" sts = [].
Proof.
  destruct (zero_count_is_not_emitted row_with_no_students fresh_handler
              (_process_row row_with_no_students fresh_handler).1 Students)
    as (item_id & before & sts & Hcalls & Hsts);
    [vm_compute; reflexivity | reflexivity | reflexivity |].
  exists (_process_row row_with_no_students fresh_handler).1, item_id, before, sts.
  split; [vm_compute; reflexivity |]. split; [exact Hcalls | exact Hsts].
Defined.

Lemma text_fields_written_as_strings_witness :
  exists h' item_id before sts,
    _process_row sample_row fresh_handler = (h', Ok tt) /\
    calls h' = before ++ [ApiWrite item_id sts] /\
    statements_on "P6" sts = [WDString (VStr "7") "P6"] /\
    statements_on "P10" sts = [WDExternalID (VStr "1234-5678") "P10"].
Proof.
  destruct (text_fields_written_as_strings sample_row fresh_handler
              (_process_row sample_row fresh_handler).1 Volume)
    as (item_id & before & sts & Hcalls & Hint & _);
    [vm_compute; reflexivity | by left |].
  destruct (text_fields_written_as_strings sample_row fresh_handler
              (_process_row sample_row fresh_handler).1 Issn)
    as (item_id2 & before2 & sts2 & Hcalls2 & _ & Hstr);
    [vm_compute; reflexivity | by right; right |].
  rewrite Hcalls in Hcalls2. apply app_inj_tail in Hcalls2 as [_ [= _ <-]].
  exists (_process_row sample_row fresh_handler).1, item_id, before, sts.
  split; [vm_compute; reflexivity |]. split; [exact Hcalls |].
  split; [exact (Hint 7%Z eq_refl) |].
  apply (Hstr "1234-5678"); [reflexivity | discriminate].
Defined.

End BatchExamples.

(** ** The field transformers: further properties *)

Section TransformerProperties.
Context `{Urllib}.

Import DataProcessor.
Open Scope N_scope.

Lemma digit_inj (a b : N) : a < 10 -> b < 10 -> digit a = digit b -> a = b.
Proof.
  intros Ha Hb Heq. apply (f_equal N_of_ascii) in Heq.
  unfold digit in Heq. rewrite !N_ascii_embedding in Heq by lia. lia.
Qed.

Lemma pad2_inj (a b : N) : a < 100 -> b < 100 -> pad2 a = pad2 b -> a = b.
Proof.
  intros Ha Hb. unfold pad2. intros [= H1 H2].
  apply digit_inj in H1; [| lia | lia]. apply digit_inj in H2; [| lia | lia].
  lia.
Qed.

Lemma pad4_inj (a b : N) : a < 10000 -> b < 10000 -> pad4 a = pad4 b -> a = b.
Proof.
  intros Ha Hb Heq.
  pose proof (match_Y_pad4 a "" Ha) as Hya.
  pose proof (match_Y_pad4 b "" Hb) as Hyb.
  rewrite Heq, Hyb in Hya. by injection Hya.
Qed.

Lemma valid_date_limits (y m d : N) :
  valid_date y m d = true -> y < 10000 /\ m < 100 /\ d < 100.
Proof.
  unfold valid_date. rewrite !andb_true_iff, !N.leb_le.
  intros (((((_ & Hy) & _) & Hm) & _) & Hd).
  split; [lia |]. split; [lia |].
  assert (days_in_month y m <= 31); [| lia].
  unfold days_in_month. repeat case_match; lia.
Qed.

Lemma timestamp_inj (y1 m1 d1 y2 m2 d2 : N) :
  valid_date y1 m1 d1 = true -> valid_date y2 m2 d2 = true ->
  timestamp y1 m1 d1 = timestamp y2 m2 d2 ->
  (y1, m1, d1) = (y2, m2, d2).
Proof.
  intros (Hy1 & Hm1 & Hd1)%valid_date_limits (Hy2 & Hm2 & Hd2)%valid_date_limits.
  unfold timestamp.
  change ("+" +:+ pad4 y1 +:+ "-" +:+ pad2 m1 +:+ "-" +:+ pad2 d1 +:+ "T00:00:00Z")
    with (String "+" (pad4 y1 +:+ String "-" (pad2 m1 +:+ String "-"
            (pad2 d1 +:+ "T00:00:00Z")))).
  change ("+" +:+ pad4 y2 +:+ "-" +:+ pad2 m2 +:+ "-" +:+ pad2 d2 +:+ "T00:00:00Z")
    with (String "+" (pad4 y2 +:+ String "-" (pad2 m2 +:+ String "-"
            (pad2 d2 +:+ "T00:00:00Z")))).
  unfold pad4, pad2. cbv beta iota delta [String.append].
  intros [= Y1 Y2 Y3 Y4 M1 M2 D1 D2].
  assert (y1 = y2) as ->.
  { apply pad4_inj; [done | done |]. unfold pad4, pad2. congruence. }
  assert (m1 = m2) as ->.
  { apply pad2_inj; [done | done |]. unfold pad2. congruence. }
  assert (d1 = d2) as ->.
  { apply pad2_inj; [done | done |]. unfold pad2. congruence. }
  done.
Qed.

Lemma format_date_of_held (v : pyval) (y m d : N) :
  valid_date y m d = true -> 1000 <= y -> holds_date v y m d ->
  _format_date v = Ok (timestamp y m d).
Proof.
  intros Hv Hy Hh. destruct v as [| z | s | dt]; try done.
  - by apply format_date_of_form.
  - destruct Hh as (_ & <- & <- & <-). by apply format_date_of_datetime.
Qed.

(** X18: from the year 1000 on, the time value tells dates apart and
    nothing else: two cells holding valid dates of such years, as
    datetimes or written day-month-year in any of the accepted forms,
    are formatted to the same time value exactly when the dates are the
    same; the time of day and the padding of the day and the month are
    forgotten. *)
Theorem format_date_equal_iff_same_date (v1 v2 : pyval)
    (y1 m1 d1 y2 m2 d2 : N) :
  valid_date y1 m1 d1 = true -> 1000 <= y1 -> holds_date v1 y1 m1 d1 ->
  valid_date y2 m2 d2 = true -> 1000 <= y2 -> holds_date v2 y2 m2 d2 ->
  _format_date v1 = _format_date v2 <-> (y1, m1, d1) = (y2, m2, d2).
Proof.
  intros Hv1 Hy1 Hh1 Hv2 Hy2 Hh2.
  rewrite (format_date_of_held v1 y1 m1 d1), (format_date_of_held v2 y2 m2 d2)
    by done.
  split.
  - intros Heq. apply timestamp_inj; [done | done |].
    exact (f_equal (fun r => match r with Ok t => t | Raise _ => EmptyString end) Heq).
  - by intros [= -> -> ->].
Qed.

Lemma lstrip_char_suffix (c : ascii) (s : string) :
  exists n,
    s = replicate_char n c +:+ PyStr.lstrip_char c s /\
    PyStr.startswith (String c "") (PyStr.lstrip_char c s) = false.
Proof.
  induction s as [| a s (n & Hs & Hn)]; simpl.
  - by exists 0%nat.
  - destruct (Ascii.eqb a c) eqn:E.
    + apply Ascii.eqb_eq in E as ->. exists (S n). split; [| done].
      change (String c s = String c (replicate_char n c +:+ PyStr.lstrip_char c s)).
      by f_equal.
    + exists 0%nat. split; [done |]. simpl.
      rewrite Ascii.eqb_sym in E. by rewrite E.
Qed.

(** X19: the DOI identifier is the path of the parsed URL with its
    leading slashes removed and nothing else changed: the path is some
    slashes followed by the identifier, and the identifier does not
    start with a slash. *)
Theorem doi_identifier_has_no_leading_slash (raw identifier : string) :
  _extract_doi (VStr raw) = Ok (Some identifier) ->
  PyStr.startswith "/" identifier = false /\
  exists parsed n,
    urlparse (with_scheme raw) = Ok parsed /\
    path parsed = replicate_char n "/" +:+ identifier.
Proof.
  unfold _extract_doi. fold (with_scheme raw).
  destruct (PyStr.contains "doi.org" raw); [| done].
  assert (with_scheme raw
          = (if negb (PyStr.startswith "http" raw) then "https://" +:+ raw else raw))
    as <- by (unfold with_scheme; by destruct (PyStr.startswith "http" raw)).
  destruct (urlparse (with_scheme raw)) as [parsed | e]; [| done].
  intros [= <-].
  destruct (lstrip_char_suffix "/" (path parsed)) as (n & Hs & Hn).
  split; [done |]. by exists parsed, n.
Qed.

(** X20: both DOI transforms need a string: on an integer or a
    datetime they raise [TypeError].  On a string [_process_url] never
    raises, and [_extract_doi] raises only the error of [urlparse], on a
    string that contains "doi.org"; when it does not raise, exactly one
    of the two returns a value. *)
Theorem doi_transforms_by_type (v : pyval) :
  match v with
  | VStr raw =>
      (_process_url v = Ok None /\
       ((exists identifier, _extract_doi v = Ok (Some identifier)) \/
        (exists e, urlparse (with_scheme raw) = Raise e /\
                   _extract_doi v = Raise e))) \/
      (_process_url v = Ok (Some raw) /\ _extract_doi v = Ok None)
  | _ => _extract_doi v = Raise TypeError /\ _process_url v = Raise TypeError
  end.
Proof.
  destruct v as [| z | raw | d]; try done.
  destruct (PyStr.contains "doi.org" raw) eqn:Hc.
  - left. rewrite (extract_doi_of_doi_link raw) by by apply contains_iff.
    unfold _process_url. rewrite Hc. split; [done |].
    destruct (urlparse (with_scheme raw)) as [parsed | e]; simpl.
    + left. by eexists.
    + right. by exists e.
  - right. unfold _extract_doi, _process_url. by rewrite Hc.
Qed.

End TransformerProperties.

Section TransformerExamples.
#[local] Existing Instance MemoryWikibase.urllib.
Import DataProcessor.

Lemma format_date_equal_iff_same_date_witness :
  _format_date (VStr "5-3-2021")
  = _format_date (VDatetime (mk_datetime 2021 3 5 17 30 0)).
Proof.
  apply (format_date_equal_iff_same_date (VStr "5-3-2021")
           (VDatetime (mk_datetime 2021 3 5 17 30 0)) 2021 3 5 2021 3 5)%N.
  - reflexivity.
  - vm_compute. discriminate.
  - exists "5", "3". split; [right; by left |]. split; [right; by left |].
    reflexivity.
  - reflexivity.
  - vm_compute. discriminate.
  - by repeat split.
  - reflexivity.
Defined.

Lemma doi_identifier_has_no_leading_slash_witness :
  PyStr.startswith "/" "10.1000/182" = false /\
  exists parsed n,
    urlparse (with_scheme "https://doi.org//10.1000/182") = Ok parsed /\
    path parsed = replicate_char n "/" +:+ "10.1000/182".
Proof.
  apply (doi_identifier_has_no_leading_slash "https://doi.org//10.1000/182").
  vm_compute. reflexivity.
Defined.

End TransformerExamples.

(** ** The person search: tokens, query and requests *)

Section PersonSearchTokens.
Import SearchPerson.

Lemma split_ws_aux_cons (c : ascii) (s : string) :
  PyStr.split_ws_aux (String c s)
  = if PyStr.isspace c
    then (EmptyString,
          match (PyStr.split_ws_aux s).1 with
          | EmptyString => (PyStr.split_ws_aux s).2
          | cur => cur :: (PyStr.split_ws_aux s).2
          end)
    else (String c (PyStr.split_ws_aux s).1, (PyStr.split_ws_aux s).2).
Proof.
  simpl. destruct (PyStr.split_ws_aux s) as [cur toks]. simpl.
  by destruct (PyStr.isspace c), cur.
Qed.

Lemma split_ws_aux_gap (gap rest : string) :
  whitespace_only gap = true -> gap <> "" ->
  PyStr.split_ws_aux (gap +:+ rest)
  = (EmptyString,
     match (PyStr.split_ws_aux rest).1 with
     | EmptyString => (PyStr.split_ws_aux rest).2
     | cur => cur :: (PyStr.split_ws_aux rest).2
     end).
Proof.
  induction gap as [| c gap IH]; [done |].
  intros Hg _. simpl in Hg. apply andb_true_iff in Hg as [Hc Hg].
  rewrite append_cons, split_ws_aux_cons, Hc.
  destruct gap as [| c' gap'].
  - by rewrite append_nil.
  - by rewrite IH.
Qed.

Lemma split_ws_aux_blank (s : string) :
  whitespace_only s = true -> PyStr.split_ws_aux s = (EmptyString, []).
Proof.
  induction s as [| c s IH]; [done |].
  intros Hs. simpl in Hs. apply andb_true_iff in Hs as [Hc Hs].
  by rewrite split_ws_aux_cons, Hc, IH.
Qed.

Lemma split_ws_aux_word (word rest : string) :
  no_space word = true ->
  PyStr.split_ws_aux (word +:+ rest)
  = (word +:+ (PyStr.split_ws_aux rest).1, (PyStr.split_ws_aux rest).2).
Proof.
  induction word as [| c word IH]; intros Hw.
  - rewrite !append_nil. by destruct (PyStr.split_ws_aux rest).
  - simpl in Hw. apply andb_true_iff in Hw as [Hc%negb_true_iff Hw].
    by rewrite append_cons, split_ws_aux_cons, Hc, IH, append_cons.
Qed.

Lemma word_app_nonempty (word s : string) :
  is_word word = true -> exists c t, word +:+ s = String c t.
Proof.
  destruct word as [| c word]; [done |]. intros _. by eexists _, _.
Qed.

Lemma split_ws_aux_spaced (words : list (string * string)) (rest : string) :
  Forall (fun wg => is_word wg.1 = true /\ is_gap wg.2 = true) words ->
  PyStr.split_ws_aux (spaced words +:+ rest)
  = match words with
    | [] => PyStr.split_ws_aux rest
    | (word, _) :: more =>
        (word,
         more.*1 ++
         match (PyStr.split_ws_aux rest).1 with
         | EmptyString => (PyStr.split_ws_aux rest).2
         | cur => cur :: (PyStr.split_ws_aux rest).2
         end)
    end.
Proof.
  intros Hall. induction Hall as [| [word gap] more [Hw Hg] Hmore IH]; [done |].
  simpl in Hw, Hg. apply andb_true_iff in Hw as [Hne Hns].
  apply andb_true_iff in Hg as [Hgne%negb_true_iff%String.eqb_neq Hgws].
  simpl spaced. rewrite !append_assoc.
  rewrite split_ws_aux_word by done.
  rewrite split_ws_aux_gap by done. simpl.
  rewrite IH, append_empty_r. f_equal.
  destruct more as [| [word' gap'] more']; [done |]. simpl.
  apply Forall_cons in Hmore as [[Hw' _] _]. simpl in Hw'.
  by destruct word'.
Qed.

(** The tokens of a name written as words separated by gaps, with any
    whitespace before and after. *)
Lemma split_ws_spaced (lead trail last_word : string)
    (words : list (string * string)) :
  whitespace_only lead = true ->
  Forall (fun wg => is_word wg.1 = true /\ is_gap wg.2 = true) words ->
  is_word last_word = true ->
  whitespace_only trail = true ->
  PyStr.split_ws (lead +:+ spaced words +:+ last_word +:+ trail)
  = words.*1 ++ [last_word].
Proof.
  intros Hlead Hwords Hlast Htrail.
  assert (Haux : PyStr.split_ws_aux (spaced words +:+ last_word +:+ trail)
                 = (hd last_word words.*1, tl (words.*1 ++ [last_word]))).
  { rewrite split_ws_aux_spaced by done.
    apply andb_true_iff in Hlast as [Hne Hns].
    rewrite split_ws_aux_word, split_ws_aux_blank, append_empty_r by done.
    simpl. destruct words as [| [w g] more]; simpl; [done |].
    by destruct last_word. }
  assert (Hhd : hd last_word words.*1 <> "").
  { destruct words as [| [w g] more]; simpl.
    - by destruct last_word.
    - apply Forall_cons in Hwords as [[Hw _] _]. by destruct w. }
  assert (Hall : hd last_word words.*1 :: tl (words.*1 ++ [last_word])
                 = words.*1 ++ [last_word]).
  { by destruct words. }
  unfold PyStr.split_ws. destruct lead as [| c lead].
  - rewrite append_nil, Haux.
    destruct (hd last_word words.*1); [done | by rewrite <- Hall].
  - rewrite split_ws_aux_gap by done. rewrite Haux. simpl.
    destruct (hd last_word words.*1); [done | by rewrite <- Hall].
Qed.

(** X21: the query reads the first and the last word of the name and
    nothing else: for a name made of a first word, any further words and
    a last word, separated by whitespace of any length and with any
    whitespace around, the query is the one of the three patterns built
    from the first and the last word, and it holds the filter clause
    for the alternation of these patterns; a name of one word, or of
    whitespace only, raises [ValueError]. *)
Theorem query_reads_first_and_last_word (lead gap trail first_name last_name : string)
    (middle : list (string * string)) :
  whitespace_only lead = true ->
  whitespace_only trail = true ->
  is_word first_name = true ->
  is_gap gap = true ->
  Forall (fun wg => is_word wg.1 = true /\ is_gap wg.2 = true) middle ->
  is_word last_name = true ->
  (exists query,
     construct_query
       (lead +:+ spaced ((first_name, gap) :: middle) +:+ last_name +:+ trail)
     = Ok query /\
     query = query_text (PyStr.join "|" (patterns first_name last_name)) /\
     occurs_in
       (regex_filter
          (last_name +:+ " " +:+ first_char first_name +:+ "|" +:+
           first_char first_name +:+ ". " +:+ last_name +:+ "|" +:+
           first_name +:+ " " +:+ last_name))
       query) /\
  construct_query (lead +:+ last_name +:+ trail) = Raise ValueError /\
  construct_query lead = Raise ValueError.
Proof.
  intros Hlead Htrail Hfirst Hgap Hmiddle Hlast. split; [| split].
  - eexists. split; [| split; [reflexivity |]].
    2:{ replace (last_name +:+ " " +:+ first_char first_name +:+ "|" +:+
                 first_char first_name +:+ ". " +:+ last_name +:+ "|" +:+
                 first_name +:+ " " +:+ last_name)
          with (PyStr.join "|" (patterns first_name last_name));
          [apply query_text_filter |].
        unfold patterns. cbn [PyStr.join]. by rewrite !append_assoc. }
    unfold construct_query.
    rewrite (split_ws_spaced lead trail last_name ((first_name, gap) :: middle))
      by (done || by constructor).
    change (((first_name, gap) :: middle).*1 ++ [last_name])
      with ((first_name :: middle.*1) ++ [last_name]).
    rewrite last_last.
    replace (length ((first_name :: middle.*1) ++ [last_name]) <? 2)%nat
      with false; [done |].
    symmetry. apply Nat.ltb_ge. rewrite length_app. simpl. lia.
  - unfold construct_query.
    pose proof (split_ws_spaced lead trail last_name [] Hlead (Forall_nil_2 _)
                  Hlast Htrail) as Hs.
    change (spaced []) with "" in Hs. rewrite append_nil in Hs.
    by rewrite Hs.
  - unfold construct_query, PyStr.split_ws.
    by rewrite split_ws_aux_blank.
Qed.

(** X22: the search never sends a request: a name with fewer than two
    tokens raises [ValueError] in the query constructor, and any other
    name raises [NameError] when [get_results] builds the user agent
    from the module [sys], which the file does not import; the list of
    requests is returned as it was. *)
Theorem person_search_sends_no_request (name : string) (net : list net_call) :
  search_person_by_name name net
  = (net, Raise (if (length (PyStr.split_ws name) <? 2)%nat
                 then ValueError else NameError)).
Proof.
  unfold search_person_by_name, construct_query, get_results.
  by destruct (length (PyStr.split_ws name) <? 2)%nat.
Qed.

Lemma query_reads_first_and_last_word_witness :
  (exists query,
     construct_query "  Ada   King Lovelace " = Ok query /\
     query = query_text "Lovelace A|A. Lovelace|Ada Lovelace" /\
     occurs_in (regex_filter "Lovelace A|A. Lovelace|Ada Lovelace") query) /\
  construct_query "  Lovelace " = Raise ValueError /\
  construct_query "  " = Raise ValueError.
Proof.
  apply (query_reads_first_and_last_word "  " "   " " " "Ada" "Lovelace"
           [("King", " ")]); try reflexivity.
  by repeat constructor.
Defined.

End PersonSearchTokens.

(** ** The confirmation prompt *)

Section Confirmation.
Context {Remote : Type} `{WikibaseAPI Remote} `{Urllib} `{WdiDatatypes}.

Import DataProcessor.

Lemma lstrip_lead (lead s : string) :
  whitespace_only lead = true -> PyStr.lstrip (lead +:+ s) = PyStr.lstrip s.
Proof.
  induction lead as [| c lead IH]; [done |].
  intros Hl. simpl in Hl. apply andb_true_iff in Hl as [Hc Hl].
  rewrite append_cons. simpl. rewrite Hc. by apply IH.
Qed.

Lemma lstrip_blank (s : string) :
  whitespace_only s = true -> PyStr.lstrip s = "".
Proof.
  induction s as [| c s IH]; [done |].
  intros Hs. simpl in Hs. apply andb_true_iff in Hs as [Hc Hs].
  simpl. rewrite Hc. by apply IH.
Qed.

Lemma rstrip_blank (trail : string) :
  whitespace_only trail = true -> PyStr.rstrip trail = "".
Proof.
  induction trail as [| c trail IH]; [done |].
  intros Ht. simpl in Ht. apply andb_true_iff in Ht as [Hc Ht].
  simpl. by rewrite IH, Hc.
Qed.

Lemma rstrip_trail (s trail : string) :
  whitespace_only trail = true -> PyStr.rstrip (s +:+ trail) = PyStr.rstrip s.
Proof.
  intros Ht. induction s as [| c s IH].
  - rewrite append_nil. by rewrite rstrip_blank.
  - rewrite append_cons. simpl. by rewrite IH.
Qed.

Lemma rstrip_no_space (s : string) : no_space s = true -> PyStr.rstrip s = s.
Proof.
  induction s as [| c s IH]; [done |].
  intros Hs. simpl in Hs. apply andb_true_iff in Hs as [Hc%negb_true_iff Hs].
  simpl. rewrite IH by done.
  destruct s; [by rewrite Hc | done].
Qed.

(** Stripping removes the whitespace around a text that has none
    inside. *)
Lemma strip_around (lead s trail : string) :
  whitespace_only lead = true -> whitespace_only trail = true ->
  no_space s = true ->
  PyStr.strip (lead +:+ s +:+ trail) = s.
Proof.
  intros Hl Ht Hs. unfold PyStr.strip. rewrite lstrip_lead by done.
  destruct s as [| c s].
  - rewrite append_nil. by rewrite lstrip_blank.
  - pose proof Hs as Hs'. simpl in Hs'.
    apply andb_true_iff in Hs' as [Hc%negb_true_iff _].
    rewrite append_cons. simpl PyStr.lstrip. rewrite Hc, <- append_cons.
    rewrite rstrip_trail by done. by apply rstrip_no_space.
Qed.

Lemma isspace_lower_char (c : ascii) :
  PyStr.isspace (PyStr.lower_char c) = PyStr.isspace c.
Proof.
  unfold PyStr.lower_char.
  destruct (_ && _) eqn:E; [| done].
  apply andb_true_iff in E as [E1%N.leb_le E2%N.leb_le].
  unfold PyStr.isspace. rewrite N_ascii_embedding by lia.
  repeat match goal with
         | |- context [(?a <=? ?b)%N] => destruct (N.leb_spec a b)
         end; simpl; try done; lia.
Qed.

Lemma no_space_lower (s : string) : no_space (PyStr.lower s) = no_space s.
Proof.
  induction s as [| c s IH]; [done |]. simpl.
  by rewrite isspace_lower_char, IH.
Qed.

(** X23: the batch runs only on a confirmation: an answer that is not
    "yes" once stripped and lower-cased leaves the handler as it is, with
    no remote call; an answer spelling "yes" in any letter case, with any
    whitespace around it, runs the loop over the rows. *)
Theorem confirmation_gate (data : list row) (h : handler Remote) :
  (forall response,
     PyStr.lower (PyStr.strip response) <> "yes" ->
     process_data data response h = (h, Ok tt)) /\
  (forall lead answer trail,
     whitespace_only lead = true -> whitespace_only trail = true ->
     PyStr.lower answer = "yes" ->
     process_data data (lead +:+ answer +:+ trail) h = process_rows data h).
Proof.
  split.
  - intros response Hno. unfold process_data.
    destruct (String.eqb_spec (PyStr.lower (PyStr.strip response)) "yes"); done.
  - intros lead answer trail Hl Ht Ha. unfold process_data.
    rewrite strip_around; [by rewrite Ha | done | done |].
    by rewrite <- no_space_lower, Ha.
Qed.

End Confirmation.

Section ConfirmationExamples.
#[local] Existing Instance MemoryWikibase.api.
#[local] Existing Instance MemoryWikibase.urllib.
#[local] Existing Instance MemoryWikibase.datatypes.
Import DataProcessor MemoryWikibase.

Lemma confirmation_gate_witness :
  process_data [sample_row] "y" fresh_handler = (fresh_handler, Ok tt) /\
  process_data [sample_row] " YeS  " fresh_handler
  = process_rows [sample_row] fresh_handler.
Proof.
  destruct (confirmation_gate [sample_row] fresh_handler) as [Hno Hyes].
  split.
  - apply Hno. discriminate.
  - apply (Hyes " " "YeS" "  "); reflexivity.
Defined.

End ConfirmationExamples.

(** ** Ids stay stable during a run *)

Section StableIds.
Context {Remote : Type} `{WikibaseAPI Remote} `{Urllib} `{WdiDatatypes}.

Import WikibaseHandler DataProcessor.

(** X24: an id, once in the cache, is the id of that name for the rest
    of the run: after any batch, however it ended, resolving the name
    again, as any kind, returns the same id from the cache, with no
    remote call and no change to the handler. *)
Theorem cached_id_survives_batch (data : list row) (response : string)
    (h h' : handler Remote) (res : result unit) (name : pyval)
    (item_id : string) (item_type : Z) :
  cache h !! name = Some item_id ->
  process_data data response h = (h', res) ->
  get_or_create_item name item_type h' = (h', Ok item_id).
Proof.
  intros Hc Hrun. apply get_or_create_item_hit.
  revert Hrun. unfold process_data. destruct (negb _).
  - by intros [= <- _].
  - intros Hrun. by apply (keeps_cache_process_rows data h h' res Hrun).
Qed.

End StableIds.

Section StableIdsExamples.
#[local] Existing Instance MemoryWikibase.api.
#[local] Existing Instance MemoryWikibase.urllib.
#[local] Existing Instance MemoryWikibase.datatypes.
Import WikibaseHandler DataProcessor MemoryWikibase.

Lemma cached_id_survives_batch_witness :
  get_or_create_item (VStr "Jane Doe") AUTHOR
    (process_data [sample_row; row_with_bad_date] "yes"
       handler_with_cached_author).1
  = ((process_data [sample_row; row_with_bad_date] "yes"
        handler_with_cached_author).1, Ok "Q7").
Proof.
  apply (cached_id_survives_batch [sample_row; row_with_bad_date] "yes"
           handler_with_cached_author _
           (process_data [sample_row; row_with_bad_date] "yes"
              handler_with_cached_author).2).
  - reflexivity.
  - apply surjective_pairing.
Defined.

End StableIdsExamples.

(** ** The scalar and reference fields of a processed row *)

Section ScalarFields.
Context {Remote : Type} `{WikibaseAPI Remote} `{Urllib} `{WdiDatatypes}.

Import WikibaseHandler DataProcessor.

Lemma resolve_unless_null_inv (v : pyval) (h h' : handler Remote)
    (p : option pyval) :
  resolve_unless_null v h = (h', Ok p) ->
  (isnull v = true -> p = None /\ h' = h) /\
  (isnull v = false ->
     exists item_id,
       get_or_create_item v 0 h = (h', Ok item_id) /\ p = Some (VStr item_id)).
Proof.
  unfold resolve_unless_null. destruct (isnull v); simpl.
  - intros [= <- <-]. by split.
  - intros (h1 & item_id & Hr & [= <- <-])%bind_inv.
    split; [done |]. intros _. by exists item_id.
Qed.

(** The three reference entries are resolved one after the other. *)
Lemma gather_properties_references (r : row) (pd : string)
    (doi url : option string) (h h' : handler Remote) (ps : properties) :
  _gather_properties r pd doi url h = (h', Ok ps) ->
  exists h3 h5,
    resolve_unless_null (Categoria_Publicacion r) h = (h3, Ok (P3 ps)) /\
    resolve_unless_null (Fuente r) h3 = (h5, Ok (P5 ps)) /\
    resolve_unless_null (Red_Formal_en_la_que_Participa r) h5 = (h', Ok (P14 ps)).
Proof.
  unfold _gather_properties.
  intros (h3 & p3 & H3 & Hrun)%bind_inv.
  apply bind_inv in Hrun as (h5 & p5 & H5 & Hrun).
  apply bind_inv in Hrun as (h14 & p14 & H14 & [= <- <-]).
  by exists h3, h5.
Qed.

Lemma emit_unless_null_cases (v : pyval) (mk : pyval -> statement) :
  emit (unless_null v) mk
  = if negb (isnull v) && truthy v then [mk v] else [].
Proof. unfold unless_null, emit. by destruct v. Qed.

Lemma emit_str_unless_null_cases (v : pyval) (mk : pyval -> statement) :
  emit (str_unless_null v) mk
  = if present v then [mk (VStr (str v))] else [].
Proof. destruct (present v) eqn:Hp; by apply emit_str_unless_null. Qed.

Lemma emit_doi_identifier (r : row) (doi url : option string) (pd : string)
    (mk : pyval -> statement) :
  doi_fields r doi url ->
  emit (VStr <$> doi) mk
  = match emitted_value DoiId r pd with
    | Some v => [mk v]
    | None => []
    end.
Proof.
  unfold doi_fields, emitted_value. destruct (DOI r) as [| z | s | d].
  - by intros [-> _].
  - by intros [? _].
  - intros [Hd _]. destruct (PyStr.contains "doi.org" s) eqn:Hc.
    + rewrite (extract_doi_of_doi_link s) in Hd by by apply contains_iff.
      destruct (urlparse (with_scheme s)) as [parsed | e]; [| done].
      injection Hd as <-. unfold emit. simpl.
      by destruct (String.eqb (PyStr.lstrip_char "/" (path parsed)) "").
    + unfold _extract_doi in Hd. rewrite Hc in Hd. by injection Hd as <-.
  - by intros [? _].
Qed.

Lemma emit_related_url (r : row) (doi url : option string) (pd : string)
    (mk : pyval -> statement) :
  doi_fields r doi url ->
  emit (VStr <$> url) mk
  = match emitted_value RelatedUrl r pd with
    | Some v => [mk v]
    | None => []
    end.
Proof.
  unfold doi_fields, emitted_value, _process_url.
  destruct (DOI r) as [| z | s | d].
  - by intros [_ ->].
  - by intros [_ ?].
  - intros [_ Hu]. destruct (PyStr.contains "doi.org" s); simpl in *.
    + by injection Hu as <-.
    + injection Hu as <-. unfold emit. simpl. by destruct (String.eqb s "").
  - by intros [_ ?].
Qed.

Lemma emit_resolved (v : pyval) (h h' : handler Remote) (p : option pyval)
    (mk : pyval -> statement) :
  resolve_unless_null v h = (h', Ok p) ->
  (isnull v = true -> emit p mk = []) /\
  (isnull v = false ->
     exists ref_id hb,
       get_or_create_item v 0 h = (hb, Ok ref_id) /\
       emit p mk = if String.eqb ref_id "" then [] else [mk (VStr ref_id)]).
Proof.
  intros [Hnull Hres]%resolve_unless_null_inv. split.
  - by intros [-> _]%Hnull.
  - intros (ref_id & Hr & ->)%Hres. exists ref_id, h'. split; [done |].
    unfold emit. simpl. by destruct (String.eqb ref_id "").
Qed.

(** X25: the scalar and reference fields of a row processed to the
    end.  Every field has at most one statement, of the value-kind of
    the field.  A field that is not a reference has the statement of
    [emitted_value], and none when there is no such value: a null or
    empty source, an issue number that is not an integer, a count of
    zero, a DOI cell feeding the other of its two fields.  A reference
    field (category, venue, formal network) has no statement when its
    source is null; otherwise its source is resolved with no kind, in
    the handler state the resolutions before it left, and the statement
    carries the id returned, unless that id is empty. *)
Theorem processed_row_scalar_fields (r : row) (h h' : handler Remote) :
  _process_row r h = (h', Ok tt) ->
  exists item_id before sts pd,
    calls h' = before ++ [ApiWrite item_id sts] /\
    _format_date (Fecha_Publicacion r) = Ok pd /\
    forall f,
      (length (statements_on (field_prop f) sts) <= 1)%nat /\
      Forall (fun st => kind_of st = field_kind f)
        (statements_on (field_prop f) sts) /\
      (is_reference f = false ->
         statements_on (field_prop f) sts
         = match emitted_value f r pd with
           | Some v => [field_statement f v]
           | None => []
           end) /\
      (is_reference f = true ->
         (isnull (field_source f r) = true ->
            statements_on (field_prop f) sts = []) /\
         (isnull (field_source f r) = false ->
            exists ref_id hb,
              get_or_create_item (field_source f r) 0 (resolution_state f r h)
              = (hb, Ok ref_id) /\
              statements_on (field_prop f) sts
              = if String.eqb ref_id ""
                then [] else [field_statement f (VStr ref_id)])).
Proof.
  intros (h1 & item_id & pd & doi & url & hg & ps & h2 & sts
          & Hres & Hd & Hdf & Hg & Hc & ->)%process_row_inv.
  destruct (gather_properties_returns r pd doi url h1) as (hg' & ps' & Hg' & Hps).
  rewrite Hg in Hg'. injection Hg' as <- <-.
  destruct (gather_properties_references r pd doi url h1 hg ps Hg)
    as (h3 & h5 & R3 & R5 & R14).
  apply create_statements_inv in Hc
    as (authors & lines & ids & h1' & lids & _ & _ & _ & _ & _ & _ & ->).
  eexists item_id, (calls h2), _, pd.
  split; [reflexivity |]. split; [exact Hd |]. intros f.
  rewrite (statements_on_field f)
    by apply item_statements_props.
  split; [apply emit_length |].
  split; [apply emit_kinds, field_statement_kind |].
  pose proof (emit_issue r pd doi url ps Hps) as Hissue.
  destruct Hps as (H2 & _ & _ & _ & _ & H6 & _ & H8 & H9 & H10 & H11
                   & H12 & H13 & _ & _ & H16 & H17 & H18 & H24).
  unfold resolution_state. rewrite Hres. cbn [fst]. rewrite R3. cbn [fst].
  rewrite R5. cbn [fst].
  destruct f; simpl is_reference; split;
    try (intros Hfalse; discriminate Hfalse); intros _;
    simpl field_entry; simpl field_source.
  - (* publication date *)
    rewrite H2. apply emit_some_truthy. by apply (format_date_nonempty _ _ Hd).
  - (* category *)
    exact (emit_resolved _ _ _ _ (field_statement Category) R3).
  - (* venue *)
    exact (emit_resolved _ _ _ _ (field_statement Venue) R5).
  - (* volume *)
    rewrite H6, emit_str_unless_null_cases. unfold emitted_value.
    simpl field_source. by destruct (present _).
  - (* issue *)
    change (emit (P7 ps) (field_statement Issue))
      with (emit (P7 ps) (fun v => WDString v "P7")).
    rewrite Hissue. unfold emitted_value. by destruct (Numero r).
  - (* title *)
    rewrite H8. unfold emit, emitted_value. by destruct (truthy (Titulo r)).
  - (* start page *)
    rewrite H9, emit_str_unless_null_cases. unfold emitted_value.
    simpl field_source. by destruct (present _).
  - (* ISSN *)
    rewrite H10, emit_str_unless_null_cases. unfold emitted_value.
    simpl field_source. by destruct (present _).
  - (* DOI identifier *)
    rewrite H11. by apply (emit_doi_identifier r doi url).
  - (* quartile *)
    rewrite H12, emit_unless_null_cases. unfold emitted_value.
    simpl field_source. by destruct (negb _ && _).
  - (* quartile criterion *)
    rewrite H13, emit_unless_null_cases. unfold emitted_value.
    simpl field_source. by destruct (negb _ && _).
  - (* formal network *)
    exact (emit_resolved _ _ _ _ (field_statement FormalNetwork) R14).
  - (* associated researchers *)
    rewrite H16, emit_unless_null_cases. unfold emitted_value.
    simpl field_source. by destruct (negb _ && _).
  - (* other researchers *)
    rewrite H17, emit_unless_null_cases. unfold emitted_value.
    simpl field_source. by destruct (negb _ && _).
  - (* students *)
    rewrite H18, emit_unless_null_cases. unfold emitted_value.
    simpl field_source. by destruct (negb _ && _).
  - (* related URL *)
    rewrite H24. by apply (emit_related_url r doi url).
Qed.

(** *** When the builder returns *)







End ScalarFields.

Section ScalarFieldsExamples.
#[local] Existing Instance MemoryWikibase.api.
#[local] Existing Instance MemoryWikibase.urllib.
#[local] Existing Instance MemoryWikibase.datatypes.
Import WikibaseHandler DataProcessor MemoryWikibase.

Lemma processed_row_scalar_fields_witness :
  exists item_id before sts,
    calls (_process_row sample_row fresh_handler).1
    = before ++ [ApiWrite item_id sts] /\
    statements_on "P2" sts = [WDTime (VStr "+2021-03-15T00:00:00Z") "P2"] /\
    statements_on "P11" sts = [WDExternalID (VStr "10.1000/182") "P11"] /\
    statements_on "P24" sts = [] /\
    statements_on "P13" sts = [] /\
    statements_on "P5" sts = [WDItemID (VStr "Q3") "P5"].
Proof.
  destruct (processed_row_scalar_fields sample_row fresh_handler
              (_process_row sample_row fresh_handler).1)
    as (item_id & before & sts & pd & Hcalls & Hd & Hfields);
    [vm_compute; reflexivity |].
  injection Hd as <-.
  exists item_id, before, sts. split; [exact Hcalls |].
  split; [exact (proj1 (proj2 (proj2 (Hfields PublicationDate))) eq_refl) |].
  split; [exact (proj1 (proj2 (proj2 (Hfields DoiId))) eq_refl) |].
  split; [exact (proj1 (proj2 (proj2 (Hfields RelatedUrl))) eq_refl) |].
  split; [exact (proj1 (proj2 (proj2 (Hfields QuartileCriterion))) eq_refl) |].
  destruct (proj2 (proj2 (proj2 (proj2 (Hfields Venue))) eq_refl) eq_refl)
    as (ref_id & hb & Hr & Hsts).
  vm_compute in Hr. injection Hr as _ <-. exact Hsts.
Defined.


End ScalarFieldsExamples.
